(** * SAP automation: orchestration and resilience core

    A shallow embedding of the Python sources
    - [src/core/circuit_breaker.py]   (module [CircuitBreaker])
    - [src/api/middleware.py]         (module [Middleware])
    - [src/core/base_module.py]       (module [BaseModule])
    - [src/modules/fi/accounts_payable.py] (module [AccountsPayable])
    - [src/workflows/invoice_processing_workflow.py] (module [InvoiceWorkflow])
    - [src/workflows/procure_to_pay.py] (module [ProcureToPay])
    and of further parts of these files and of
    - [src/modules/mm/purchase_order.py] (modules [PurchaseOrder],
      [PurchaseOrderGoods])
    - [src/modules/sd/sales_order.py] (modules [SalesOrder],
      [SalesOrderDocuments])
    (modules [CircuitBreakerRuns], [HttpMiddleware], [BaseModuleBatch],
    [AuditTrail], [AccountsPayableDocuments], [InvoiceWorkflowTraces],
    [ProcureToPayStatus]), followed by the theorems that settle the
    properties C1..C10 and by further properties X1..X28 of the code.

    Conventions.  Python exceptions are values of [Exn]; a computation that
    may raise returns a [Res].  Code that talks to the outside world (the
    SAP connector, the clock, the OCR engine, the notification sinks) is
    written in the monad [M W] over an abstract world [W]; every collaborator
    is a field of a record of operations of that monad, so a collaborator may
    change the world, return or raise.  Python [float]s and [int]s are exact
    rationals ([Q]); dictionaries are [gmap]s with string keys. *)

From Stdlib Require Import ZArith QArith Qminmax Qabs Qround Lqa Lia String List.
From stdpp Require Import gmap strings.
Import ListNotations.

#[local] Set Warnings "-register-all".
#[local] Open Scope string_scope.
#[local] Open Scope Z_scope.

(* ===================================================================== *)
(** * Part I: the program                                                 *)
(* ===================================================================== *)

(** ** Python values, exceptions and effects *)
Module Py.

(** The exception classes the sources raise or catch.  All of them derive
    from [Exception], so [except Exception] catches every [Exn]. *)
Inductive Exn :=
| Exception (msg : string)
| ValidationException (module msg : string)
| ValueError (msg : string)
| TypeError (msg : string)
| AttributeError (msg : string)
| KeyError (key : string)
| ZeroDivisionError.

(** [str(e)] *)
Definition exn_str (e : Exn) : string :=
  match e with
  | Exception msg | ValueError msg | TypeError msg | AttributeError msg => msg
  | ValidationException module msg => "[" ++ module ++ "] " ++ msg
  | KeyError key => "'" ++ key ++ "'"
  | ZeroDivisionError => "float division by zero"
  end.

Inductive Res (A : Type) :=
| Ok (a : A)
| Raise (e : Exn).
Arguments Ok {A} a.
Arguments Raise {A} e.

Definition is_ok {A} (r : Res A) : bool :=
  match r with Ok _ => true | Raise _ => false end.

(** Effectful code: a state-and-exception monad over the world [W]. *)
Definition M (W A : Type) : Type := W -> Res A * W.

Definition ret {W A} (a : A) : M W A := fun w => (Ok a, w).
Definition raise {W A} (e : Exn) : M W A := fun w => (Raise e, w).
Definition bind {W A B} (m : M W A) (k : A -> M W B) : M W B :=
  fun w => match m w with
           | (Ok a, w') => k a w'
           | (Raise e, w') => (Raise e, w')
           end.
(** [try: m except Exception as e: h e] *)
Definition try_except {W A} (m : M W A) (h : Exn -> M W A) : M W A :=
  fun w => match m w with
           | (Ok a, w') => (Ok a, w')
           | (Raise e, w') => h e w'
           end.
(** A pure computation that may raise, run inside [M]. *)
Definition lift {W A} (r : Res A) : M W A := fun w => (r, w).

(** Instrumentation: the operation [m], with a counter of its invocations
    kept next to the world. *)
Definition counted {W A} (m : M W A) : M (W * nat) A :=
  fun '(w, n) => let '(r, w') := m w in (r, (w', S n)).

(** State kept next to the world: the attributes of [self], or the local
    variables that an [except] handler still sees after a [raise]. *)
Definition get {S W} : M (S * W) S := fun sw => (Ok (fst sw), sw).
Definition modify {S W} (f : S -> S) : M (S * W) unit :=
  fun sw => (Ok tt, (f (fst sw), snd sw)).
(** An operation on the world alone, run next to the state. *)
Definition on_world {S W A} (m : M W A) : M (S * W) A :=
  fun sw => let '(r, w') := m (snd sw) in (r, (fst sw, w')).
(** A method of the attribute selected by [proj], put back by [inj]. *)
Definition zoom {S T W A} (proj : S -> T) (inj : T -> S -> S)
           (m : M (T * W) A) : M (S * W) A :=
  fun sw => let '(r, (t', w')) := m (proj (fst sw), snd sw) in
            (r, (inj t' (fst sw), w')).

(** Python values as they travel through the dictionaries of the
    program. *)
Inductive PyVal :=
| PNone
| PBool (b : bool)
| PNum (q : Q)
| PStr (s : string)
| PList (l : list PyVal)
| PDict (d : gmap string PyVal).

Abbreviation Dict := (gmap string PyVal).

(** Truth value testing: [if v], [not v], [v or w]. *)
Definition truthy (v : PyVal) : bool :=
  match v with
  | PNone => false
  | PBool b => b
  | PNum q => negb (Qeq_bool q 0)
  | PStr s => negb (String.eqb s "")
  | PList l => match l with [] => false | _ => true end
  | PDict d => negb (Nat.eqb (size d) 0)
  end.

(** [d.get(k)] and [d.get(k, dflt)] *)
Definition dict_get (d : Dict) (k : string) : PyVal := default PNone (d !! k).
Definition dict_get_or (d : Dict) (k : string) (dflt : PyVal) : PyVal :=
  default dflt (d !! k).

(** [d[k]] *)
Definition dict_item (d : Dict) (k : string) : Res PyVal :=
  match d !! k with Some v => Ok v | None => Raise (KeyError k) end.

(** [v.get(k, dflt)] on a value that need not be a dictionary. *)
Definition val_get_or (v : PyVal) (k : string) (dflt : PyVal) : Res PyVal :=
  match v with
  | PDict d => Ok (dict_get_or d k dflt)
  | _ => Raise (AttributeError "object has no attribute 'get'")
  end.

(** [v == s] for a string literal [s]. *)
Definition is_str (v : PyVal) (s : string) : bool :=
  match v with PStr s' => String.eqb s' s | _ => false end.

(** The number a value denotes in arithmetic and comparisons ([bool] is a
    subclass of [int]); other values raise [TypeError] there. *)
Definition as_number (v : PyVal) : Res Q :=
  match v with
  | PNum q => Ok q
  | PBool b => Ok (if b then 1%Q else 0%Q)
  | _ => Raise (TypeError "unsupported operand type(s)")
  end.

(** [-v] *)
Definition py_neg (v : PyVal) : Res PyVal :=
  match as_number v with
  | Ok q => Ok (PNum (- q))
  | Raise e => Raise e
  end.

(** [s.zfill(width)] *)
Definition zeros (n : nat) : string :=
  string_of_list_ascii (repeat (Ascii.ascii_of_nat 48) n).
Definition is_sign (c : Ascii.ascii) : bool :=
  (Ascii.eqb c (Ascii.ascii_of_nat 43) || Ascii.eqb c (Ascii.ascii_of_nat 45))%bool.
Definition zfill (width : nat) (s : string) : string :=
  let pad := zeros (width - String.length s) in
  match s with
  | String c rest =>
      if is_sign c
      then String c (pad ++ rest)
      else pad ++ s
  | EmptyString => pad
  end.

(** [v.zfill(width)] on a value that need not be a string. *)
Definition val_zfill (width : nat) (v : PyVal) : Res string :=
  match v with
  | PStr s => Ok (zfill width s)
  | _ => Raise (AttributeError "object has no attribute 'zfill'")
  end.

(** The parts of the Python runtime and of third-party libraries the
    program relies on. *)
Record Runtime := {
  (** [str(v)], also used by f-strings *)
  py_str : PyVal -> string;
  (** [float(s)] for a string; [None] stands for [ValueError] *)
  float_of_str : string -> option Q;
  (** [dateutil.parser.parse(v)]; [None] stands for any exception *)
  dateutil_parse : PyVal -> option Z;
  (** [dt.strftime(fmt)] *)
  strftime : string -> Z -> string;
  (** [format(x, spec)], as in [f"{x:.2f}"] *)
  format_num : string -> Q -> string
}.

(** [for x in v]: the elements a value yields when iterated. *)
Definition py_iter (v : PyVal) : Res (list PyVal) :=
  match v with
  | PList l => Ok l
  | PDict d => Ok (map (fun kv => PStr (fst kv)) (map_to_list d))
  | PStr s => Ok (map (fun c => PStr (String c EmptyString)) (list_ascii_of_string s))
  | _ => Raise (TypeError "object is not iterable")
  end.

(** [a * b] between numbers.  Python also multiplies sequences by
    integers; the program only adds such products to a number, which is a
    [TypeError] as well. *)
Definition py_mul (a b : PyVal) : Res Q :=
  match as_number a, as_number b with
  | Ok x, Ok y => Ok (x * y)%Q
  | Raise e, _ => Raise e
  | _, Raise e => Raise e
  end.

(** [float(v)] *)
Definition py_float (rt : Runtime) (v : PyVal) : Res Q :=
  match v with
  | PNum q => Ok q
  | PBool b => Ok (if b then 1%Q else 0%Q)
  | PStr s => match float_of_str rt s with
              | Some q => Ok q
              | None => Raise (ValueError "could not convert string to float")
              end
  | _ => Raise (TypeError "float() argument must be a string or a real number")
  end.

End Py.

Import Py.

Declare Scope py_scope.
Delimit Scope py_scope with py.
Notation "x <- m ;; k" := (bind m (fun x => k))
  (at level 100, m at next level, right associativity) : py_scope.
Notation "m ;;; k" := (bind m (fun _ => k))
  (at level 100, right associativity) : py_scope.

(* --------------------------------------------------------------------- *)
(** ** [src/core/circuit_breaker.py] *)
Module CircuitBreaker.

Inductive CircuitState := CLOSED | OPEN | HALF_OPEN.

(** A [datetime] is its number of microseconds since the epoch; a
    [timedelta] is a (possibly negative) number of microseconds. *)
Record t := mk {
  failure_threshold : Z;
  timeout : Z;
  failures : Z;
  last_failure_time : option Z;
  state : CircuitState
}.

(** [CircuitBreaker.__init__] *)
Definition init (failure_threshold timeout : Z) : t :=
  {| failure_threshold := failure_threshold;
     timeout := timeout;
     failures := 0;
     last_failure_time := None;
     state := CLOSED |}.

(** The module-level instance [sap_circuit_breaker]. *)
Definition sap_circuit_breaker : t := init 3 60.

(** [timedelta.seconds]: the seconds field of the normalised
    (days, seconds, microseconds) triple, always in [0, 86400). *)
Definition timedelta_seconds (d : Z) : Z := (d / 1000000) mod 86400.

(** [timedelta.total_seconds()], rounded down to whole seconds. *)
Definition timedelta_total_seconds (d : Z) : Z := d / 1000000.

Definition set_state (s : CircuitState) (cb : t) : t :=
  {| failure_threshold := failure_threshold cb;
     timeout := timeout cb;
     failures := failures cb;
     last_failure_time := last_failure_time cb;
     state := s |}.

(** [_on_success] *)
Definition _on_success (cb : t) : t :=
  {| failure_threshold := failure_threshold cb;
     timeout := timeout cb;
     failures := 0;
     last_failure_time := last_failure_time cb;
     state := CLOSED |}.

(** [_on_failure], with [now] the value of [datetime.now()]. *)
Definition _on_failure (now : Z) (cb : t) : t :=
  let failures' := failures cb + 1 in
  {| failure_threshold := failure_threshold cb;
     timeout := timeout cb;
     failures := failures';
     last_failure_time := Some now;
     state := if failure_threshold cb <=? failures' then OPEN else state cb |}.

(** [_should_attempt_reset], with [now] the value of [datetime.now()]. *)
Definition _should_attempt_reset (now : Z) (cb : t) : bool :=
  match last_failure_time cb with
  | None => true
  | Some last => timeout cb <=? timedelta_seconds (now - last)
  end.

Definition circuit_open_error : Exn := Exception "Circuit breaker is OPEN".

Section Call.
(** The world the wrapped function runs in, and the wall clock read by
    [datetime.now()]. *)
Context {W R : Type} (now : W -> Z).

(** [CircuitBreaker.call]: the breaker is threaded next to the world. *)
Definition call (func : M W R) (cb : t) (w : W) : Res R * t * W :=
  let gate : option t :=
    match state cb with
    | OPEN =>
        if _should_attempt_reset (now w) cb
        then Some (set_state HALF_OPEN cb)
        else None
    | _ => Some cb
    end in
  match gate with
  | None => (Raise circuit_open_error, cb, w)
  | Some cb1 =>
      match func w with
      | (Ok result, w') => (Ok result, _on_success cb1, w')
      | (Raise e, w') => (Raise e, _on_failure (now w') cb1, w')
      end
  end.

(** The breakers that arise from [__init__] by calls of [call]. *)
Inductive reachable : t -> Prop :=
| reach_init ft tmo : reachable (init ft tmo)
| reach_call (func : M W R) cb w :
    reachable cb -> reachable (snd (fst (call func cb w))).

(** The state the breaker is in at the moment the wrapped function runs,
    or [None] when the call is rejected without running it. *)
Definition admitted_as (cb : t) (w : W) : option CircuitState :=
  match state cb with
  | OPEN => if _should_attempt_reset (now w) cb then Some HALF_OPEN else None
  | s => Some s
  end.
End Call.

(** Between calls: not half-open, and an open breaker has reached its
    threshold and remembers its last failure. *)
Definition settled (cb : t) : Prop :=
  state cb <> HALF_OPEN /\
  (state cb = OPEN ->
   failure_threshold cb <= failures cb /\ last_failure_time cb <> None).

(** Test doubles: a world that is just the wall clock (microseconds), and
    wrapped operations that take [dt] microseconds and then fail or
    succeed. *)
Definition failing_op (dt : Z) : M Z unit :=
  fun clock => (Raise (Exception "RFC_ERROR"), clock + dt).
Definition succeeding_op (dt : Z) : M Z unit :=
  fun clock => (Ok tt, clock + dt).

(** A breaker as three failures at time 0 leave [sap_circuit_breaker]. *)
Definition tripped : t :=
  {| failure_threshold := 3; timeout := 60; failures := 3;
     last_failure_time := Some 0; state := OPEN |}.

End CircuitBreaker.

(* --------------------------------------------------------------------- *)
(** ** [src/api/middleware.py]: token bucket and rate limiter *)
Module Middleware.
#[local] Open Scope Q_scope.

(** [time.time()] is a float number of seconds, [capacity] an [int],
    [tokens] starts as that [int] and becomes a float at the first refill:
    all are exact rationals here. *)
Record TokenBucket := {
  capacity : Q;
  refill_rate : Q;
  tokens : Q;
  last_refill : Q
}.

Definition set_tokens (x : Q) (b : TokenBucket) : TokenBucket :=
  {| capacity := capacity b; refill_rate := refill_rate b;
     tokens := x; last_refill := last_refill b |}.

(** The body of [_refill], with [now] the value read from [time.time()]. *)
Definition refill_at (now : Q) (b : TokenBucket) : TokenBucket :=
  let elapsed := now - last_refill b in
  let tokens_to_add := elapsed * refill_rate b in
  {| capacity := capacity b; refill_rate := refill_rate b;
     tokens := Qmin (capacity b) (tokens b + tokens_to_add);
     last_refill := now |}.

(** The part of [consume] after the refill. *)
Definition take (n : Q) (b : TokenBucket) : bool * TokenBucket :=
  if Qle_bool n (tokens b) then (true, set_tokens (tokens b - n) b)
  else (false, b).

(** [get_wait_time]; Python raises [ZeroDivisionError] when an empty
    bucket has refill rate 0. *)
Definition get_wait_time (b : TokenBucket) : Res Q :=
  if Qle_bool 1 (tokens b) then Ok 0
  else if Qeq_bool (refill_rate b) 0 then Raise ZeroDivisionError
  else Ok ((1 - tokens b) / refill_rate b).

Record RateLimiter := {
  buckets : gmap string TokenBucket;
  requests_per_minute : Z;
  rl_capacity : Q;
  rl_refill_rate : Q
}.

(** [RateLimiter.__init__] *)
Definition RateLimiter_init (requests_per_minute : Z) : RateLimiter :=
  {| buckets := ∅;
     requests_per_minute := requests_per_minute;
     rl_capacity := inject_Z requests_per_minute;
     rl_refill_rate := inject_Z requests_per_minute / 60 |}.

Definition set_buckets (m : gmap string TokenBucket) (rl : RateLimiter)
  : RateLimiter :=
  {| buckets := m; requests_per_minute := requests_per_minute rl;
     rl_capacity := rl_capacity rl; rl_refill_rate := rl_refill_rate rl |}.

(** [get_retry_after] *)
Definition get_retry_after (client_id : string) (rl : RateLimiter) : Res Q :=
  match buckets rl !! client_id with
  | None => Ok 0
  | Some b => get_wait_time b
  end.

Section WithClock.
(** The wall clock: [clock k] is the value returned by the [k]-th call of
    [time.time()]; the state threaded through the code is the number of
    readings made so far. *)
Variable clock : nat -> Q.

(** [TokenBucket.__init__] *)
Definition TokenBucket_init (capacity refill_rate : Q) (k : nat)
  : TokenBucket * nat :=
  ({| capacity := capacity; refill_rate := refill_rate;
      tokens := capacity; last_refill := clock k |}, S k).

(** [_refill] *)
Definition _refill (b : TokenBucket) (k : nat) : TokenBucket * nat :=
  (refill_at (clock k) b, S k).

(** [consume] *)
Definition consume (n : Q) (b : TokenBucket) (k : nat)
  : bool * TokenBucket * nat :=
  let '(b1, k1) := _refill b k in
  let '(ok, b2) := take n b1 in
  (ok, b2, k1).

(** [is_allowed] *)
Definition is_allowed (client_id : string) (rl : RateLimiter) (k : nat)
  : bool * RateLimiter * nat :=
  let '(rl1, k1) :=
    match buckets rl !! client_id with
    | None =>
        let '(b, k1) := TokenBucket_init (rl_capacity rl) (rl_refill_rate rl) k in
        (set_buckets (<[client_id := b]> (buckets rl)) rl, k1)
    | Some _ => (rl, k)
    end in
  match buckets rl1 !! client_id with
  | Some bucket =>
      let '(ok, bucket', k2) := consume 1 bucket k1 in
      (ok, set_buckets (<[client_id := bucket']> (buckets rl1)) rl1, k2)
  | None => (false, rl1, k1) (* unreachable: the bucket was just created *)
  end.

(** [cleanup_old_buckets] *)
Definition cleanup_old_buckets (rl : RateLimiter) (k : nat)
  : RateLimiter * nat :=
  let now := clock k in
  (set_buckets
     (filter (fun kv => Qle_bool (now - last_refill (snd kv)) 3600 = true)
             (buckets rl)) rl,
   S k).

(** What can happen to a limiter: a request of a client, a direct
    [consume] or [_refill] on a client's bucket, or the periodic
    clean-up. *)
Inductive event :=
| Allow (client_id : string)
| Consume (client_id : string) (n : Z)
| Refill (client_id : string)
| Cleanup.

Definition step (ev : event) (rl : RateLimiter) (k : nat)
  : RateLimiter * nat :=
  match ev with
  | Allow c => let '(_, rl', k') := is_allowed c rl k in (rl', k')
  | Consume c n =>
      match buckets rl !! c with
      | Some b =>
          let '(_, b', k') := consume (inject_Z n) b k in
          (set_buckets (<[c := b']> (buckets rl)) rl, k')
      | None => (rl, k)
      end
  | Refill c =>
      match buckets rl !! c with
      | Some b =>
          let '(b', k') := _refill b k in
          (set_buckets (<[c := b']> (buckets rl)) rl, k')
      | None => (rl, k)
      end
  | Cleanup => cleanup_old_buckets rl k
  end.

Fixpoint run (evs : list event) (rl : RateLimiter) (k : nat)
  : RateLimiter * nat :=
  match evs with
  | [] => (rl, k)
  | ev :: evs' => let '(rl', k') := step ev rl k in run evs' rl' k'
  end.

(** [n] successive [is_allowed] calls of one client, with their
    answers. *)
Fixpoint allow_many (n : nat) (c : string) (rl : RateLimiter) (k : nat)
  : list bool * RateLimiter * nat :=
  match n with
  | O => ([], rl, k)
  | S n' =>
      let '(ok, rl1, k1) := is_allowed c rl k in
      let '(oks, rl2, k2) := allow_many n' c rl1 k1 in
      (ok :: oks, rl2, k2)
  end.
End WithClock.

(** What every bucket of a limiter satisfies when [now] is the next value
    the clock will return. *)
Definition bucket_ok (now : Q) (b : TokenBucket) : Prop :=
  0 <= tokens b /\ tokens b <= capacity b /\
  0 <= refill_rate b /\ last_refill b <= now.

Definition limiter_ok (now : Q) (rl : RateLimiter) : Prop :=
  0 <= rl_capacity rl /\ 0 <= rl_refill_rate rl /\
  forall c b, buckets rl !! c = Some b -> bucket_ok now b.

(** The requests of an event ask for a non-negative number of tokens. *)
Definition nonneg_request (ev : event) : Prop :=
  match ev with Consume _ n => (0 <= n)%Z | _ => True end.

(** Every bucket of a limiter was built with the limiter's parameters. *)
Definition buckets_match (rl : RateLimiter) : Prop :=
  forall c b, buckets rl !! c = Some b ->
              capacity b = rl_capacity rl /\ refill_rate b = rl_refill_rate rl.



(** Sample data. A clock whose readings are 10 ms apart; a mixed sequence
    of events; the limiter after one client has used up its 60 tokens at
    time 0; a limiter with one bucket holding a quarter of a token. *)
Definition ten_ms_clock (i : nat) : Q := Z.of_nat i # 100.

Definition sample_events : list event :=
  [Allow "a"; Allow "b"; Consume "a" 2; Refill "b"; Cleanup; Allow "a"].

Definition drained : RateLimiter :=
  snd (fst (allow_many (fun _ => 0) 60 "a" (RateLimiter_init 60) 0)).

Definition quarter_bucket : TokenBucket :=
  {| capacity := 60; refill_rate := 1; tokens := 1 # 4; last_refill := 10 |}.

Definition quarter_full : RateLimiter :=
  set_buckets {[ "a" := quarter_bucket ]} (RateLimiter_init 60).

End Middleware.

(* --------------------------------------------------------------------- *)
(** ** [src/core/base_module.py] *)
Module BaseModule.
#[local] Open Scope py_scope.

Inductive TransactionStatus :=
| PENDING | IN_PROGRESS | COMPLETED | FAILED | CANCELLED.

Record SAPTransaction := {
  transaction_id : string;
  module : string;
  transaction_type : string;
  status : TransactionStatus;
  created_at : Z;
  updated_at : Z;
  created_by : string;
  data : Dict;
  error_message : option string;
  sap_document_number : PyVal
}.

(** The SAP connector (RFC/REST/GUI); it is not part of the repository's
    sources, the modules only call these two methods. *)
Record Connector (W : Type) := {
  call_function : string -> Dict -> M W Dict;
  read_table : string -> list string -> string -> Z -> M W (list Dict)
}.
Arguments call_function {W} _ _ _ _.
Arguments read_table {W} _ _ _ _ _ _.

(** One entry per [call_function] made, with what the remote side
    answered. *)
Record CallRecord := {
  bapi : string;
  params : Dict;
  reply : Res Dict
}.

(** Instrumentation: the connector [conn], with a journal of its
    [call_function] calls kept next to the world. *)
Definition logged {W} (conn : Connector W) : Connector (W * list CallRecord) :=
  {| call_function := fun name ps '(w, log) =>
       let '(r, w') := call_function conn name ps w in
       (r, (w', (log ++ [{| bapi := name; params := ps; reply := r |}])%list));
     read_table := fun tbl fields where_clause max_rows '(w, log) =>
       let '(r, w') := read_table conn tbl fields where_clause max_rows w in
       (r, (w', log)) |}.

Abbreviation Journal := (list CallRecord).

(** The dictionary literal [{k1: v1, ...}] and keyword arguments. *)
Definition mkdict (l : list (string * PyVal)) : Dict := list_to_map l.

(** What [parse_sap_return_messages] returns. *)
Record Messages := {
  has_errors : bool;
  errors : list PyVal;
  warnings : list PyVal;
  info : list PyVal
}.

(** [log_transaction] *)
Definition log_transaction (transaction : SAPTransaction)
           (transactions : list SAPTransaction) : list SAPTransaction :=
  (transactions ++ [transaction])%list.

(** [get_transaction_history] *)
Definition status_eqb (a b : TransactionStatus) : bool :=
  match a, b with
  | PENDING, PENDING | IN_PROGRESS, IN_PROGRESS | COMPLETED, COMPLETED
  | FAILED, FAILED | CANCELLED, CANCELLED => true
  | _, _ => false
  end.
Definition get_transaction_history (filter_status : option TransactionStatus)
           (transactions : list SAPTransaction) : list SAPTransaction :=
  match filter_status with
  | Some st => List.filter (fun t => status_eqb (status t) st) transactions
  | None => transactions
  end.

(** [msg_type in ['E', 'A']] *)
Definition is_error_type (msg_type : PyVal) : bool :=
  (is_str msg_type "E" || is_str msg_type "A")%bool.

(** The loop of [parse_sap_return_messages]. *)
Fixpoint parse_loop (return_table : list PyVal) (result : Messages)
  : Res Messages :=
  match return_table with
  | [] => Ok result
  | msg :: rest =>
      match val_get_or msg "TYPE" (PStr ""), val_get_or msg "MESSAGE" (PStr "") with
      | Ok msg_type, Ok message =>
          parse_loop rest
            (if is_error_type msg_type then
               {| has_errors := true;
                  errors := (errors result ++ [message])%list;
                  warnings := warnings result; info := info result |}
             else if is_str msg_type "W" then
               {| has_errors := has_errors result; errors := errors result;
                  warnings := (warnings result ++ [message])%list;
                  info := info result |}
             else if (is_str msg_type "I" || is_str msg_type "S")%bool then
               {| has_errors := has_errors result; errors := errors result;
                  warnings := warnings result;
                  info := (info result ++ [message])%list |}
             else result)
      | Raise e, _ => Raise e
      | _, Raise e => Raise e
      end
  end.

(** [parse_sap_return_messages] *)
Definition parse_sap_return_messages (return_table : list PyVal) : Res Messages :=
  parse_loop return_table
    {| has_errors := false; errors := []; warnings := []; info := [] |}.

(** The argument the [create] methods pass to
    [parse_sap_return_messages]:
    [result.get('RETURN', []) if isinstance(result.get('RETURN'), list)
     else [result.get('RETURN', {})]]. *)
Definition return_table_of (result : Dict) : list PyVal :=
  match result !! "RETURN" with
  | Some (PList return_table) => return_table
  | Some return_msg => [return_msg]
  | None => [PDict ∅]
  end.

(** A message of error or abort severity, and a structured result whose
    [RETURN] (one message or a table of messages) contains one. *)
Definition is_error_message (msg : PyVal) : bool :=
  match msg with
  | PDict d => is_error_type (dict_get_or d "TYPE" (PStr ""))
  | _ => false
  end.
Definition carries_error (result : Dict) : bool :=
  existsb is_error_message (return_table_of result).

(** What is stated of a [create] method whose posting call is
    [posting_bapi] and whose module keeps the audit list [audit], run with
    a journalled connector from an empty journal: if the remote answer to
    the posting call carried an error message, [create] raises, the audit
    list is unchanged and the journal ends with the rollback call. *)
Definition rolls_back_on_remote_error {S W : Type} (posting_bapi : string)
           (audit : S -> list SAPTransaction)
           (create : Dict -> M (S * (W * Journal)) PyVal) : Prop :=
  forall (data : Dict) (self : S) (w : W)
         (out : Res PyVal) (self' : S) (w' : W) (log' : Journal)
         (ps result : Dict),
    create data (self, (w, [])) = (out, (self', (w', log'))) ->
    In {| bapi := posting_bapi; params := ps; reply := Ok result |} log' ->
    carries_error result = true ->
    (exists e, out = Raise e) /\
    audit self' = audit self /\
    exists rb,
      log' = [ {| bapi := posting_bapi; params := ps; reply := Ok result |};
               {| bapi := "BAPI_TRANSACTION_ROLLBACK"; params := mkdict [];
                  reply := rb |} ].

Section Methods.
Context {W : Type} (conn : Connector W) (rt : Runtime).

(** [call_bapi]; its [except] clause logs and re-raises. *)
Definition call_bapi (bapi_name : string) (params : Dict) : M W Dict :=
  result <- call_function conn bapi_name params ;;
  match result !! "RETURN" with
  | Some (PDict return_msg) =>
      let msg_type := dict_get_or return_msg "TYPE" (PStr "") in
      if is_error_type msg_type then
        raise (Exception ("BAPI Error: " ++
                 py_str rt (dict_get_or return_msg "MESSAGE" (PStr "Unknown error"))))
      else ret result
  | _ => ret result
  end.

(** [commit_transaction] *)
Definition commit_transaction : M W unit :=
  call_bapi "BAPI_TRANSACTION_COMMIT" (mkdict [("WAIT", PStr "X")]) ;;; ret tt.

(** [rollback_transaction] *)
Definition rollback_transaction : M W unit :=
  call_bapi "BAPI_TRANSACTION_ROLLBACK" (mkdict []) ;;; ret tt.

(** [format_sap_date] *)
Definition format_sap_date (date_str : PyVal) : Res string :=
  match dateutil_parse rt date_str with
  | Some dt => Ok (strftime rt "%Y%m%d" dt)
  | None => Raise (ValueError ("Invalid date format: " ++ py_str rt date_str))
  end.
End Methods.

End BaseModule.

(* --------------------------------------------------------------------- *)
(** ** [src/modules/fi/accounts_payable.py] *)
Module AccountsPayable.
Import BaseModule.
#[local] Open Scope py_scope.

(** The dataclass [VendorInvoice]. *)
Record VendorInvoice := {
  vendor_code : PyVal;
  invoice_number : PyVal;
  invoice_date : PyVal;
  posting_date : PyVal;
  amount : PyVal;
  currency : PyVal;
  payment_terms : PyVal;
  tax_code : PyVal;
  gl_account : PyVal;
  cost_center : PyVal;
  reference : PyVal;
  text : PyVal
}.

Definition VendorInvoice_fields : list string :=
  ["vendor_code"; "invoice_number"; "invoice_date"; "posting_date"; "amount";
   "currency"; "payment_terms"; "tax_code"; "gl_account"; "cost_center";
   "reference"; "text"].

(** [VendorInvoice] built from the keyword arguments [data]: an unknown
    key or a missing field without default is a [TypeError]. *)
Definition VendorInvoice_init (data : Dict) : Res VendorInvoice :=
  if negb (forallb (fun k => existsb (String.eqb k) VendorInvoice_fields)
                   (map fst (map_to_list data)))
  then Raise (TypeError "__init__() got an unexpected keyword argument")
  else
    match data !! "vendor_code", data !! "invoice_number",
          data !! "invoice_date", data !! "posting_date", data !! "amount" with
    | Some vc, Some num, Some idate, Some pdate, Some amt =>
        Ok {| vendor_code := vc; invoice_number := num; invoice_date := idate;
              posting_date := pdate; amount := amt;
              currency := dict_get_or data "currency" (PStr "USD");
              payment_terms := dict_get_or data "payment_terms" (PStr "0001");
              tax_code := dict_get_or data "tax_code" (PStr "I0");
              gl_account := dict_get_or data "gl_account" (PStr "");
              cost_center := dict_get_or data "cost_center" (PStr "");
              reference := dict_get_or data "reference" (PStr "");
              text := dict_get_or data "text" (PStr "") |}
    | _, _, _, _, _ =>
        Raise (TypeError "__init__() missing required positional argument")
    end.

(** The attributes of an [AccountsPayable] object that change or are
    read: the audit list of [BaseSAPModule] and the company code. *)
Record t := {
  module_name : string;
  transactions : list SAPTransaction;
  company_code : string
}.

(** [AccountsPayable.__init__] *)
Definition init : t :=
  {| module_name := "FI-AP"; transactions := []; company_code := "1000" |}.

Definition set_transactions (l : list SAPTransaction) (self : t) : t :=
  {| module_name := module_name self; transactions := l;
     company_code := company_code self |}.

Definition required_fields : list string :=
  ["vendor_code"; "invoice_number"; "invoice_date"; "posting_date"; "amount";
   "currency"].

(** The first loop of [validate_data]. *)
Definition missing_fields (data : Dict) : list string :=
  flat_map (fun field =>
              if truthy (dict_get data field) then []
              else ["Missing required field: " ++ field])
           required_fields.

Section Methods.
Context {W : Type} (conn : Connector W) (rt : Runtime) (now : W -> Z).

(** [_vendor_exists]; its bare [except] answers [False]. *)
Definition _vendor_exists (vendor_code : PyVal) : M W bool :=
  try_except
    (padded <- lift (val_zfill 10 vendor_code) ;;
     vendors <- read_table conn "LFA1" ["LIFNR"]
                           ("LIFNR = '" ++ padded ++ "'") 500 ;;
     ret (0 <? Z.of_nat (length vendors)))
    (fun _ => ret false).

(** The date checks of [validate_data], inside [try ... except
    ValueError]; [format_sap_date] raises nothing else. *)
Definition date_errors (data : Dict) : list string :=
  let check field :=
    if truthy (dict_get data field)
    then match format_sap_date rt (dict_get data field) with
         | Ok _ => None
         | Raise e => Some e
         end
    else None in
  match check "invoice_date" with
  | Some e => ["Invalid date format: " ++ exn_str e]
  | None =>
      match check "posting_date" with
      | Some e => ["Invalid date format: " ++ exn_str e]
      | None => []
      end
  end.

(** [validate_data] *)
Definition validate_data (data : Dict) : M W (bool * list string) :=
  let errors := missing_fields data in
  amount <- lift (as_number (dict_get_or data "amount" (PNum 0))) ;;
  let errors :=
    if Qle_bool amount 0
    then (errors ++ ["Invoice amount must be greater than 0"])%list
    else errors in
  let errors := (errors ++ date_errors data)%list in
  errors <-
    (if truthy (dict_get data "vendor_code") then
       found <- _vendor_exists (dict_get data "vendor_code") ;;
       ret (if found then errors
            else (errors ++ [("Vendor " ++ py_str rt (dict_get data "vendor_code")
                                        ++ " not found")%string])%list)
     else ret errors) ;;
  ret (match errors with [] => true | _ => false end, errors).

Definition py_or (a b : PyVal) : PyVal := if truthy a then a else b.

(** [create] *)
Definition create (data : Dict) : M (t * W) PyVal :=
  checked <- on_world (validate_data data) ;;
  let '(is_valid, errors) := checked in
  if negb is_valid then
    raise (ValidationException "FI-AP"
             ("Validation failed: " ++ py_str rt (PList (map PStr errors))))
  else
    invoice <- lift (VendorInvoice_init data) ;;
    self <- get ;;
    doc_date <- lift (format_sap_date rt (invoice_date invoice)) ;;
    pstng_date <- lift (format_sap_date rt (posting_date invoice)) ;;
    let doc_header := mkdict
      [("USERNAME", PStr "AUTOMATION");
       ("COMP_CODE", PStr (company_code self));
       ("DOC_DATE", PStr doc_date);
       ("PSTNG_DATE", PStr pstng_date);
       ("DOC_TYPE", PStr "KR");
       ("REF_DOC_NO", invoice_number invoice);
       ("HEADER_TXT", text invoice)] in
    bline_date <- lift (format_sap_date rt (posting_date invoice)) ;;
    let vendor_item := mkdict
      [("ITEMNO_ACC", PStr "1");
       ("VENDOR_NO", vendor_code invoice);
       ("COMP_CODE", PStr (company_code self));
       ("PMNTTRMS", payment_terms invoice);
       ("BLINE_DATE", PStr bline_date);
       ("ALLOC_NMBR", reference invoice)] in
    let vendor_currency := mkdict
      [("ITEMNO_ACC", PStr "1");
       ("CURRENCY", currency invoice);
       ("AMT_DOCCUR", amount invoice)] in
    let gl_item := mkdict
      [("ITEMNO_ACC", PStr "2");
       ("GL_ACCOUNT", py_or (gl_account invoice) (PStr "400000"));
       ("COMP_CODE", PStr (company_code self));
       ("COSTCENTER", cost_center invoice);
       ("ITEM_TEXT", text invoice);
       ("TAX_CODE", tax_code invoice)] in
    negated <- lift (py_neg (amount invoice)) ;;
    let gl_currency := mkdict
      [("ITEMNO_ACC", PStr "2");
       ("CURRENCY", currency invoice);
       ("AMT_DOCCUR", negated)] in
    try_except
      (result <- on_world (call_bapi conn rt "BAPI_ACC_DOCUMENT_POST"
                   (mkdict
                      [("DOCUMENTHEADER", PDict doc_header);
                       ("ACCOUNTPAYABLE", PList [PDict vendor_item]);
                       ("ACCOUNTGL", PList [PDict gl_item]);
                       ("CURRENCYAMOUNT",
                        PList [PDict vendor_currency; PDict gl_currency])])) ;;
       messages <- lift (parse_sap_return_messages (return_table_of result)) ;;
       if has_errors messages then
         raise (Exception ("Invoice posting failed: " ++
                           py_str rt (PList (BaseModule.errors messages))))
       else
         let doc_number := dict_get_or result "OBJ_KEY" (PStr "") in
         on_world (commit_transaction conn rt) ;;;
         stamp <- on_world (fun w => (Ok (now w), w)) ;;
         modify (fun self =>
           set_transactions
             (log_transaction
                {| transaction_id := "FI-" ++ strftime rt "%Y%m%d%H%M%S" stamp;
                   module := "FI-AP";
                   transaction_type := "VENDOR_INVOICE";
                   status := COMPLETED;
                   created_at := stamp;
                   updated_at := stamp;
                   created_by := "AUTOMATION";
                   data := data;
                   error_message := None;
                   sap_document_number := doc_number |}
                (transactions self))
             self) ;;;
         ret doc_number)
      (fun e => on_world (rollback_transaction conn rt) ;;; raise e).

(** [update]: direct update is not supported. *)
Definition update (document_number : PyVal) (data : Dict) : M (t * W) bool :=
  ret false.

(** [get_vendor_balance] *)
Definition get_vendor_balance (vendor_code : PyVal) : M (t * W) Q :=
  try_except
    (self <- get ;;
     padded <- lift (val_zfill 10 vendor_code) ;;
     result <- on_world (call_bapi conn rt "BAPI_AP_ACC_GETBALANCES"
                 (mkdict [("COMPANYCODE", PStr (company_code self));
                          ("VENDOR", PStr padded)])) ;;
     let balance_data := dict_get_or result "BALANCES" (PDict ∅) in
     balance <- lift (val_get_or balance_data "BALANCE" (PNum 0)) ;;
     lift (py_float rt balance))
    (fun _ => ret 0%Q).

(** [process_payment] *)
Definition process_payment (vendor_code : PyVal) (amount : PyVal)
           (payment_method : string) : M (t * W) PyVal :=
  try_except
    (result <- on_world (call_bapi conn rt "BAPI_ACC_DOCUMENT_POST" (mkdict [])) ;;
     let payment_doc := dict_get_or result "OBJ_KEY" (PStr "") in
     on_world (commit_transaction conn rt) ;;;
     ret payment_doc)
    (fun e => on_world (rollback_transaction conn rt) ;;; raise e).
End Methods.

(** Sample data.  A runtime that accepts every string as a date; the
    invoice of the module's usage example; a remote system that knows the
    vendor and rejects the posting with an error message; one that fails
    every call; one that answers a balance inquiry with balance zero. *)
Definition sample_runtime : Runtime :=
  {| py_str := fun v => match v with PStr s => s | _ => "<object>" end;
     float_of_str := fun _ => None;
     dateutil_parse := fun v => match v with PStr _ => Some 0 | _ => None end;
     strftime := fun fmt _ => fmt;
     format_num := fun spec _ => spec |}.

Definition sample_invoice : Dict :=
  mkdict [("vendor_code", PStr "1000");
          ("invoice_number", PStr "INV-2024-001");
          ("invoice_date", PStr "2024-11-01");
          ("posting_date", PStr "2024-11-01");
          ("amount", PNum 5000);
          ("currency", PStr "USD");
          ("gl_account", PStr "400000");
          ("cost_center", PStr "CC1000");
          ("text", PStr "Automated invoice posting")].

Definition rejecting_connector : Connector unit :=
  {| call_function := fun name ps w =>
       if String.eqb name "BAPI_ACC_DOCUMENT_POST"
       then (Ok (mkdict
                   [("RETURN",
                     PList [PDict (mkdict [("TYPE", PStr "E");
                                           ("MESSAGE", PStr "Posting period closed")])])]),
             w)
       else (Ok ∅, w);
     read_table := fun _ _ _ _ w =>
       (Ok [mkdict [("LIFNR", PStr "0000001000")]], w) |}.

Definition failing_connector : Connector unit :=
  {| call_function := fun _ _ w => (Raise (Exception "RFC_COMMUNICATION_FAILURE"), w);
     read_table := fun _ _ _ _ w => (Raise (Exception "RFC_COMMUNICATION_FAILURE"), w) |}.

Definition zero_balance_connector {W} : Connector W :=
  {| call_function := fun _ _ w =>
       (Ok (mkdict [("BALANCES", PDict (mkdict [("BALANCE", PNum 0)]))]), w);
     read_table := fun _ _ _ _ w => (Ok [], w) |}.

End AccountsPayable.

(* --------------------------------------------------------------------- *)
(** ** [src/modules/mm/purchase_order.py] (the part the workflows read) *)
Module PurchaseOrder.
Import BaseModule.
#[local] Open Scope py_scope.

(** The attributes of a [PurchaseOrder] object that change or are read. *)
Record t := {
  module_name : string;
  transactions : list SAPTransaction;
  company_code : string
}.

(** [PurchaseOrder.__init__] *)
Definition init : t :=
  {| module_name := "MM-PO"; transactions := []; company_code := "1000" |}.

Definition set_transactions (l : list SAPTransaction) (self : t) : t :=
  {| module_name := module_name self; transactions := l;
     company_code := company_code self |}.

Definition required_fields : list string := ["vendor"; "purchasing_org"; "items"].

Definition missing_fields (data : Dict) : list string :=
  flat_map (fun field =>
              if truthy (dict_get data field) then []
              else ["Missing required field: " ++ field])
           required_fields.

(** [isinstance(v, list)] *)
Definition is_list (v : PyVal) : bool :=
  match v with PList _ => true | _ => false end.

(** [not item.get(k) or item[k] <= 0] *)
Definition not_positive (item : PyVal) (k : string) : Res bool :=
  match val_get_or item k PNone with
  | Ok v =>
      if negb (truthy v) then Ok true
      else match as_number v with
           | Ok q => Ok (Qle_bool q 0)
           | Raise e => Raise e
           end
  | Raise e => Raise e
  end.

Section Methods.
Context {W : Type} (conn : Connector W) (rt : Runtime) (now : W -> Z).

(** [str(n)] for an integer. *)
Definition str_of_int (n : Z) : string := py_str rt (PNum (inject_Z n)).

(** The item loop of [validate_data]; [idx] counts from 0. *)
Fixpoint item_errors (idx : Z) (items : list PyVal) : Res (list string) :=
  match items with
  | [] => Ok []
  | item :: rest =>
      match val_get_or item "material" PNone,
            not_positive item "quantity", not_positive item "price" with
      | Ok material, Ok bad_quantity, Ok bad_price =>
          match item_errors (idx + 1) rest with
          | Ok more =>
              Ok ((if truthy material then []
                   else [("Item " ++ str_of_int (idx + 1) ++ ": Missing material")%string]) ++
                  (if bad_quantity : bool
                   then [("Item " ++ str_of_int (idx + 1) ++ ": Invalid quantity")%string]
                   else []) ++
                  (if bad_price : bool
                   then [("Item " ++ str_of_int (idx + 1) ++ ": Invalid price")%string]
                   else []) ++ more)%list
          | Raise e => Raise e
          end
      | Raise e, _, _ => Raise e
      | _, Raise e, _ => Raise e
      | _, _, Raise e => Raise e
      end
  end.

(** [validate_data] *)
Definition validate_data (data : Dict) : Res (bool * list string) :=
  let errors := missing_fields data in
  let items := dict_get data "items" in
  let checked :=
    if truthy items then
      match py_iter items with
      | Ok l =>
          match item_errors 0 l with
          | Ok more =>
              Ok ((if negb (is_list items) then ["At least one item is required"]
                   else []) ++ more)%list
          | Raise e => Raise e
          end
      | Raise e => Raise e
      end
    else Ok [] in
  match checked with
  | Ok more =>
      let errors := (errors ++ more)%list in
      Ok (match errors with [] => true | _ => false end, errors)
  | Raise e => Raise e
  end.

(** The item loop of [create]; [idx] counts from 1.  It yields the line
    items and the schedule lines. *)
Fixpoint build_items (today : string) (idx : Z) (items : list PyVal)
  : Res (list PyVal * list PyVal) :=
  match items with
  | [] => Ok ([], [])
  | item :: rest =>
      let item_no := zfill 5 (str_of_int (idx * 10)) in
      match item with
      | PDict d =>
          match dict_item d "material", dict_item d "plant",
                dict_item d "quantity", dict_item d "price" with
          | Ok material, Ok plant, Ok quantity, Ok price =>
              match format_sap_date rt (dict_get_or d "delivery_date" (PStr today)) with
              | Ok delivery =>
                  match build_items today (idx + 1) rest with
                  | Ok (po_items, po_schedules) =>
                      Ok (PDict (mkdict
                            [("PO_ITEM", PStr item_no);
                             ("MATERIAL", material);
                             ("PLANT", plant);
                             ("STGE_LOC", dict_get_or d "storage_location" (PStr ""));
                             ("QUANTITY", quantity);
                             ("PO_UNIT", dict_get_or d "unit" (PStr "EA"));
                             ("NET_PRICE", price);
                             ("PRICE_UNIT", PNum 1);
                             ("ACCTASSCAT", dict_get_or d "account_category" (PStr "K"))])
                          :: po_items,
                          PDict (mkdict
                            [("PO_ITEM", PStr item_no);
                             ("SCHED_LINE", PStr "0001");
                             ("QUANTITY", quantity);
                             ("DELIVERY_DATE", PStr delivery)])
                          :: po_schedules)
                  | Raise e => Raise e
                  end
              | Raise e => Raise e
              end
          | Raise e, _, _, _ => Raise e
          | _, Raise e, _, _ => Raise e
          | _, _, Raise e, _ => Raise e
          | _, _, _, Raise e => Raise e
          end
      | _ => Raise (TypeError "object is not subscriptable")
      end
  end.

(** [create] *)
Definition create (data : Dict) : M (t * W) PyVal :=
  checked <- lift (validate_data data) ;;
  let '(is_valid, errors) := checked in
  if negb is_valid then
    raise (ValidationException "MM-PO"
             ("Validation failed: " ++ py_str rt (PList (map PStr errors))))
  else
    self <- get ;;
    vendor <- lift (dict_item data "vendor") ;;
    padded <- lift (val_zfill 10 vendor) ;;
    stamp <- on_world (fun w => (Ok (now w), w)) ;;
    let today := strftime rt "%Y-%m-%d" stamp in
    doc_date <- lift (format_sap_date rt (PStr today)) ;;
    let po_header := mkdict
      [("DOC_TYPE", dict_get_or data "doc_type" (PStr "NB"));
       ("VENDOR", PStr padded);
       ("PURCH_ORG", dict_get_or data "purchasing_org" (PStr "1000"));
       ("PUR_GROUP", dict_get_or data "purchasing_group" (PStr "001"));
       ("COMP_CODE", dict_get_or data "company_code" (PStr (company_code self)));
       ("DOC_DATE", PStr doc_date);
       ("VENDOR_REF", dict_get_or data "vendor_reference" (PStr ""))] in
    raw_items <- lift (dict_item data "items") ;;
    items <- lift (py_iter raw_items) ;;
    built <- lift (build_items today 1 items) ;;
    let '(po_items, po_schedules) := built in
    try_except
      (result <- on_world (call_bapi conn rt "BAPI_PO_CREATE1"
                   (mkdict [("PO_HEADER", PDict po_header);
                            ("PO_ITEMS", PList po_items);
                            ("PO_ITEM_SCHEDULES", PList po_schedules)])) ;;
       messages <- lift (parse_sap_return_messages (return_table_of result)) ;;
       if has_errors messages then
         raise (Exception ("PO creation failed: " ++
                           py_str rt (PList (BaseModule.errors messages))))
       else
         let po_number := dict_get_or result "PURCHASEORDER" (PStr "") in
         on_world (commit_transaction conn rt) ;;;
         stamp <- on_world (fun w => (Ok (now w), w)) ;;
         modify (fun self =>
           set_transactions
             (log_transaction
                {| transaction_id := "MM-" ++ strftime rt "%Y%m%d%H%M%S" stamp;
                   module := "MM-PO";
                   transaction_type := "PURCHASE_ORDER";
                   status := COMPLETED;
                   created_at := stamp;
                   updated_at := stamp;
                   created_by := "AUTOMATION";
                   data := data;
                   error_message := None;
                   sap_document_number := po_number |}
                (transactions self))
             self) ;;;
         ret po_number)
      (fun e => on_world (rollback_transaction conn rt) ;;; raise e).

(** [read]; its [except] clause logs and re-raises. *)
Definition read (po_number : PyVal) : M W Dict :=
  result <- call_bapi conn rt "BAPI_PO_GETDETAIL"
                      (mkdict [("PURCHASEORDER", po_number)]) ;;
  let header := dict_get_or result "PO_HEADER" (PDict ∅) in
  let items := dict_get_or result "PO_ITEMS" (PList []) in
  vendor <- lift (val_get_or header "VENDOR" PNone) ;;
  created_on <- lift (val_get_or header "CREATED_ON" PNone) ;;
  ret (mkdict [("po_number", po_number); ("vendor", vendor);
               ("created_on", created_on); ("items", items)]).
End Methods.

End PurchaseOrder.

(* --------------------------------------------------------------------- *)
(** ** [src/modules/sd/sales_order.py] (validation and creation) *)
Module SalesOrder.
Import BaseModule.
#[local] Open Scope py_scope.

(** The attributes of a [SalesOrder] object that change or are read. *)
Record t := {
  module_name : string;
  transactions : list SAPTransaction;
  sales_org : string;
  distribution_channel : string;
  division : string
}.

(** [SalesOrder.__init__] *)
Definition init : t :=
  {| module_name := "SD-SO"; transactions := []; sales_org := "1000";
     distribution_channel := "10"; division := "00" |}.

Definition set_transactions (l : list SAPTransaction) (self : t) : t :=
  {| module_name := module_name self; transactions := l;
     sales_org := sales_org self;
     distribution_channel := distribution_channel self;
     division := division self |}.

Definition required_fields : list string :=
  ["customer"; "sales_org"; "order_type"; "items"].

Definition missing_fields (data : Dict) : list string :=
  flat_map (fun field =>
              if truthy (dict_get data field) then []
              else ["Missing required field: " ++ field])
           required_fields.

Section Methods.
Context {W : Type} (conn : Connector W) (rt : Runtime) (now : W -> Z).

Definition str_of_int (n : Z) : string := py_str rt (PNum (inject_Z n)).

(** The item loop of [validate_data]; [idx] counts from 0. *)
Fixpoint item_errors (idx : Z) (items : list PyVal) : Res (list string) :=
  match items with
  | [] => Ok []
  | item :: rest =>
      match val_get_or item "material" PNone,
            PurchaseOrder.not_positive item "quantity" with
      | Ok material, Ok bad_quantity =>
          match item_errors (idx + 1) rest with
          | Ok more =>
              Ok ((if truthy material then []
                   else [("Item " ++ str_of_int (idx + 1) ++ ": Missing material")%string]) ++
                  (if bad_quantity : bool
                   then [("Item " ++ str_of_int (idx + 1) ++ ": Invalid quantity")%string]
                   else []) ++ more)%list
          | Raise e => Raise e
          end
      | Raise e, _ => Raise e
      | _, Raise e => Raise e
      end
  end.

(** [_customer_exists]; its bare [except] answers [False]. *)
Definition _customer_exists (customer : PyVal) : M W bool :=
  try_except
    (padded <- lift (val_zfill 10 customer) ;;
     customers <- read_table conn "KNA1" ["KUNNR"]
                             ("KUNNR = '" ++ padded ++ "'") 500 ;;
     ret (0 <? Z.of_nat (length customers)))
    (fun _ => ret false).

(** [validate_data] *)
Definition validate_data (data : Dict) : M W (bool * list string) :=
  let errors := missing_fields data in
  let items := dict_get data "items" in
  more <- lift
    (if truthy items then
       match py_iter items with
       | Ok l =>
           match item_errors 0 l with
           | Ok more =>
               Ok ((if negb (PurchaseOrder.is_list items)
                    then ["At least one item is required"] else []) ++ more)%list
           | Raise e => Raise e
           end
       | Raise e => Raise e
       end
     else Ok []) ;;
  let errors := (errors ++ more)%list in
  errors <-
    (if truthy (dict_get data "customer") then
       found <- _customer_exists (dict_get data "customer") ;;
       ret (if found then errors
            else (errors ++ [("Customer " ++ py_str rt (dict_get data "customer")
                                          ++ " not found")%string])%list)
     else ret errors) ;;
  ret (match errors with [] => true | _ => false end, errors).

(** The item loop of [create]; [idx] counts from 1. *)
Fixpoint build_items (today : string) (idx : Z) (items : list PyVal)
  : Res (list PyVal * list PyVal) :=
  match items with
  | [] => Ok ([], [])
  | item :: rest =>
      let item_no := zfill 6 (str_of_int (idx * 10)) in
      match item with
      | PDict d =>
          match dict_item d "material", dict_item d "plant",
                dict_item d "quantity" with
          | Ok material, Ok plant, Ok quantity =>
              match format_sap_date rt (dict_get_or d "delivery_date" (PStr today)) with
              | Ok delivery =>
                  match build_items today (idx + 1) rest with
                  | Ok (order_items, order_schedules) =>
                      Ok (PDict (mkdict
                            [("ITM_NUMBER", PStr item_no);
                             ("MATERIAL", material);
                             ("PLANT", plant);
                             ("TARGET_QTY", quantity);
                             ("TARGET_QU", dict_get_or d "unit" (PStr "EA"));
                             ("ITEM_CATEG", PStr "TAN");
                             ("BATCH", dict_get_or d "batch" (PStr ""))])
                          :: order_items,
                          PDict (mkdict
                            [("ITM_NUMBER", PStr item_no);
                             ("SCHED_LINE", PStr "0001");
                             ("REQ_QTY", quantity);
                             ("REQ_DATE", PStr delivery)])
                          :: order_schedules)
                  | Raise e => Raise e
                  end
              | Raise e => Raise e
              end
          | Raise e, _, _ => Raise e
          | _, Raise e, _ => Raise e
          | _, _, Raise e => Raise e
          end
      | _ => Raise (TypeError "object is not subscriptable")
      end
  end.

(** [create] *)
Definition create (data : Dict) : M (t * W) PyVal :=
  checked <- on_world (validate_data data) ;;
  let '(is_valid, errors) := checked in
  if negb is_valid then
    raise (ValidationException "SD-SO"
             ("Validation failed: " ++ py_str rt (PList (map PStr errors))))
  else
    self <- get ;;
    stamp <- on_world (fun w => (Ok (now w), w)) ;;
    let today := strftime rt "%Y-%m-%d" stamp in
    req_date <- lift (format_sap_date rt
                        (dict_get_or data "requested_date" (PStr today))) ;;
    let order_header := mkdict
      [("DOC_TYPE", dict_get_or data "order_type" (PStr "OR"));
       ("SALES_ORG", dict_get_or data "sales_org" (PStr (sales_org self)));
       ("DISTR_CHAN",
        dict_get_or data "distribution_channel" (PStr (distribution_channel self)));
       ("DIVISION", dict_get_or data "division" (PStr (division self)));
       ("PURCH_NO_C", dict_get_or data "customer_po" (PStr ""));
       ("REQ_DATE_H", PStr req_date)] in
    customer <- lift (dict_item data "customer") ;;
    padded <- lift (val_zfill 10 customer) ;;
    let order_partners :=
      [PDict (mkdict [("PARTN_ROLE", PStr "AG"); ("PARTN_NUMB", PStr padded)]);
       PDict (mkdict [("PARTN_ROLE", PStr "WE"); ("PARTN_NUMB", PStr padded)])] in
    raw_items <- lift (dict_item data "items") ;;
    items <- lift (py_iter raw_items) ;;
    built <- lift (build_items today 1 items) ;;
    let '(order_items, order_schedules) := built in
    try_except
      (result <- on_world (call_bapi conn rt "BAPI_SALESORDER_CREATEFROMDAT2"
                   (mkdict [("ORDER_HEADER_IN", PDict order_header);
                            ("ORDER_PARTNERS", PList order_partners);
                            ("ORDER_ITEMS_IN", PList order_items);
                            ("ORDER_SCHEDULES_IN", PList order_schedules)])) ;;
       messages <- lift (parse_sap_return_messages (return_table_of result)) ;;
       if has_errors messages then
         raise (Exception ("Sales order creation failed: " ++
                           py_str rt (PList (BaseModule.errors messages))))
       else
         let sales_order := dict_get_or result "SALESDOCUMENT" (PStr "") in
         on_world (commit_transaction conn rt) ;;;
         stamp <- on_world (fun w => (Ok (now w), w)) ;;
         modify (fun self =>
           set_transactions
             (log_transaction
                {| transaction_id := "SD-" ++ strftime rt "%Y%m%d%H%M%S" stamp;
                   module := "SD-SO";
                   transaction_type := "SALES_ORDER";
                   status := COMPLETED;
                   created_at := stamp;
                   updated_at := stamp;
                   created_by := "AUTOMATION";
                   data := data;
                   error_message := None;
                   sap_document_number := sales_order |}
                (transactions self))
             self) ;;;
         ret sales_order)
      (fun e => on_world (rollback_transaction conn rt) ;;; raise e).
End Methods.

End SalesOrder.

(* --------------------------------------------------------------------- *)
(** ** [src/workflows/invoice_processing_workflow.py]

    The file uses [logger], [datetime] and [List] without importing them;
    they are taken to be bound as in the sibling modules.  Coroutines are
    run to completion where they are awaited. *)
Module InvoiceWorkflow.
Import BaseModule.
#[local] Open Scope py_scope.

(** What the workflow calls on its collaborators.  [extract_*] belong to
    the OCR/AI engine; [fi_ap_create] and [mm_po_read] are
    [AccountsPayable.create] and [PurchaseOrder.read]; the others are
    methods the workflow calls on itself or on [fi_ap] that no file of the
    repository defines, so they are taken as given. *)
Record Env (W : Type) := {
  extract_text_from_image : string -> M W string;
  extract_invoice_fields : string -> M W Dict;
  _send_to_review_queue : string -> Dict -> list string -> M W unit;
  _is_duplicate_invoice : PyVal -> PyVal -> M W bool;
  _send_approval_notification : Dict -> option Dict -> M W unit;
  self_read_table : string -> list string -> string -> M W (list Dict);
  fi_ap_get_or_create_vendor : Dict -> M W PyVal;
  fi_ap_config_get : string -> PyVal -> M W PyVal;
  fi_ap_create : Dict -> M W PyVal;
  mm_po_read : PyVal -> M W Dict;
  now : W -> Z
}.
Arguments extract_text_from_image {W} _ _ _.
Arguments extract_invoice_fields {W} _ _ _.
Arguments _send_to_review_queue {W} _ _ _ _ _.
Arguments _is_duplicate_invoice {W} _ _ _ _.
Arguments _send_approval_notification {W} _ _ _ _.
Arguments self_read_table {W} _ _ _ _ _.
Arguments fi_ap_get_or_create_vendor {W} _ _ _.
Arguments fi_ap_config_get {W} _ _ _ _.
Arguments fi_ap_create {W} _ _ _.
Arguments mm_po_read {W} _ _ _.
Arguments now {W} _ _.

(** Instrumentation: which collaborator was called, in order. *)
Inductive Call :=
| CExtractText | CExtractFields | CReviewQueue | CDuplicateCheck
| CNotify | CReadTable | CVendor | CConfig | CCreate | CPoRead.

Definition noting {W A} (c : Call) (m : M W A) : M (W * list Call) A :=
  fun '(w, tr) => let '(r, w') := m w in (r, (w', (tr ++ [c])%list)).

Definition traced {W} (env : Env W) : Env (W * list Call) :=
  {| extract_text_from_image := fun f => noting CExtractText (extract_text_from_image env f);
     extract_invoice_fields := fun t => noting CExtractFields (extract_invoice_fields env t);
     _send_to_review_queue := fun f d e =>
       noting CReviewQueue (_send_to_review_queue env f d e);
     _is_duplicate_invoice := fun n v =>
       noting CDuplicateCheck (_is_duplicate_invoice env n v);
     _send_approval_notification := fun d m =>
       noting CNotify (_send_approval_notification env d m);
     self_read_table := fun t f c => noting CReadTable (self_read_table env t f c);
     fi_ap_get_or_create_vendor := fun d => noting CVendor (fi_ap_get_or_create_vendor env d);
     fi_ap_config_get := fun k d => noting CConfig (fi_ap_config_get env k d);
     fi_ap_create := fun d => noting CCreate (fi_ap_create env d);
     mm_po_read := fun n => noting CPoRead (mm_po_read env n);
     now := fun w => now env (fst w) |}.

(** [result['validation']] *)
Record Validation := {
  is_valid : bool;
  v_errors : list string;
  confidence : PyVal
}.

(** The dictionary [result] of [process_invoice_file]. *)
Record Result := {
  status : string;
  file : string;
  extracted_data : option Dict;
  validation : option Validation;
  po_match : option Dict;
  three_way_match : option Dict;
  approval : option Dict;
  sap_document : option PyVal;
  errors : list string
}.

(** The local variables of [process_invoice_file] that its [except]
    clause and its [return] still see: [result] and the dictionary
    [invoice_data], which [result['extracted_data']] aliases. *)
Record Frame := {
  result : Result;
  invoice_data : Dict
}.

Definition with_result (f : Result -> Result) (fr : Frame) : Frame :=
  {| result := f (result fr); invoice_data := invoice_data fr |}.

Definition set_status (st : string) (r : Result) : Result :=
  {| status := st; file := file r; extracted_data := extracted_data r;
     validation := validation r; po_match := po_match r;
     three_way_match := three_way_match r; approval := approval r;
     sap_document := sap_document r; errors := errors r |}.
Definition add_errors (es : list string) (r : Result) : Result :=
  {| status := status r; file := file r; extracted_data := extracted_data r;
     validation := validation r; po_match := po_match r;
     three_way_match := three_way_match r; approval := approval r;
     sap_document := sap_document r; errors := (errors r ++ es)%list |}.
Definition set_validation (v : Validation) (r : Result) : Result :=
  {| status := status r; file := file r; extracted_data := extracted_data r;
     validation := Some v; po_match := po_match r;
     three_way_match := three_way_match r; approval := approval r;
     sap_document := sap_document r; errors := errors r |}.
Definition set_po_match (m : Dict) (r : Result) : Result :=
  {| status := status r; file := file r; extracted_data := extracted_data r;
     validation := validation r; po_match := Some m;
     three_way_match := three_way_match r; approval := approval r;
     sap_document := sap_document r; errors := errors r |}.
Definition set_three_way_match (m : Dict) (r : Result) : Result :=
  {| status := status r; file := file r; extracted_data := extracted_data r;
     validation := validation r; po_match := po_match r;
     three_way_match := Some m; approval := approval r;
     sap_document := sap_document r; errors := errors r |}.
Definition set_approval (a : Dict) (r : Result) : Result :=
  {| status := status r; file := file r; extracted_data := extracted_data r;
     validation := validation r; po_match := po_match r;
     three_way_match := three_way_match r; approval := Some a;
     sap_document := sap_document r; errors := errors r |}.
Definition set_sap_document (d : PyVal) (r : Result) : Result :=
  {| status := status r; file := file r; extracted_data := extracted_data r;
     validation := validation r; po_match := po_match r;
     three_way_match := three_way_match r; approval := approval r;
     sap_document := Some d; errors := errors r |}.

(** [result['extracted_data'] = invoice_data]: both names now denote one
    dictionary. *)
Definition bind_invoice_data (d : Dict) (fr : Frame) : Frame :=
  {| result :=
       {| status := status (result fr); file := file (result fr);
          extracted_data := Some d;
          validation := validation (result fr); po_match := po_match (result fr);
          three_way_match := three_way_match (result fr);
          approval := approval (result fr);
          sap_document := sap_document (result fr);
          errors := errors (result fr) |};
     invoice_data := d |}.

(** [invoice_data[k] = v], seen through both names. *)
Definition set_invoice_item (k : string) (v : PyVal) (fr : Frame) : Frame :=
  bind_invoice_data (<[k := v]> (invoice_data fr)) fr.

(** The block "add metadata if available": [invoice_data] after it. *)
Definition with_metadata (metadata : option Dict) (invoice_data : Dict) : Dict :=
  match metadata with
  | Some md =>
      if truthy (PDict md) then
        <["sender" := dict_get_or md "sender" (PStr "")]>
          (<["email_subject" := dict_get_or md "subject" (PStr "")]> invoice_data)
      else invoice_data
  | None => invoice_data
  end.

Definition required : list string := ["vendor"; "invoice_number"; "date"; "amount"].

(** The first loop of [_validate_invoice_data]. *)
Definition missing_fields (data : Dict) : list string :=
  flat_map (fun field =>
              if truthy (dict_get data field) then [] else ["Missing " ++ field])
           required.


(** [timedelta.days] of a difference in microseconds. *)
Definition timedelta_days (d : Z) : Z := d / (86400 * 1000000).

(** The sum in [_match_with_po] (and in the invoice verification of the
    procure-to-pay workflow): quantity times price over the items. *)
Fixpoint sum_items (items : list PyVal) : Res Q :=
  match items with
  | [] => Ok 0%Q
  | item :: rest =>
      match val_get_or item "quantity" (PNum 0), val_get_or item "price" (PNum 0) with
      | Ok quantity, Ok price =>
          match py_mul quantity price, sum_items rest with
          | Ok x, Ok total => Ok (x + total)%Q
          | Raise e, _ => Raise e
          | _, Raise e => Raise e
          end
      | Raise e, _ => Raise e
      | _, Raise e => Raise e
      end
  end.

Definition po_total (po_data : Dict) : Res Q :=
  match py_iter (dict_get_or po_data "items" (PList [])) with
  | Ok items => sum_items items
  | Raise e => Raise e
  end.

(** The arithmetic of [_match_with_po]. *)
Definition variance_percent (po_total invoice_amount : Q) : Res Q :=
  if Qeq_bool po_total 0 then Raise ZeroDivisionError
  else Ok (Qabs (po_total - invoice_amount) / po_total * 100)%Q.

Section Workflow.
Context {W : Type} (env : Env W) (rt : Runtime).

(** The amount check of [_validate_invoice_data]: [ValueError] is
    handled, any other exception of [float] propagates. *)
Definition amount_errors (data : Dict) : Res (list string) :=
  if truthy (dict_get data "amount") then
    match py_float rt (dict_get data "amount") with
    | Ok amount =>
        Ok ((if Qle_bool amount 0 then ["Amount must be positive"] else []) ++
            (if Qle_bool amount 1000000 then []
             else ["Amount exceeds maximum threshold"]))%list
    | Raise (ValueError _) => Ok ["Invalid amount format"]
    | Raise e => Raise e
    end
  else Ok [].

(** The date check of [_validate_invoice_data], with [today] the value of
    [datetime.now()]; every exception is handled. *)
Definition date_errors (today : Z) (data : Dict) : list string :=
  if truthy (dict_get data "date") then
    match dateutil_parse rt (dict_get data "date") with
    | Some invoice_date =>
        ((if today <? invoice_date then ["Invoice date is in the future"] else []) ++
         (if 365 <? timedelta_days (today - invoice_date)
          then ["Invoice is over 1 year old"] else []))%list
    | None => ["Invalid date format: " ++ py_str rt (dict_get data "date")]
    end
  else [].

(** [_validate_invoice_data] *)
Definition _validate_invoice_data (data : Dict) : M W (bool * list string) :=
  let errors := missing_fields data in
  more <- lift (amount_errors data) ;;
  let errors := (errors ++ more)%list in
  today <- (fun w => (Ok (now env w), w)) ;;
  let errors := (errors ++ date_errors today data)%list in
  errors <-
    (if (truthy (dict_get data "invoice_number") &&
         truthy (dict_get data "vendor_code"))%bool then
       duplicate <- _is_duplicate_invoice env (dict_get data "invoice_number")
                                          (dict_get data "vendor_code") ;;
       ret (if duplicate then (errors ++ ["Duplicate invoice number"])%list
            else errors)
     else ret errors) ;;
  ret (match errors with [] => true | _ => false end, errors).

(** [_match_with_po] *)
Definition _match_with_po (invoice_data : Dict) (po_number : PyVal) : M W Dict :=
  try_except
    (po_data <- mm_po_read env po_number ;;
     total <- lift (po_total po_data) ;;
     invoice_amount <- lift (py_float rt (dict_get_or invoice_data "amount" (PNum 0))) ;;
     variance <- lift (variance_percent total invoice_amount) ;;
     let is_match := Qle_bool variance 5 in
     ret (mkdict
            [("is_match", PBool is_match);
             ("po_amount", PNum total);
             ("invoice_amount", PNum invoice_amount);
             ("variance_percent", PNum variance);
             ("reason",
              PStr (if negb is_match
                    then "Variance " ++ format_num rt ".2f" variance ++ "%"
                    else "Match OK"))]))
    (fun e => ret (mkdict [("is_match", PBool false);
                           ("reason", PStr ("PO lookup failed: " ++ exn_str e))])).

(** [_three_way_match] *)
Definition _three_way_match (invoice_data po_match : Dict) : M W Dict :=
  try_except
    (let po_number := dict_get invoice_data "po_number" in
     gr_docs <- self_read_table env "MKPF" ["MBLNR"; "MJAHR"; "BUDAT"]
                  ("EBELN = '" ++ py_str rt po_number ++ "'") ;;
     match gr_docs with
     | [] => ret (mkdict [("is_match", PBool false);
                          ("reason", PStr "No goods receipt found for PO")])
     | _ =>
         numbers <- lift (fold_right
                       (fun doc acc =>
                          match dict_item doc "MBLNR", acc with
                          | Ok v, Ok l => Ok (v :: l)
                          | Raise e, _ => Raise e
                          | _, Raise e => Raise e
                          end) (Ok []) gr_docs) ;;
         ret (mkdict [("is_match", PBool true);
                      ("gr_documents", PList numbers);
                      ("reason", PStr "3-way match successful")])
     end)
    (fun e => ret (mkdict [("is_match", PBool false);
                           ("reason", PStr ("3-way match failed: " ++ exn_str e))])).

(** [_requires_approval] *)
Definition _requires_approval (invoice_data : Dict) : M W bool :=
  amount <- lift (py_float rt (dict_get_or invoice_data "amount" (PNum 0))) ;;
  threshold <- fi_ap_config_get env "FI.approval.manager_approval_above" (PNum 10000) ;;
  limit <- lift (as_number threshold) ;;
  ret (negb (Qle_bool amount limit)).

(** [_request_approval] *)
Definition _request_approval (invoice_data : Dict) (match_data : option Dict)
  : M W Dict :=
  _send_approval_notification env invoice_data match_data ;;;
  stamp <- (fun w => (Ok (now env w), w)) ;;
  ret (mkdict [("status", PStr "pending");
               ("approver", PStr "manager@company.com");
               ("requested_at", PStr (strftime rt "isoformat" stamp))]).

(** [_post_invoice_to_sap] *)
Definition _post_invoice_to_sap (invoice_data : Dict) : M W PyVal :=
  vendor_code <- lift (dict_item invoice_data "vendor_code") ;;
  invoice_number <- lift (dict_item invoice_data "invoice_number") ;;
  date <- lift (dict_item invoice_data "date") ;;
  stamp <- (fun w => (Ok (now env w), w)) ;;
  raw_amount <- lift (dict_item invoice_data "amount") ;;
  amount <- lift (py_float rt raw_amount) ;;
  fi_ap_create env
    (mkdict [("vendor_code", vendor_code);
             ("invoice_number", invoice_number);
             ("invoice_date", date);
             ("posting_date", PStr (strftime rt "%Y-%m-%d" stamp));
             ("amount", PNum amount);
             ("currency", dict_get_or invoice_data "currency" (PStr "USD"));
             ("reference", dict_get_or invoice_data "po_number" (PStr ""));
             ("text", PStr ("Auto-posted via AI: " ++
                            py_str rt (dict_get invoice_data "invoice_number")))]).

Definition initial_result (file_path : string) : Result :=
  {| status := "processing"; file := file_path; extracted_data := None;
     validation := None; po_match := None; three_way_match := None;
     approval := None; sap_document := None; errors := [] |}.

(** Steps 7 and 8 of [process_invoice_file]. *)
Definition approve_and_post : M (Frame * W) unit :=
  fr <- get ;;
  requires_approval <- on_world (_requires_approval (invoice_data fr)) ;;
  pending <-
    (if requires_approval : bool then
       approval <- on_world (_request_approval (invoice_data fr) None) ;;
       modify (with_result (set_approval approval)) ;;;
       st <- lift (dict_item approval "status") ;;
       if negb (is_str st "approved") then
         modify (with_result (set_status "pending_approval")) ;;; ret true
       else ret false
     else ret false) ;;
  if pending : bool then ret tt
  else
    fr <- get ;;
    sap_doc <- on_world (_post_invoice_to_sap (invoice_data fr)) ;;
    modify (with_result (set_sap_document sap_doc)) ;;;
    modify (with_result (set_status "completed")).

(** Steps 4 to 8 of [process_invoice_file]. *)
Definition resolve_match_post : M (Frame * W) unit :=
  fr <- get ;;
  vendor_code <- on_world (fi_ap_get_or_create_vendor env
    (mkdict [("name", dict_get (invoice_data fr) "vendor");
             ("tax_id", dict_get (invoice_data fr) "vendor_tax_id");
             ("country", dict_get_or (invoice_data fr) "vendor_country" (PStr "US"))])) ;;
  modify (set_invoice_item "vendor_code" vendor_code) ;;;
  fr <- get ;;
  let po_number := dict_get (invoice_data fr) "po_number" in
  if truthy po_number then
    po_match <- on_world (_match_with_po (invoice_data fr) po_number) ;;
    modify (with_result (set_po_match po_match)) ;;;
    matched <- lift (dict_item po_match "is_match") ;;
    if negb (truthy matched) then
      modify (with_result (set_status "po_mismatch")) ;;;
      reason <- lift (dict_item po_match "reason") ;;
      modify (with_result (add_errors ["PO mismatch: " ++ py_str rt reason])) ;;;
      on_world (_request_approval (invoice_data fr) (Some po_match)) ;;;
      ret tt
    else
      three_way <- on_world (_three_way_match (invoice_data fr) po_match) ;;
      modify (with_result (set_three_way_match three_way)) ;;;
      matched3 <- lift (dict_item three_way "is_match") ;;
      if negb (truthy matched3) then
        modify (with_result (set_status "three_way_mismatch")) ;;;
        reason <- lift (dict_item three_way "reason") ;;
        modify (with_result (add_errors ["3-way mismatch: " ++ py_str rt reason])) ;;;
        on_world (_request_approval (invoice_data fr) (Some three_way)) ;;;
        ret tt
      else approve_and_post
  else approve_and_post.

(** The [try] block of [process_invoice_file]. *)
Definition process_steps (file_path : string) (metadata : option Dict)
  : M (Frame * W) unit :=
  text <- on_world (extract_text_from_image env file_path) ;;
  extracted <- on_world (extract_invoice_fields env text) ;;
  modify (bind_invoice_data extracted) ;;;
  modify (fun fr => bind_invoice_data (with_metadata metadata (invoice_data fr)) fr) ;;;
  fr <- get ;;
  checked <- on_world (_validate_invoice_data (invoice_data fr)) ;;
  let '(valid, validation_errors) := checked in
  modify (with_result (set_validation
    {| is_valid := valid; v_errors := validation_errors;
       confidence := dict_get_or (invoice_data fr) "confidence" (PNum 0) |})) ;;;
  if negb valid then
    modify (with_result (set_status "requires_manual_review")) ;;;
    modify (with_result (add_errors validation_errors)) ;;;
    on_world (_send_to_review_queue env file_path (invoice_data fr) validation_errors)
  else resolve_match_post.

(** [process_invoice_file] *)
Definition process_invoice_file (file_path : string) (metadata : option Dict)
  : M W Result :=
  fun w =>
    let '(_, (fr, w')) :=
      try_except (process_steps file_path metadata)
        (fun e =>
           modify (with_result (set_status "failed")) ;;;
           modify (with_result (add_errors [exn_str e])))
        ({| result := initial_result file_path; invoice_data := ∅ |}, w) in
    (Ok (result fr), w').
End Workflow.

(** Sample data.  A remote system that knows one purchase order of 10
    items at 100 each and accepts postings; the collaborators of a run in
    which the OCR engine extracts [extracted] and the review queue answers
    [review]; an invoice without vendor name. *)
Definition sample_connector : Connector unit :=
  {| call_function := fun name ps w =>
       if String.eqb name "BAPI_PO_GETDETAIL" then
         (Ok (mkdict
                [("PO_HEADER", PDict (mkdict [("VENDOR", PStr "0000001000");
                                              ("CREATED_ON", PStr "20241101")]));
                 ("PO_ITEMS", PList [PDict (mkdict [("quantity", PNum 10);
                                                    ("price", PNum 100)])])]), w)
       else if String.eqb name "BAPI_ACC_DOCUMENT_POST" then
         (Ok (mkdict [("OBJ_KEY", PStr "5100000001")]), w)
       else (Ok ∅, w);
     read_table := fun _ _ _ _ w =>
       (Ok [mkdict [("LIFNR", PStr "0000001000")]], w) |}.

Definition sample_env (extracted : Dict) (review : Res unit)
  : Env (AccountsPayable.t * unit) :=
  {| extract_text_from_image := fun _ => ret "INVOICE ...";
     extract_invoice_fields := fun _ => ret extracted;
     _send_to_review_queue := fun _ _ _ => lift review;
     _is_duplicate_invoice := fun _ _ => ret false;
     _send_approval_notification := fun _ _ => ret tt;
     self_read_table := fun _ _ _ => ret [];
     fi_ap_get_or_create_vendor := fun _ => ret (PStr "1000");
     fi_ap_config_get := fun _ dflt => ret dflt;
     fi_ap_create :=
       AccountsPayable.create sample_connector AccountsPayable.sample_runtime
                              (fun _ => 0);
     mm_po_read := fun po_number =>
       on_world (PurchaseOrder.read sample_connector
                                    AccountsPayable.sample_runtime po_number);
     now := fun _ => 0 |}.

Definition invoice_of (amount : Q) : Dict :=
  mkdict [("vendor", PStr "ACME Corp"); ("invoice_number", PStr "INV-77");
          ("date", PStr "2024-11-01"); ("amount", PNum amount);
          ("po_number", PStr "4500000001")].




End InvoiceWorkflow.

(* --------------------------------------------------------------------- *)
(** ** [src/workflows/procure_to_pay.py] *)
Module ProcureToPay.
Import BaseModule.
#[local] Open Scope py_scope.

Inductive WorkflowStatus :=
| INITIATED | PO_CREATED | GOODS_RECEIVED | INVOICE_POSTED
| PAYMENT_PROCESSED | COMPLETED | FAILED.

Record ProcureToPayRequest := {
  requisition_id : string;
  vendor : string;
  materials : list Dict;
  total_amount : Q;
  urgency : string;
  requester : string;
  cost_center : string
}.

(** What the workflow calls on its collaborators: the AI components
    ([ProcessClassifier.predict], [AnomalyDetector.detect], outside the
    repository's sources) and the methods of its two domain modules
    ([PurchaseOrder] as [mm_po], [AccountsPayable] as [fi_ap]). *)
Record Env (W : Type) := {
  classifier_predict : Dict -> M W Dict;
  anomaly_detect : Dict -> M W (PyVal * PyVal);
  mm_po_create : Dict -> M W PyVal;
  mm_po_create_goods_receipt : PyVal -> list Dict -> M W PyVal;
  mm_po_read : PyVal -> M W Dict;
  fi_ap_create : Dict -> M W PyVal;
  fi_ap_process_payment : PyVal -> Q -> string -> M W PyVal;
  now : W -> Z
}.
Arguments classifier_predict {W} _ _ _.
Arguments anomaly_detect {W} _ _ _.
Arguments mm_po_create {W} _ _ _.
Arguments mm_po_create_goods_receipt {W} _ _ _ _.
Arguments mm_po_read {W} _ _ _.
Arguments fi_ap_create {W} _ _ _.
Arguments fi_ap_process_payment {W} _ _ _ _ _.
Arguments now {W} _ _.

(** Instrumentation: which collaborator was called, in order. *)
Inductive Call :=
| PClassify | PDetect | PCreateOrder | PGoodsReceipt | PReadOrder
| PCreateInvoice | PPayment.

Definition noting {W A} (c : Call) (m : M W A) : M (W * list Call) A :=
  fun '(w, tr) => let '(r, w') := m w in (r, (w', (tr ++ [c])%list)).

Definition traced {W} (env : Env W) : Env (W * list Call) :=
  {| classifier_predict := fun f => noting PClassify (classifier_predict env f);
     anomaly_detect := fun d => noting PDetect (anomaly_detect env d);
     mm_po_create := fun d => noting PCreateOrder (mm_po_create env d);
     mm_po_create_goods_receipt := fun n items =>
       noting PGoodsReceipt (mm_po_create_goods_receipt env n items);
     mm_po_read := fun n => noting PReadOrder (mm_po_read env n);
     fi_ap_create := fun d => noting PCreateInvoice (fi_ap_create env d);
     fi_ap_process_payment := fun v a m =>
       noting PPayment (fi_ap_process_payment env v a m);
     now := fun w => now env (fst w) |}.

(** The attributes of the workflow object. *)
Record t := {
  workflow_id : option string;
  status : WorkflowStatus;
  documents : Dict
}.

(** [ProcureToPayWorkflow.__init__] *)
Definition init : t :=
  {| workflow_id := None; status := INITIATED; documents := ∅ |}.

(** The dictionary [summary] of [execute]. *)
Record Summary := {
  s_workflow_id : string;
  s_status : string;
  steps_completed : list string;
  s_documents : Dict;
  s_errors : list string;
  classification : option Dict
}.

(** What the [except] clause and the [return] of [execute] still see. *)
Record Frame := {
  self : t;
  summary : Summary
}.

Definition set_self_status (st : WorkflowStatus) (fr : Frame) : Frame :=
  {| self := {| workflow_id := workflow_id (self fr); status := st;
                documents := documents (self fr) |};
     summary := summary fr |}.
Definition set_self_document (k : string) (v : PyVal) (fr : Frame) : Frame :=
  {| self := {| workflow_id := workflow_id (self fr); status := status (self fr);
                documents := <[k := v]> (documents (self fr)) |};
     summary := summary fr |}.
Definition with_summary (f : Summary -> Summary) (fr : Frame) : Frame :=
  {| self := self fr; summary := f (summary fr) |}.

Definition set_status (st : string) (sm : Summary) : Summary :=
  {| s_workflow_id := s_workflow_id sm; s_status := st;
     steps_completed := steps_completed sm; s_documents := s_documents sm;
     s_errors := s_errors sm; classification := classification sm |}.
Definition add_step (step : string) (sm : Summary) : Summary :=
  {| s_workflow_id := s_workflow_id sm; s_status := s_status sm;
     steps_completed := (steps_completed sm ++ [step])%list;
     s_documents := s_documents sm;
     s_errors := s_errors sm; classification := classification sm |}.
Definition set_document (k : string) (v : PyVal) (sm : Summary) : Summary :=
  {| s_workflow_id := s_workflow_id sm; s_status := s_status sm;
     steps_completed := steps_completed sm;
     s_documents := <[k := v]> (s_documents sm);
     s_errors := s_errors sm; classification := classification sm |}.
Definition add_error (msg : string) (sm : Summary) : Summary :=
  {| s_workflow_id := s_workflow_id sm; s_status := s_status sm;
     steps_completed := steps_completed sm; s_documents := s_documents sm;
     s_errors := (s_errors sm ++ [msg])%list;
     classification := classification sm |}.
Definition set_classification (c : Dict) (sm : Summary) : Summary :=
  {| s_workflow_id := s_workflow_id sm; s_status := s_status sm;
     steps_completed := steps_completed sm; s_documents := s_documents sm;
     s_errors := s_errors sm; classification := Some c |}.

(** [_should_auto_pay] *)
Definition _should_auto_pay (request : ProcureToPayRequest) : bool :=
  if negb (Qle_bool (total_amount request) 10000) then false
  else if String.eqb (urgency request) "emergency" then false
  else true.

(** The purchase-order data of [_create_purchase_order]. *)
Definition po_data_of (request : ProcureToPayRequest) : Dict :=
  mkdict [("vendor", PStr (vendor request));
          ("purchasing_org", PStr "1000");
          ("purchasing_group", PStr "001");
          ("company_code", PStr "1000");
          ("doc_type", PStr "NB");
          ("items", PList (map PDict (materials request)))].

(** The loop of [_post_goods_receipt]; a missing key is a [KeyError]. *)
Fixpoint gr_items_of (materials : list Dict) : Res (list Dict) :=
  match materials with
  | [] => Ok []
  | item :: rest =>
      match dict_item item "material", dict_item item "plant",
            dict_item item "quantity" with
      | Ok material, Ok plant, Ok quantity =>
          match gr_items_of rest with
          | Ok items =>
              Ok (mkdict [("material", material); ("plant", plant);
                          ("quantity", quantity);
                          ("po_item", dict_get_or item "po_item" (PStr "00010"))]
                  :: items)
          | Raise e => Raise e
          end
      | Raise e, _, _ => Raise e
      | _, Raise e, _ => Raise e
      | _, _, Raise e => Raise e
      end
  end.

Section Workflow.
Context {W : Type} (env : Env W) (rt : Runtime).

(** The invoice data of [_post_invoice], with [stamp] the value of
    [datetime.now()]. *)
Definition invoice_data_of (request : ProcureToPayRequest) (po_number : PyVal)
           (stamp : Z) : Dict :=
  mkdict [("vendor_code", PStr (vendor request));
          ("invoice_number", PStr ("INV-" ++ requisition_id request));
          ("invoice_date", PStr (strftime rt "%Y-%m-%d" stamp));
          ("posting_date", PStr (strftime rt "%Y-%m-%d" stamp));
          ("amount", PNum (total_amount request));
          ("currency", PStr "USD");
          ("gl_account", PStr "400000");
          ("cost_center",
           PStr (if String.eqb (cost_center request) "" then "CC1000"
                 else cost_center request));
          ("reference", po_number);
          ("text", PStr ("Automated invoice for PO " ++ py_str rt po_number))].

(** [_classify_request]; the prediction is an object whose attributes are
    read, and whose confidence is formatted as a percentage, inside the
    [try]. *)
Definition _classify_request (request : ProcureToPayRequest) : M W Dict :=
  try_except
    (let features := mkdict
       [("amount", PNum (total_amount request));
        ("urgency",
         PNum (if String.eqb (urgency request) "normal" then 0
               else if String.eqb (urgency request) "urgent" then 1 else 2)%Q);
        ("item_count", PNum (inject_Z (Z.of_nat (length (materials request)))));
        ("vendor_category", PNum 1)] in
     prediction <- classifier_predict env features ;;
     process_type <- lift (dict_item prediction "process_type") ;;
     confidence <- lift (dict_item prediction "confidence") ;;
     lift (as_number confidence) ;;;
     recommended_action <- lift (dict_item prediction "recommended_action") ;;
     estimated_time <- lift (dict_item prediction "estimated_time") ;;
     ret (mkdict [("process_type", process_type);
                  ("confidence", confidence);
                  ("recommended_action", recommended_action);
                  ("estimated_time", estimated_time)]))
    (fun _ => ret (mkdict [("process_type", PStr "standard_procurement");
                           ("confidence", PNum (1 # 2));
                           ("recommended_action", PStr "MANUAL_REVIEW");
                           ("estimated_time", PNum 300)])).

(** [_create_purchase_order] *)
Definition _create_purchase_order (request : ProcureToPayRequest)
  : M (Frame * W) PyVal :=
  po_number <- on_world (mm_po_create env (po_data_of request)) ;;
  modify (set_self_document "po_number" po_number) ;;;
  ret po_number.

(** [_post_goods_receipt] *)
Definition _post_goods_receipt (po_number : PyVal) (materials : list Dict)
  : M (Frame * W) PyVal :=
  gr_items <- lift (gr_items_of materials) ;;
  material_doc <- on_world (mm_po_create_goods_receipt env po_number gr_items) ;;
  modify (set_self_document "material_document" material_doc) ;;;
  ret material_doc.

(** [_verify_invoice_with_ai] *)
Definition _verify_invoice_with_ai (request : ProcureToPayRequest)
           (po_number : PyVal) : M W bool :=
  po_data <- mm_po_read env po_number ;;
  expected_amount <- lift (InvoiceWorkflow.po_total po_data) ;;
  let variance := Qabs (expected_amount - total_amount request) in
  let variance_percent :=
    if negb (Qle_bool expected_amount 0)
    then (variance / expected_amount * 100)%Q else 0%Q in
  if negb (Qle_bool variance_percent 5) then
    try_except
      (let transaction_data := mkdict
         [("amount", PNum (total_amount request));
          ("expected_amount", PNum expected_amount);
          ("variance_percent", PNum variance_percent);
          ("vendor", PStr (vendor request))] in
       verdict <- anomaly_detect env transaction_data ;;
       let '(is_anomaly, score) := verdict in
       if truthy is_anomaly then lift (as_number score) ;;; ret false
       else ret true)
      (fun _ => ret (Qle_bool variance_percent 10))
  else ret true.

(** [_post_invoice] *)
Definition _post_invoice (request : ProcureToPayRequest) (po_number : PyVal)
  : M (Frame * W) PyVal :=
  stamp <- on_world (fun w => (Ok (now env w), w)) ;;
  invoice_doc <- on_world (fi_ap_create env (invoice_data_of request po_number stamp)) ;;
  modify (set_self_document "invoice_document" invoice_doc) ;;;
  ret invoice_doc.

(** [_process_payment] *)
Definition _process_payment (vendor : string) (amount : Q) : M W PyVal :=
  fi_ap_process_payment env (PStr vendor) amount "T".

(** The [try] block of [execute]. *)
Definition execute_steps (request : ProcureToPayRequest) : M (Frame * W) unit :=
  classification <- on_world (_classify_request request) ;;
  modify (with_summary (set_classification classification)) ;;;
  po_number <- _create_purchase_order request ;;
  modify (with_summary (add_step "po_created")) ;;;
  modify (with_summary (set_document "po_number" po_number)) ;;;
  modify (set_self_status PO_CREATED) ;;;
  material_doc <- _post_goods_receipt po_number (materials request) ;;
  modify (with_summary (add_step "goods_received")) ;;;
  modify (with_summary (set_document "material_document" material_doc)) ;;;
  modify (set_self_status GOODS_RECEIVED) ;;;
  invoice_valid <- on_world (_verify_invoice_with_ai request po_number) ;;
  if negb invoice_valid then
    modify (with_summary
              (add_error "Invoice verification failed - requires manual review")) ;;;
    modify (with_summary (set_status "requires_review"))
  else
    invoice_doc <- _post_invoice request po_number ;;
    modify (with_summary (add_step "invoice_posted")) ;;;
    modify (with_summary (set_document "invoice_document" invoice_doc)) ;;;
    modify (set_self_status INVOICE_POSTED) ;;;
    (if _should_auto_pay request then
       payment_doc <- on_world (_process_payment (vendor request)
                                                 (total_amount request)) ;;
       modify (with_summary (add_step "payment_processed")) ;;;
       modify (with_summary (set_document "payment_document" payment_doc)) ;;;
       modify (set_self_status PAYMENT_PROCESSED)
     else ret tt) ;;;
    modify (set_self_status COMPLETED) ;;;
    modify (with_summary (set_status "completed")).

(** [execute] *)
Definition execute (request : ProcureToPayRequest) : M (t * W) Summary :=
  fun '(this, w) =>
    let workflow_id := "P2P-" ++ strftime rt "%Y%m%d%H%M%S" (now env w) in
    let '(_, (fr, w')) :=
      try_except (execute_steps request)
        (fun e =>
           modify (with_summary (set_status "failed")) ;;;
           modify (with_summary (add_error (exn_str e))) ;;;
           modify (set_self_status FAILED))
        ({| self := {| workflow_id := Some workflow_id; status := status this;
                       documents := documents this |};
            summary := {| s_workflow_id := workflow_id;
                          s_status := "in_progress";
                          steps_completed := [];
                          s_documents := ∅;
                          s_errors := [];
                          classification := None |} |}, w) in
    (Ok (summary fr), (self fr, w')).
End Workflow.

(** Sample data.  A remote system with one purchase order of 100 items
    at 100 each that accepts postings; collaborators built from it, with
    the domain-module methods this development models and plain answers
    for the others; a request for exactly 10000 and one for 10001. *)
Definition sample_connector : Connector unit :=
  {| call_function := fun name ps w =>
       if String.eqb name "BAPI_PO_GETDETAIL" then
         (Ok (mkdict
                [("PO_HEADER", PDict (mkdict [("VENDOR", PStr "0000001000")]));
                 ("PO_ITEMS", PList [PDict (mkdict [("quantity", PNum 100);
                                                    ("price", PNum 100)])])]), w)
       else if String.eqb name "BAPI_ACC_DOCUMENT_POST" then
         (Ok (mkdict [("OBJ_KEY", PStr "5100000001")]), w)
       else (Ok ∅, w);
     read_table := fun _ _ _ _ w =>
       (Ok [mkdict [("LIFNR", PStr "0000001000")]], w) |}.

Definition sample_env : Env (AccountsPayable.t * unit) :=
  {| classifier_predict := fun _ =>
       ret (mkdict [("process_type", PStr "standard_procurement");
                    ("confidence", PNum (9 # 10));
                    ("recommended_action", PStr "AUTO_APPROVE");
                    ("estimated_time", PNum 120)]);
     anomaly_detect := fun _ => ret (PBool false, PNum 0);
     mm_po_create := fun _ => ret (PStr "4500000001");
     mm_po_create_goods_receipt := fun _ _ => ret (PStr "5000000001");
     mm_po_read := fun po_number =>
       on_world (PurchaseOrder.read sample_connector
                                    AccountsPayable.sample_runtime po_number);
     fi_ap_create :=
       AccountsPayable.create sample_connector AccountsPayable.sample_runtime
                              (fun _ => 0);
     fi_ap_process_payment := fun vendor_code amount payment_method =>
       AccountsPayable.process_payment sample_connector
         AccountsPayable.sample_runtime vendor_code (PNum amount) payment_method;
     now := fun _ => 0 |}.

Definition request_for (amount : Q) : ProcureToPayRequest :=
  {| requisition_id := "REQ-2024-001";
     vendor := "1000";
     materials := [mkdict [("material", PStr "MAT001"); ("quantity", PNum 100);
                           ("price", PNum 100); ("plant", PStr "1000")]];
     total_amount := amount;
     urgency := "normal";
     requester := "USER123";
     cost_center := "CC1000" |}.

End ProcureToPay.

(* --------------------------------------------------------------------- *)
(** ** [src/core/circuit_breaker.py]: runs of several calls *)
Module CircuitBreakerRuns.
Import CircuitBreaker.

Section Runs.
Context {W R : Type} (now : W -> Z).



End Runs.

End CircuitBreakerRuns.
(* --------------------------------------------------------------------- *)
(** ** [src/api/middleware.py]: the request middleware

    A Starlette request is what the middleware reads from it (method,
    path, client address, the value [request.headers.get] gives for a
    header name) and what it stores in [request.state]; a response is its
    status code, its body and the headers this code sets on it. *)
Module HttpMiddleware.
Import BaseModule Middleware.
#[local] Open Scope py_scope.

Record Request := {
  method : string;
  url_path : string;
  (** [request.client.host]; [None] when [request.client] is [None] *)
  client_host : option string;
  (** [request.headers.get(name)] *)
  req_header : string -> option string;
  (** [request.state.request_id] and [request.state.user], once set *)
  state_request_id : option string;
  state_user : option Dict
}.

Record Response := {
  status_code : Z;
  body : PyVal;
  headers : gmap string string
}.

(** [request.state.request_id = v] and [request.state.user = v] *)
Definition set_state_request_id (v : string) (request : Request) : Request :=
  {| method := method request; url_path := url_path request;
     client_host := client_host request; req_header := req_header request;
     state_request_id := Some v; state_user := state_user request |}.
Definition set_state_user (v : Dict) (request : Request) : Request :=
  {| method := method request; url_path := url_path request;
     client_host := client_host request; req_header := req_header request;
     state_request_id := state_request_id request; state_user := Some v |}.

(** [response.headers[k] = v] *)
Definition set_header (k v : string) (response : Response) : Response :=
  {| status_code := status_code response; body := body response;
     headers := <[k := v]> (headers response) |}.

(** [JSONResponse(status_code=..., content=..., headers=...)] *)
Definition JSONResponse (status_code : Z) (content : list (string * PyVal))
           (headers : list (string * string)) : Response :=
  {| status_code := status_code; body := PDict (mkdict content);
     headers := list_to_map headers |}.

(** [a or b] where [a] is what [headers.get] returned. *)
Definition or_else (a : option string) (b : string) : string :=
  match a with
  | Some s => if String.eqb s "" then b else s
  | None => b
  end.

(** [int(x)] for a float: truncation towards zero. *)
Definition py_int (x : Q) : Z :=
  if Qle_bool 0 x then Qfloor x else Qceiling x.

(** [s.replace(old, new)]: the occurrences of [old] are found from left
    to right and do not overlap; an empty [old] matches before every
    character and at the end. *)
Fixpoint replace_from (old new : string) (skip : nat) (s : string) : string :=
  match s with
  | EmptyString => EmptyString
  | String c rest =>
      match skip with
      | S skip' => replace_from old new skip' rest
      | O =>
          if String.prefix old s
          then (new ++ replace_from old new (String.length old - 1) rest)%string
          else String c (replace_from old new 0 rest)
      end
  end.
Fixpoint intersperse (new s : string) : string :=
  match s with
  | EmptyString => EmptyString
  | String c rest => String c (new ++ intersperse new rest)
  end.
Definition replace (old new s : string) : string :=
  match old with
  | EmptyString => (new ++ intersperse new s)%string
  | _ => replace_from old new 0 s
  end.

(** *** [RateLimitMiddleware] *)
Module RateLimitMiddleware.

Record t := {
  rate_limiter : RateLimiter;
  by_ip : bool
}.

(** [RateLimitMiddleware.__init__] *)
Definition init (requests_per_minute : Z) (by_ip : bool) : t :=
  {| rate_limiter := RateLimiter_init requests_per_minute; by_ip := by_ip |}.

(** The client identifier of [dispatch].  In
    [a or b or request.client.host if request.client else "unknown"] the
    conditional expression binds weakest, so the headers are only looked
    at when the request has a client address. *)
Definition client_id_of (by_ip : bool) (request : Request) : string :=
  if by_ip then
    match client_host request with Some host => host | None => "unknown" end
  else
    match client_host request with
    | Some host =>
        or_else (req_header request "X-API-Key")
                (or_else (req_header request "X-User-ID") host)
    | None => "unknown"
    end.

Section Dispatch.
(** [clock k] is the [k]-th reading of [time.time()], as for the limiter;
    the middleware object is threaded with the number of readings made. *)
Context {W : Type} (clock : nat -> Q) (rt : Runtime).

(** The answer to a request over the limit. *)
Definition too_many_requests (retry_after : Q) : Response :=
  JSONResponse 429
    [("error", PStr "Rate limit exceeded");
     ("message", PStr ("Too many requests. Try again in " ++
                       format_num rt ".1f" retry_after ++ " seconds"));
     ("retry_after", PNum retry_after)]
    [("Retry-After", py_str rt (PNum (inject_Z (py_int retry_after + 1))))].

(** [dispatch] *)
Definition dispatch (request : Request) (call_next : Request -> M W Response)
  : M ((t * nat) * W) Response :=
  fun '((self, k), w) =>
    let client_id := client_id_of (by_ip self) request in
    let '(allowed, rl, k1) := is_allowed clock client_id (rate_limiter self) k in
    let self1 := {| rate_limiter := rl; by_ip := by_ip self |} in
    if negb allowed then
      match get_retry_after client_id rl with
      | Ok retry_after => (Ok (too_many_requests retry_after), ((self1, k1), w))
      | Raise e => (Raise e, ((self1, k1), w))
      end
    else
      match call_next request w with
      | (Ok response, w1) =>
          (Ok (set_header "X-RateLimit-Remaining" "1"
                 (set_header "X-RateLimit-Limit"
                    (py_str rt (PNum (inject_Z (requests_per_minute rl))))
                    response)),
           ((self1, k1), w1))
      | (Raise e, w1) => (Raise e, ((self1, k1), w1))
      end.
End Dispatch.

End RateLimitMiddleware.

(** *** [RequestIDMiddleware] *)
Module RequestIDMiddleware.
Section Dispatch.
(** [uuid4] stands for [str(uuid.uuid4())]. *)
Context {W : Type} (uuid4 : M W string).

(** [dispatch] *)
Definition dispatch (request : Request) (call_next : Request -> M W Response)
  : M W Response :=
  request_id <-
    (match req_header request "X-Request-ID" with
     | Some s => if String.eqb s "" then uuid4 else ret s
     | None => uuid4
     end) ;;
  response <- call_next (set_state_request_id request_id request) ;;
  ret (set_header "X-Request-ID" request_id response).
End Dispatch.
End RequestIDMiddleware.

(** *** [AuthenticationMiddleware] *)
Module AuthenticationMiddleware.

Record t := {
  secret_key : string;
  excluded_paths : list string
}.

Definition default_excluded_paths : list string :=
  ["/"; "/health"; "/ready"; "/docs"; "/redoc"; "/openapi.json"].

(** [AuthenticationMiddleware.__init__]; [excluded_paths or [...]] also
    replaces an empty list by the default. *)
Definition init (secret_key : string) (excluded_paths : option (list string)) : t :=
  {| secret_key := secret_key;
     excluded_paths := match excluded_paths with
                       | Some (p :: ps) => p :: ps
                       | _ => default_excluded_paths
                       end |}.

(** [_verify_token]: the body of its [try] is a constant. *)
Definition _verify_token (self : t) (token : string) : option Dict :=
  Some (mkdict [("user_id", PStr "test-user"); ("role", PStr "admin")]).

Definition unauthorized (message : string) (headers : list (string * string))
  : Response :=
  JSONResponse 401
    [("error", PStr "Unauthorized"); ("message", PStr message)] headers.

Section Dispatch.
Context {W : Type}.

(** [dispatch] *)
Definition dispatch (self : t) (request : Request)
           (call_next : Request -> M W Response) : M W Response :=
  if existsb (String.eqb (url_path request)) (excluded_paths self) then
    call_next request
  else
    let missing :=
      ret (unauthorized "Missing Authorization header"
                        [("WWW-Authenticate", "Bearer")]) in
    match req_header request "Authorization" with
    | None => missing
    | Some auth_header =>
        if String.eqb auth_header "" then missing
        else if negb (String.prefix "Bearer " auth_header) then
          ret (unauthorized "Invalid Authorization header format" [])
        else
          let token := replace "Bearer " "" auth_header in
          match _verify_token self token with
          | Some user =>
              if truthy (PDict user)
              then call_next (set_state_user user request)
              else ret (unauthorized "Invalid or expired token" [])
          | None => ret (unauthorized "Invalid or expired token" [])
          end
    end.
End Dispatch.

End AuthenticationMiddleware.

(** Sample data: a request of a client at 10.0.0.7 carrying a bearer
    token, and a handler that answers 200. *)
Definition sample_request : Request :=
  {| method := "GET"; url_path := "/api/v1/test";
     client_host := Some "10.0.0.7";
     req_header := fun name =>
       if String.eqb name "Authorization" then Some "Bearer anything"
       else if String.eqb name "X-Request-ID" then Some "req-42"
       else None;
     state_request_id := None; state_user := None |}.

Definition ok_handler (request : Request) : M unit Response :=
  ret (JSONResponse 200 [("message", PStr "API is working!")] []).

End HttpMiddleware.
(* --------------------------------------------------------------------- *)
(** ** [src/core/base_module.py]: batch processing and module information *)
Module BaseModuleBatch.
Import BaseModule.
#[local] Open Scope py_scope.

(** The dictionary [results] of [batch_process]. *)
Record BatchResults := {
  total : Z;
  successful : Z;
  failed : Z;
  details : list Dict
}.

Definition success_detail (idx : Z) (result : PyVal) : Dict :=
  mkdict [("index", PNum (inject_Z idx)); ("status", PStr "success");
          ("result", result)].
Definition failure_detail (idx : Z) (e : Exn) : Dict :=
  mkdict [("index", PNum (inject_Z idx)); ("status", PStr "failed");
          ("error", PStr (exn_str e))].

Definition add_success (idx : Z) (result : PyVal) (results : BatchResults)
  : BatchResults :=
  {| total := total results; successful := successful results + 1;
     failed := failed results;
     details := (details results ++ [success_detail idx result])%list |}.
Definition add_failure (idx : Z) (e : Exn) (results : BatchResults)
  : BatchResults :=
  {| total := total results; successful := successful results;
     failed := failed results + 1;
     details := (details results ++ [failure_detail idx e])%list |}.

(** What [get_module_info] returns. *)
Record ModuleInfo := {
  info_module : string;
  transactions_count : Z;
  last_activity : option Z
}.

(** [get_module_info] *)
Definition get_module_info (module_name : string)
           (transactions : list SAPTransaction) : ModuleInfo :=
  {| info_module := module_name;
     transactions_count := Z.of_nat (length transactions);
     last_activity := match List.last (map Some transactions) None with
                      | Some t => Some (updated_at t)
                      | None => None
                      end |}.

Section Methods.
Context {W : Type}.

(** The loop of [batch_process]: [for idx, data in enumerate(data_list, 1)]. *)
Fixpoint batch_loop (process_function : Dict -> M W PyVal) (idx : Z)
         (data_list : list Dict) (results : BatchResults) : M W BatchResults :=
  match data_list with
  | [] => ret results
  | data :: rest =>
      results <- try_except
                   (result <- process_function data ;;
                    ret (add_success idx result results))
                   (fun e => ret (add_failure idx e results)) ;;
      batch_loop process_function (idx + 1) rest results
  end.

(** [batch_process] *)
Definition batch_process (data_list : list Dict)
           (process_function : Dict -> M W PyVal) : M W BatchResults :=
  batch_loop process_function 1 data_list
    {| total := Z.of_nat (length data_list); successful := 0; failed := 0;
       details := [] |}.
End Methods.

(** The entries of [details] that report a success. *)
Definition is_success (detail : Dict) : bool :=
  is_str (dict_get detail "status") "success".

End BaseModuleBatch.
(* --------------------------------------------------------------------- *)
(** ** The audit trail of the domain modules

    What the [create] methods do to [self.transactions], and runs of
    several [create] calls on one module object. *)
Module AuditTrail.
Import BaseModule.

(** A [create] method that appends to the audit list [audit] one
    completed record per document it returns, carrying that document
    number and the input data, and nothing when it raises. *)
Definition audits_exactly_the_successes {S W : Type}
           (audit : S -> list SAPTransaction)
           (create : Dict -> M (S * W) PyVal) : Prop :=
  forall (data : Dict) (self : S) (w : W) (out : Res PyVal) (self' : S) (w' : W),
    create data (self, w) = (out, (self', w')) ->
    match out with
    | Ok document_number =>
        exists transaction,
          audit self' = log_transaction transaction (audit self) /\
          status transaction = COMPLETED /\
          sap_document_number transaction = document_number /\
          BaseModule.data transaction = data
    | Raise _ => audit self' = audit self
    end.

(** Successive [create] calls on one module object, with what each
    returned or raised. *)
Fixpoint creates {S W : Type} (create : Dict -> M (S * W) PyVal)
         (inputs : list Dict) (sw : S * W) : list (Res PyVal) * (S * W) :=
  match inputs with
  | [] => ([], sw)
  | data :: rest =>
      let '(out, sw1) := create data sw in
      let '(outs, sw2) := creates create rest sw1 in
      (out :: outs, sw2)
  end.

(** The document numbers among the outcomes, in order. *)
Definition returned (outs : list (Res PyVal)) : list PyVal :=
  flat_map (fun out => match out with Ok v => [v] | Raise _ => [] end) outs.

End AuditTrail.
(* --------------------------------------------------------------------- *)
(** ** [src/modules/fi/accounts_payable.py]: display, reversal, open items *)
Module AccountsPayableDocuments.
Import BaseModule AccountsPayable.
#[local] Open Scope py_scope.

Section Methods.
(** [year dt] stands for [dt.year]. *)
Context {W : Type} (conn : Connector W) (rt : Runtime) (now : W -> Z)
        (year : Z -> Z).

(** [read]; its [except] clause logs and re-raises. *)
Definition read (document_number : PyVal) : M (t * W) Dict :=
  self <- get ;;
  stamp <- on_world (fun w => (Ok (now w), w)) ;;
  result <- on_world (call_bapi conn rt "BAPI_ACC_DOCUMENT_DISPLAY"
              (mkdict [("DOCUMENTNUMBER", document_number);
                       ("COMPANYCODE", PStr (company_code self));
                       ("FISCALYEAR", PNum (inject_Z (year stamp)))])) ;;
  let header := dict_get_or result "DOCUMENTHEADER" (PDict ∅) in
  let items := dict_get_or result "ACCOUNTINGDOCUMENTS" (PList []) in
  document_date <- lift (val_get_or header "DOC_DATE" PNone) ;;
  posting_date <- lift (val_get_or header "PSTNG_DATE" PNone) ;;
  reference <- lift (val_get_or header "REF_DOC_NO" PNone) ;;
  ret (mkdict [("document_number", document_number);
               ("document_date", document_date);
               ("posting_date", posting_date);
               ("reference", reference);
               ("items", items)]).

(** [delete]: reversal of a posted document. *)
Definition delete (document_number : PyVal) : M (t * W) bool :=
  try_except
    (self <- get ;;
     stamp <- on_world (fun w => (Ok (now w), w)) ;;
     result <- on_world (call_bapi conn rt "BAPI_ACC_DOCUMENT_REV_POST"
                 (mkdict [("DOCUMENTNUMBER", document_number);
                          ("COMPANYCODE", PStr (company_code self));
                          ("FISCALYEAR", PNum (inject_Z (year stamp)));
                          ("REASON", PStr "01")])) ;;
     messages <- lift (parse_sap_return_messages
                         [dict_get_or result "RETURN" (PDict ∅)]) ;;
     if has_errors messages then
       raise (Exception ("Reversal failed: " ++
                         py_str rt (PList (BaseModule.errors messages))))
     else
       on_world (commit_transaction conn rt) ;;;
       ret true)
    (fun e => on_world (rollback_transaction conn rt) ;;; ret false).

(** [get_open_items] *)
Definition get_open_items (vendor_code : PyVal) : M W (list Dict) :=
  try_except
    (padded <- lift (val_zfill 10 vendor_code) ;;
     read_table conn "BSIK"
                ["BELNR"; "GJAHR"; "BLDAT"; "BUDAT"; "WRBTR"; "WAERS"]
                ("LIFNR = '" ++ padded ++ "'") 1000)
    (fun _ => ret []).
End Methods.

(** Sample data: a remote system that answers every call with a table of
    success messages. *)
Definition table_answering_connector : Connector unit :=
  {| call_function := fun name ps w =>
       (Ok (mkdict [("RETURN",
                     PList [PDict (mkdict [("TYPE", PStr "S");
                                           ("MESSAGE", PStr "Document reversed")])])]),
        w);
     read_table := fun _ _ _ _ w => (Ok [], w) |}.

End AccountsPayableDocuments.
(* --------------------------------------------------------------------- *)
(** ** [src/modules/mm/purchase_order.py]: goods receipt, update, delete *)
Module PurchaseOrderGoods.
Import BaseModule PurchaseOrder.
#[local] Open Scope py_scope.

(** The loop of [create_goods_receipt] that builds [gm_items]; a missing
    key is a [KeyError]. *)
Fixpoint gm_items_of (po_number : PyVal) (items : list Dict) : Res (list PyVal) :=
  match items with
  | [] => Ok []
  | item :: rest =>
      match dict_item item "material", dict_item item "plant",
            dict_item item "quantity", dict_item item "po_item" with
      | Ok material, Ok plant, Ok quantity, Ok po_item =>
          match gm_items_of po_number rest with
          | Ok gm_items =>
              Ok (PDict (mkdict
                    [("MATERIAL", material);
                     ("PLANT", plant);
                     ("STGE_LOC", dict_get_or item "storage_location" (PStr ""));
                     ("MOVE_TYPE", PStr "101");
                     ("ENTRY_QNT", quantity);
                     ("PO_NUMBER", po_number);
                     ("PO_ITEM", po_item)])
                  :: gm_items)
          | Raise e => Raise e
          end
      | Raise e, _, _, _ => Raise e
      | _, Raise e, _, _ => Raise e
      | _, _, Raise e, _ => Raise e
      | _, _, _, Raise e => Raise e
      end
  end.

Section Methods.
Context {W : Type} (conn : Connector W) (rt : Runtime) (now : W -> Z).

(** [create_goods_receipt] *)
Definition create_goods_receipt (po_number : PyVal) (items : list Dict)
  : M W PyVal :=
  stamp <- (fun w => (Ok (now w), w)) ;;
  pstng_date <- lift (format_sap_date rt (PStr (strftime rt "%Y-%m-%d" stamp))) ;;
  stamp <- (fun w => (Ok (now w), w)) ;;
  doc_date <- lift (format_sap_date rt (PStr (strftime rt "%Y-%m-%d" stamp))) ;;
  let gm_header := mkdict [("PSTNG_DATE", PStr pstng_date);
                           ("DOC_DATE", PStr doc_date)] in
  let gm_code := mkdict [("GM_CODE", PStr "01")] in
  gm_items <- lift (gm_items_of po_number items) ;;
  try_except
    (result <- call_bapi conn rt "BAPI_GOODSMVT_CREATE"
                 (mkdict [("GOODSMVT_HEADER", PDict gm_header);
                          ("GOODSMVT_CODE", PDict gm_code);
                          ("GOODSMVT_ITEM", PList gm_items)]) ;;
     let mat_doc := dict_get_or result "MATERIALDOCUMENT" (PStr "") in
     commit_transaction conn rt ;;;
     ret mat_doc)
    (fun e => rollback_transaction conn rt ;;; raise e).

(** [update] *)
Definition update (po_number : PyVal) (data : Dict) : M W bool :=
  try_except
    (call_bapi conn rt "BAPI_PO_CHANGE"
               (mkdict [("PURCHASEORDER", po_number)]) ;;;
     commit_transaction conn rt ;;;
     ret true)
    (fun e => rollback_transaction conn rt ;;; ret false).

(** [delete]: purchase orders are only flagged, never deleted. *)
Definition delete (po_number : PyVal) : M W bool := ret false.
End Methods.

(** Sample data: a remote system that answers the goods movement with a
    table holding an error message; a purchase order whose only item has
    no plant. *)
Definition erring_goods_connector : Connector unit :=
  {| call_function := fun name ps w =>
       if String.eqb name "BAPI_GOODSMVT_CREATE"
       then (Ok (mkdict
                   [("MATERIALDOCUMENT", PStr "");
                    ("RETURN",
                     PList [PDict (mkdict [("TYPE", PStr "E");
                                           ("MESSAGE", PStr "Plant 1000 is blocked")])])]),
             w)
       else (Ok ∅, w);
     read_table := fun _ _ _ _ w => (Ok [], w) |}.

Definition order_without_plant : Dict :=
  mkdict [("vendor", PStr "1000"); ("purchasing_org", PStr "1000");
          ("items", PList [PDict (mkdict [("material", PStr "MAT001");
                                          ("quantity", PNum 100);
                                          ("price", PNum (21 # 2))])])].

End PurchaseOrderGoods.
(* --------------------------------------------------------------------- *)
(** ** [src/modules/sd/sales_order.py]: display, update, delete *)
Module SalesOrderDocuments.
Import BaseModule SalesOrder.
#[local] Open Scope py_scope.

(** [next((p['PARTN_NUMB'] for p in partners if p['PARTN_ROLE'] == 'AG'), '')]:
    the number of the first sold-to partner; a partner before it that is
    no dictionary or lacks a key raises. *)
Fixpoint sold_to_party (partners : list PyVal) : Res PyVal :=
  match partners with
  | [] => Ok (PStr "")
  | PDict p :: rest =>
      match dict_item p "PARTN_ROLE" with
      | Ok role =>
          if is_str role "AG" then dict_item p "PARTN_NUMB"
          else sold_to_party rest
      | Raise e => Raise e
      end
  | _ :: _ => Raise (TypeError "object is not subscriptable")
  end.

Section Methods.
Context {W : Type} (conn : Connector W) (rt : Runtime).

(** [read]; its [except] clause logs and re-raises. *)
Definition read (sales_order : PyVal) : M W Dict :=
  result <- call_bapi conn rt "BAPI_SALESORDER_GETDETAIL"
                      (mkdict [("SALESDOCUMENT", sales_order)]) ;;
  let header := dict_get_or result "ORDER_HEADER_IN" (PDict ∅) in
  let items := dict_get_or result "ORDER_ITEMS_IN" (PList []) in
  let partners := dict_get_or result "ORDER_PARTNERS" (PList []) in
  order_type <- lift (val_get_or header "DOC_TYPE" PNone) ;;
  partner_list <- lift (py_iter partners) ;;
  customer <- lift (sold_to_party partner_list) ;;
  created_on <- lift (val_get_or header "CREATED_ON" PNone) ;;
  ret (mkdict [("sales_order", sales_order);
               ("order_type", order_type);
               ("customer", customer);
               ("created_on", created_on);
               ("items", items)]).

(** [update] *)
Definition update (sales_order : PyVal) (data : Dict) : M W bool :=
  try_except
    (call_bapi conn rt "BAPI_SALESORDER_CHANGE"
               (mkdict [("SALESDOCUMENT", sales_order);
                        ("ORDER_HEADER_INX",
                         PDict (mkdict [("UPDATEFLAG", PStr "U")]))]) ;;;
     commit_transaction conn rt ;;;
     ret true)
    (fun e => rollback_transaction conn rt ;;; ret false).

(** [delete]: sales orders are only blocked, never deleted. *)
Definition delete (sales_order : PyVal) : M W bool := ret false.
End Methods.

(** Sample data: a sales order, and a remote system that knows every
    customer, accepts the order and displays the partners of order
    4711 as [partners]. *)
Definition sample_order : Dict :=
  mkdict [("customer", PStr "1000"); ("sales_org", PStr "1000");
          ("order_type", PStr "OR");
          ("items", PList [PDict (mkdict [("material", PStr "MAT001");
                                          ("quantity", PNum 10);
                                          ("plant", PStr "1000")])])].

Definition displaying_connector (partners : PyVal) : Connector unit :=
  {| call_function := fun name ps w =>
       if String.eqb name "BAPI_SALESORDER_GETDETAIL"
       then (Ok (mkdict [("ORDER_HEADER_IN", PDict (mkdict [("DOC_TYPE", PStr "OR")]));
                         ("ORDER_ITEMS_IN", PList []);
                         ("ORDER_PARTNERS", partners)]), w)
       else if String.eqb name "BAPI_SALESORDER_CREATEFROMDAT2"
       then (Ok (mkdict [("SALESDOCUMENT", PStr "4711")]), w)
       else (Ok ∅, w);
     read_table := fun _ _ _ _ w => (Ok [mkdict [("KUNNR", PStr "0000001000")]], w) |}.

End SalesOrderDocuments.
(* --------------------------------------------------------------------- *)
(** ** [src/workflows/invoice_processing_workflow.py]: traces of a run *)
Module InvoiceWorkflowTraces.
Import BaseModule InvoiceWorkflow.

(** Neither the approval notification nor the posting. *)
Definition quiet (l : list Call) : Prop := ~ In CNotify l /\ ~ In CCreate l.

(** What a stage of the workflow leaves behind: a trace extended by calls
    that are neither notification nor posting, followed either by calls
    without a notification, or by exactly one notification, with no
    document recorded and, if the stage returned, one of the three
    waiting statuses. *)
Definition stage_outcome (tr tr' : list Call) (out : Res unit) (fr' : Frame)
  : Prop :=
  exists quiet_calls last,
    tr' = (tr ++ quiet_calls ++ last)%list /\ quiet quiet_calls /\
    (~ In CNotify last \/
     (last = [CNotify] /\ sap_document (result fr') = None /\
      (out = Ok tt ->
       status (result fr') = "po_mismatch" \/
       status (result fr') = "three_way_mismatch" \/
       status (result fr') = "pending_approval"))).

(** Sample data: collaborators that display every purchase order as an
    order without items. *)
Definition empty_order_env : Env unit :=
  {| extract_text_from_image := fun _ => ret "INVOICE ...";
     extract_invoice_fields := fun _ => ret (invoice_of 1000);
     _send_to_review_queue := fun _ _ _ => ret tt;
     _is_duplicate_invoice := fun _ _ => ret false;
     _send_approval_notification := fun _ _ => ret tt;
     self_read_table := fun _ _ _ => ret [];
     fi_ap_get_or_create_vendor := fun _ => ret (PStr "1000");
     fi_ap_config_get := fun _ dflt => ret dflt;
     fi_ap_create := fun _ => ret (PStr "5100000001");
     mm_po_read := fun po_number =>
       ret (mkdict [("po_number", po_number); ("items", PList [])]);
     now := fun _ => 0 |}.

End InvoiceWorkflowTraces.
(* --------------------------------------------------------------------- *)
(** ** [src/workflows/procure_to_pay.py]: the status report *)
Module ProcureToPayStatus.
Import BaseModule ProcureToPay.

(** [WorkflowStatus.value] *)
Definition value (st : WorkflowStatus) : string :=
  match st with
  | INITIATED => "initiated"
  | PO_CREATED => "po_created"
  | GOODS_RECEIVED => "goods_received"
  | INVOICE_POSTED => "invoice_posted"
  | PAYMENT_PROCESSED => "payment_processed"
  | COMPLETED => "completed"
  | FAILED => "failed"
  end.

(** What [get_workflow_status] returns. *)
Record StatusReport := {
  r_workflow_id : option string;
  r_status : string;
  r_documents : Dict;
  r_current_step : string
}.

(** [get_workflow_status] *)
Definition get_workflow_status (self : t) : StatusReport :=
  {| r_workflow_id := workflow_id self;
     r_status := value (status self);
     r_documents := documents self;
     r_current_step := value (status self) |}.

(** The steps [execute] reports in [steps_completed], each with the key
    under which it files the step's document in [summary['documents']]. *)
Definition step_documents : list (string * string) :=
  [("po_created", "po_number");
   ("goods_received", "material_document");
   ("invoice_posted", "invoice_document");
   ("payment_processed", "payment_document")].

(** The steps a run of [execute] for [request] takes when nothing stops
    it. *)
Definition all_steps (request : ProcureToPayRequest) : list string :=
  ["po_created"; "goods_received"; "invoice_posted"] ++
  (if _should_auto_pay request then ["payment_processed"] else []).

(** What a summary and the workflow object look like after a run. *)
Definition settled (req : ProcureToPayRequest) (this : t) (sm : Summary)
           (this' : t) : Prop :=
  Forall (fun '(step, key) =>
            In step (steps_completed sm) <-> is_Some (s_documents sm !! key))
         step_documents /\
  ((s_status sm = "completed" /\ status this' = COMPLETED /\
    steps_completed sm = all_steps req /\ s_errors sm = []) \/
   (s_status sm = "requires_review" /\ status this' = GOODS_RECEIVED /\
    steps_completed sm = ["po_created"; "goods_received"] /\
    s_errors sm = ["Invoice verification failed - requires manual review"]) \/
   (s_status sm = "failed" /\ status this' = FAILED /\
    (exists rest, rest <> [] /\ (steps_completed sm ++ rest)%list = all_steps req) /\
    exists e, s_errors sm = [exn_str e])) /\
  documents this' !! "payment_document" = documents this !! "payment_document" /\
  (forall k v, k <> "payment_document" -> s_documents sm !! k = Some v ->
               documents this' !! k = Some v) /\
  (forall k, is_Some (documents this !! k) -> is_Some (documents this' !! k)).

(** Sample data: the collaborators of [sample_env] with another
    purchase-order display and another anomaly detector; an order without
    items; a detector that flags every transaction. *)
Definition sample_env_with
           (read : PyVal -> M (AccountsPayable.t * unit) Dict)
           (detect : Dict -> M (AccountsPayable.t * unit) (PyVal * PyVal))
  : Env (AccountsPayable.t * unit) :=
  {| classifier_predict := classifier_predict sample_env;
     anomaly_detect := detect;
     mm_po_create := mm_po_create sample_env;
     mm_po_create_goods_receipt := mm_po_create_goods_receipt sample_env;
     mm_po_read := read;
     fi_ap_create := fi_ap_create sample_env;
     fi_ap_process_payment := fi_ap_process_payment sample_env;
     now := now sample_env |}.

Definition order_without_items : Dict :=
  mkdict [("po_number", PStr "4500000001"); ("vendor", PStr "0000001000");
          ("items", PList [])].


End ProcureToPayStatus.

(* ===================================================================== *)
(** * Part II: the properties                                             *)
(* ===================================================================== *)

(** ** Circuit breaker *)
Section CircuitBreakerFacts.
Import CircuitBreaker.


Section Generic.
Context {W R : Type} (now : W -> Z).

Lemma on_failure_settled now_ cb :
  (state cb = OPEN -> failure_threshold cb <= failures cb) ->
  (state cb = HALF_OPEN -> failure_threshold cb <= failures cb) ->
  settled (_on_failure now_ cb).
Proof.
  intros Ho Hh. unfold settled, _on_failure; simpl.
  destruct (Z.leb_spec (failure_threshold cb) (failures cb + 1)) as [Hle|Hlt].
  - split; [discriminate|]. intros _. split; [lia|discriminate].
  - destruct (state cb) eqn:Es.
    + split; [discriminate|discriminate].
    + specialize (Ho eq_refl). lia.
    + specialize (Hh eq_refl). lia.
Qed.

Lemma call_settled (func : M W R) cb w :
  settled cb -> settled (snd (fst (call now func cb w))).
Proof.
  intros [Hne Hopen]. unfold call.
  destruct (state cb) eqn:Es.
  - destruct (func w) as [[r|e] w']; simpl.
    + split; [discriminate|discriminate].
    + apply on_failure_settled; rewrite Es; discriminate.
  - destruct (_should_attempt_reset (now w) cb).
    + destruct (func w) as [[r|e] w']; simpl.
      * split; [discriminate|discriminate].
      * apply on_failure_settled; simpl; intros _; apply (Hopen eq_refl).
    + simpl. split; [rewrite Es; discriminate|intros _; apply (Hopen eq_refl)].
  - now destruct Hne.
Qed.

(** Between calls a breaker is never half-open, and an open breaker
    remembers the failure that opened it. *)
Lemma reachable_settled cb : @reachable W R now cb -> settled cb.
Proof.
  induction 1 as [ft tmo|func cb w _ IH].
  - split; simpl; discriminate.
  - now apply call_settled.
Qed.

(** Any success resets the failure count and closes the breaker. *)
Lemma call_success_closes (func : M W R) cb w r cb' w' :
  call now func cb w = (Ok r, cb', w') ->
  failures cb' = 0 /\ state cb' = CLOSED.
Proof.
  unfold call.
  destruct (state cb); [| destruct (_should_attempt_reset (now w) cb) |];
    try (destruct (func w) as [[r0|e0] w0]; intros [= <- <- <-];
         simpl; now split);
    discriminate.
Qed.

(** A call that reaches the wrapped function and sees it fail counts the
    failure and stamps it with the clock read after the failure. *)
Lemma call_failure_counts (func : M W R) cb w e w' s :
  admitted_as now cb w = Some s ->
  func w = (Raise e, w') ->
  call now func cb w = (Raise e, _on_failure (now w') (set_state s cb), w').
Proof.
  unfold call, admitted_as. intros Ha Hf.
  destruct (state cb) eqn:Es.
  - injection Ha as <-. rewrite Hf. do 2 f_equal.
    unfold _on_failure, set_state; simpl. now rewrite Es.
  - destruct (_should_attempt_reset (now w) cb); [|discriminate].
    injection Ha as <-. now rewrite Hf.
  - injection Ha as <-. rewrite Hf. do 2 f_equal.
    unfold _on_failure, set_state; simpl. now rewrite Es.
Qed.

(** A failing half-open trial re-opens the breaker and restarts the
    cooldown from the time of that failure. *)
Lemma failed_trial_reopens (func : M W R) cb w e w' :
  settled cb -> state cb = OPEN ->
  admitted_as now cb w = Some HALF_OPEN ->
  func w = (Raise e, w') ->
  exists cb', call now func cb w = (Raise e, cb', w') /\
              state cb' = OPEN /\ last_failure_time cb' = Some (now w').
Proof.
  intros [_ Hs] Ho Ha Hf. destruct (Hs Ho) as [Hle _].
  eexists. split; [eapply call_failure_counts; eassumption|].
  simpl. split; [|reflexivity].
  destruct (Z.leb_spec (failure_threshold cb) (failures cb + 1)); [reflexivity|lia].
Qed.


(** Within a day of the last failure [timedelta.seconds] is the elapsed
    time, and the cooldown check is the intended one. *)
Lemma timedelta_seconds_within_a_day d :
  0 <= d < 86400 * 1000000 ->
  timedelta_seconds d = timedelta_total_seconds d.
Proof.
  intros [H0 H1]. unfold timedelta_seconds, timedelta_total_seconds.
  apply Z.mod_small. split; [apply Z.div_pos; lia|].
  apply Z.div_lt_upper_bound; lia.
Qed.

Lemma half_open_after_cooldown cb w last :
  state cb = OPEN -> last_failure_time cb = Some last ->
  0 <= now w - last < 86400 * 1000000 ->
  timeout cb <= timedelta_total_seconds (now w - last) ->
  admitted_as now cb w = Some HALF_OPEN.
Proof.
  intros Ho Hl Hd Ht. unfold admitted_as, _should_attempt_reset.
  rewrite Ho, Hl, timedelta_seconds_within_a_day by exact Hd.
  destruct (Z.leb_spec (timeout cb) (timedelta_total_seconds (now w - last)));
    [reflexivity|lia].
Qed.
End Generic.

(** Three consecutive failures take the closed [sap_circuit_breaker] to
    open, and not before the third. *)
Lemma trips_on_third_failure {W R} (now : W -> Z) (f1 f2 f3 : M W R)
      w0 e1 w1 e2 w2 e3 w3 :
  f1 w0 = (Raise e1, w1) -> f2 w1 = (Raise e2, w2) -> f3 w2 = (Raise e3, w3) ->
  exists cb1 cb2 cb3,
    call now f1 sap_circuit_breaker w0 = (Raise e1, cb1, w1) /\
    call now f2 cb1 w1 = (Raise e2, cb2, w2) /\
    call now f3 cb2 w2 = (Raise e3, cb3, w3) /\
    state cb1 = CLOSED /\ state cb2 = CLOSED /\ state cb3 = OPEN /\
    failures cb3 = 3 /\ last_failure_time cb3 = Some (now w3).
Proof.
  intros H1 H2 H3. do 3 eexists.
  split; [unfold call; simpl; rewrite H1; reflexivity|].
  split; [unfold call; simpl; rewrite H2; reflexivity|].
  split; [unfold call; simpl; rewrite H3; reflexivity|].
  simpl. repeat split.
Qed.

(** C2 (the cooldown half of the claim fails on the code): the breaker
    [tripped] was opened by a failure at time 0 and its cooldown is 60
    seconds.  At 1 day and 30 seconds the cooldown has long elapsed, yet
    [call] still rejects the attempt without running the wrapped
    operation, because [_should_attempt_reset] compares
    [timedelta.seconds] (the seconds field, here 30) and not the total
    elapsed seconds (86430) with the timeout. *)
Theorem cooldown_check_wraps_after_one_day :
  let clock := 86430 * 1000000 in
  state tripped = OPEN /\
  last_failure_time tripped = Some 0 /\
  timeout tripped <= timedelta_total_seconds (clock - 0) /\
  timedelta_seconds (clock - 0) = 30 /\
  admitted_as id tripped clock = None /\
  call (id ∘ fst) (counted (succeeding_op 0)) tripped (clock, 0%nat)
    = (Raise circuit_open_error, tripped, (clock, 0%nat)).
Proof. vm_compute. repeat split; discriminate. Qed.



End CircuitBreakerFacts.

(** ** Token bucket and rate limiter *)
Section MiddlewareFacts.
Import Middleware.
#[local] Open Scope Q_scope.

Lemma inject_Z_nonneg (n : Z) : (0 <= n)%Z -> 0 <= inject_Z n.
Proof. intros H. change (inject_Z 0 <= inject_Z n). now rewrite <- Zle_Qle. Qed.

Lemma bucket_ok_later now now' b :
  now <= now' -> bucket_ok now b -> bucket_ok now' b.
Proof. unfold bucket_ok. intros Hle (H0 & H1 & H2 & H3). repeat split; try assumption. lra. Qed.

Lemma refill_at_ok now now' b :
  now <= now' -> bucket_ok now b -> bucket_ok now' (refill_at now b).
Proof.
  unfold bucket_ok, refill_at; simpl. intros Hle (H0 & H1 & H2 & H3).
  assert (0 <= (now - last_refill b) * refill_rate b)
    by (apply Qmult_le_0_compat; lra).
  repeat split; try assumption.
  - apply Q.min_glb; lra.
  - apply Q.le_min_l.
Qed.

Lemma take_ok now n b :
  0 <= n -> bucket_ok now b -> bucket_ok now (snd (take n b)).
Proof.
  unfold bucket_ok, take. intros Hn (H0 & H1 & H2 & H3).
  destruct (Qle_bool n (tokens b)) eqn:E; simpl; [|tauto].
  apply Qle_bool_iff in E. repeat split; try assumption; lra.
Qed.

Section WithClock.
Variable clock : nat -> Q.
Hypothesis clock_monotone : forall i, clock i <= clock (S i).

Lemma consume_ok n b k :
  0 <= n -> bucket_ok (clock k) b ->
  bucket_ok (clock (S k)) (snd (fst (consume clock n b k))) /\
  snd (consume clock n b k) = S k.
Proof.
  intros Hn Hb. unfold consume, _refill.
  pose proof (refill_at_ok _ _ b (clock_monotone k) Hb) as Hr.
  pose proof (take_ok _ n _ Hn Hr) as Ht.
  destruct (take n (refill_at (clock k) b)) as [ok b2]. simpl in *. tauto.
Qed.

Lemma limiter_ok_later now now' rl :
  now <= now' -> limiter_ok now rl -> limiter_ok now' rl.
Proof.
  intros Hle (H0 & H1 & H2). split; [|split]; try assumption.
  intros c b Hb. eapply bucket_ok_later; eauto.
Qed.

Lemma limiter_ok_insert now rl c b :
  limiter_ok now rl -> bucket_ok now b ->
  limiter_ok now (set_buckets (<[c := b]> (buckets rl)) rl).
Proof.
  intros (H0 & H1 & H2) Hb. split; [|split]; try assumption.
  intros c' b'. simpl. rewrite lookup_insert.
  case_decide; [intros [= <-]; exact Hb | apply H2].
Qed.

Lemma is_allowed_ok c rl k :
  limiter_ok (clock k) rl ->
  exists k', snd (is_allowed clock c rl k) = k' /\
             limiter_ok (clock k') (snd (fst (is_allowed clock c rl k))).
Proof.
  intros Hrl. unfold is_allowed.
  destruct (buckets rl !! c) as [b|] eqn:Eb.
  - rewrite Eb.
    destruct Hrl as (H0 & H1 & H2).
    destruct (consume_ok 1 b k ltac:(lra) (H2 _ _ Eb)) as [Hb Hk].
    destruct (consume clock 1 b k) as [[ok b'] k2]. simpl in *. subst k2.
    eexists; split; [reflexivity|].
    apply limiter_ok_insert; [|exact Hb].
    apply (limiter_ok_later (clock k)); [apply clock_monotone|].
    split; [|split]; assumption.
  - unfold TokenBucket_init. simpl. rewrite lookup_insert_eq.
    set (b0 := {| capacity := rl_capacity rl; refill_rate := rl_refill_rate rl;
                  tokens := rl_capacity rl; last_refill := clock k |}).
    destruct Hrl as (H0 & H1 & H2).
    assert (Hb0 : bucket_ok (clock (S k)) b0).
    { unfold bucket_ok, b0; simpl. repeat split; try assumption; try lra.
      apply clock_monotone. }
    destruct (consume_ok 1 b0 (S k) ltac:(lra) Hb0) as [Hb Hk].
    destruct (consume clock 1 b0 (S k)) as [[ok b'] k2]. simpl in *. subst k2.
    eexists; split; [reflexivity|].
    split; [|split]; try assumption.
    intros c' b''. simpl. rewrite !lookup_insert.
    case_decide; [intros [= <-]; exact Hb|].
    intros Hc'. apply (bucket_ok_later (clock k)); [|eauto].
    pose proof (clock_monotone k). pose proof (clock_monotone (S k)). lra.
Qed.

Lemma cleanup_ok rl k :
  limiter_ok (clock k) rl ->
  limiter_ok (clock (S k)) (fst (cleanup_old_buckets clock rl k)).
Proof.
  intros (H0 & H1 & H2). unfold cleanup_old_buckets; simpl.
  split; [|split]; try assumption.
  intros c b Hb. apply map_lookup_filter_Some in Hb as [Hb _].
  apply (bucket_ok_later (clock k)); [apply clock_monotone|eauto].
Qed.

Lemma step_ok ev rl k :
  nonneg_request ev -> limiter_ok (clock k) rl ->
  limiter_ok (clock (snd (step clock ev rl k))) (fst (step clock ev rl k)).
Proof.
  intros Hev Hrl. destruct ev as [c|c n|c|]; simpl in *.
  - destruct (is_allowed_ok c rl k Hrl) as (k' & Hk & Hok).
    destruct (is_allowed clock c rl k) as [[ok rl'] k2]. simpl in *. now subst.
  - destruct (buckets rl !! c) as [b|] eqn:Eb; [|exact Hrl].
    assert (Hn : 0 <= inject_Z n) by (now apply inject_Z_nonneg).
    destruct (consume_ok (inject_Z n) b k Hn) as [Hb Hk].
    { destruct Hrl as (_ & _ & H2). eauto. }
    destruct (consume clock (inject_Z n) b k) as [[ok b'] k2].
    simpl in *. subst k2.
    apply limiter_ok_insert; [|exact Hb].
    apply (limiter_ok_later (clock k)); [apply clock_monotone|exact Hrl].
  - destruct (buckets rl !! c) as [b|] eqn:Eb; [|exact Hrl]. simpl.
    apply limiter_ok_insert.
    + apply (limiter_ok_later (clock k)); [apply clock_monotone|exact Hrl].
    + apply refill_at_ok; [apply clock_monotone|].
      destruct Hrl as (_ & _ & H2). eauto.
  - now apply cleanup_ok.
Qed.

Lemma run_ok evs : forall rl k,
  Forall nonneg_request evs -> limiter_ok (clock k) rl ->
  limiter_ok (clock (snd (run clock evs rl k))) (fst (run clock evs rl k)).
Proof.
  induction evs as [|ev evs IH]; intros rl k Hevs Hrl; simpl; [exact Hrl|].
  inversion Hevs as [|? ? Hev Hevs']; subst.
  pose proof (step_ok ev rl k Hev Hrl) as Hs.
  destruct (step clock ev rl k) as [rl' k']. simpl in Hs.
  now apply IH.
Qed.

Lemma init_ok rpm now : (0 <= rpm)%Z -> limiter_ok now (RateLimiter_init rpm).
Proof.
  intros Hr. assert (0 <= inject_Z rpm) by (now apply inject_Z_nonneg).
  unfold limiter_ok, RateLimiter_init; simpl. split; [|split].
  - assumption.
  - apply Qle_shift_div_l; lra.
  - intros c b Hb. rewrite lookup_empty in Hb. discriminate.
Qed.






End WithClock.




Lemma ten_ms_clock_monotone i : ten_ms_clock i <= ten_ms_clock (S i).
Proof. unfold ten_ms_clock, Qle; simpl. lia. Qed.



(** Buckets keep the parameters their limiter gave them. *)
Lemma consume_keeps_parameters clock n b k :
  capacity (snd (fst (consume clock n b k))) = capacity b /\
  refill_rate (snd (fst (consume clock n b k))) = refill_rate b.
Proof.
  unfold consume, _refill, take, refill_at, set_tokens.
  destruct (Qle_bool n _); simpl; now split.
Qed.

Lemma buckets_match_insert rl c b :
  buckets_match rl ->
  capacity b = rl_capacity rl -> refill_rate b = rl_refill_rate rl ->
  buckets_match (set_buckets (<[c := b]> (buckets rl)) rl).
Proof.
  intros Hm Hc Hr c' b'. simpl. rewrite lookup_insert.
  case_decide; [intros [= <-]; now split | apply Hm].
Qed.

Lemma is_allowed_buckets_match clock c rl k :
  buckets_match rl -> buckets_match (snd (fst (is_allowed clock c rl k))).
Proof.
  intros Hm. unfold is_allowed.
  destruct (buckets rl !! c) as [b|] eqn:Eb.
  - rewrite Eb. destruct (consume_keeps_parameters clock 1 b k) as [Hc Hr].
    destruct (consume clock 1 b k) as [[ok b'] k2]. simpl in *.
    destruct (Hm _ _ Eb) as [Hc0 Hr0].
    apply buckets_match_insert; [exact Hm|congruence|congruence].
  - unfold TokenBucket_init. simpl. rewrite lookup_insert_eq.
    set (b0 := {| capacity := rl_capacity rl; refill_rate := rl_refill_rate rl;
                  tokens := rl_capacity rl; last_refill := clock k |}).
    destruct (consume_keeps_parameters clock 1 b0 (S k)) as [Hc Hr].
    destruct (consume clock 1 b0 (S k)) as [[ok b'] k2]. simpl in *.
    refine (buckets_match_insert (set_buckets (<[c := b0]> (buckets rl)) rl)
              c b' _ Hc Hr).
    now apply buckets_match_insert.
Qed.

Lemma step_buckets_match clock ev rl k :
  buckets_match rl ->
  buckets_match (fst (step clock ev rl k)) /\
  rl_capacity (fst (step clock ev rl k)) = rl_capacity rl /\
  rl_refill_rate (fst (step clock ev rl k)) = rl_refill_rate rl.
Proof.
  intros Hm. destruct ev as [c|c n|c|]; simpl.
  - pose proof (is_allowed_buckets_match clock c rl k Hm) as H.
    assert (Hp : rl_capacity (snd (fst (is_allowed clock c rl k))) = rl_capacity rl /\
                 rl_refill_rate (snd (fst (is_allowed clock c rl k))) = rl_refill_rate rl).
    { unfold is_allowed. destruct (buckets rl !! c) as [b|] eqn:Eb.
      - rewrite Eb. destruct (consume clock 1 b k) as [[ok b'] k2]. now split.
      - unfold TokenBucket_init. simpl. rewrite lookup_insert_eq.
        destruct (consume clock 1 _ (S k)) as [[ok b'] k2]. now split. }
    destruct (is_allowed clock c rl k) as [[ok rl'] k']. simpl in *. tauto.
  - destruct (buckets rl !! c) as [b|] eqn:Eb; [|split; [exact Hm|now split]].
    destruct (consume_keeps_parameters clock (inject_Z n) b k) as [Hc Hr].
    destruct (consume clock (inject_Z n) b k) as [[ok b'] k2]. simpl in *.
    destruct (Hm _ _ Eb) as [Hc0 Hr0].
    split; [apply buckets_match_insert; [exact Hm|congruence|congruence]|now split].
  - destruct (buckets rl !! c) as [b|] eqn:Eb; [|split; [exact Hm|now split]]. simpl.
    destruct (Hm _ _ Eb) as [Hc0 Hr0].
    split; [now apply buckets_match_insert|now split].
  - split; [|now split]. intros c b Hb. simpl in Hb.
    apply map_lookup_filter_Some in Hb as [Hb _]. exact (Hm c b Hb).
Qed.

Lemma run_buckets_match clock evs : forall rl k,
  buckets_match rl ->
  buckets_match (fst (run clock evs rl k)) /\
  rl_capacity (fst (run clock evs rl k)) = rl_capacity rl /\
  rl_refill_rate (fst (run clock evs rl k)) = rl_refill_rate rl.
Proof.
  induction evs as [|ev evs IH]; intros rl k Hm; simpl;
    [split; [exact Hm|now split]|].
  destruct (step_buckets_match clock ev rl k Hm) as (Hm' & Hc & Hr).
  destruct (step clock ev rl k) as [rl' k']. simpl in *.
  destruct (IH rl' k' Hm') as (H1 & H2 & H3). split; [exact H1|]. split; congruence.
Qed.



End MiddlewareFacts.

(** ** Effects: inversion of the monad combinators *)
Section MonadFacts.
Context {W A B : Type}.

Lemma bind_inv (m : M W A) (k : A -> M W B) w out w' :
  bind m k w = (out, w') ->
  (exists a w1, m w = (Ok a, w1) /\ k a w1 = (out, w')) \/
  (exists e, m w = (Raise e, w') /\ out = Raise e).
Proof.
  unfold bind. destruct (m w) as [[a|e] w1]; intros H.
  - left. now exists a, w1.
  - right. injection H as <- <-. now exists e.
Qed.

Lemma try_except_inv (m : M W A) (h : Exn -> M W A) w out w' :
  try_except m h w = (out, w') ->
  (exists a, m w = (Ok a, w') /\ out = Ok a) \/
  (exists e w1, m w = (Raise e, w1) /\ h e w1 = (out, w')).
Proof.
  unfold try_except. destruct (m w) as [[a|e] w1]; intros H.
  - left. injection H as <- <-. now exists a.
  - right. now exists e, w1.
Qed.
End MonadFacts.

Lemma on_world_inv {S W A} (m : M W A) (s : S) w out s' w' :
  on_world m (s, w) = (out, (s', w')) -> s' = s /\ m w = (out, w').
Proof.
  unfold on_world; simpl. destruct (m w) as [r w1]. now intros [= <- <- <-].
Qed.

Lemma lift_inv {W A} (r : Res A) (w : W) out w' :
  lift r w = (out, w') -> out = r /\ w' = w.
Proof. unfold lift. now intros [= <- <-]. Qed.

(** ** Accounts payable *)
Section AccountsPayableFacts.
Import BaseModule AccountsPayable.
Context {W : Type} (conn : Connector W) (rt : Runtime) (now : W -> Z).

(** Once an error message was seen the parse reports errors, and a table
    that contains an error message is never parsed as error-free. *)
Lemma parse_loop_has_errors return_table : forall acc m,
  (has_errors acc = true \/ existsb is_error_message return_table = true) ->
  parse_loop return_table acc = Ok m -> has_errors m = true.
Proof.
  induction return_table as [|msg rest IH]; intros acc m Hor Hp; simpl in *.
  - injection Hp as <-. destruct Hor as [H|H]; [exact H|discriminate].
  - destruct msg as [| | | | |d]; simpl in Hp; try discriminate.
    revert Hp. apply IH. simpl in Hor.
    destruct (is_error_type (dict_get_or d "TYPE" (PStr ""))); simpl.
    + now left.
    + destruct Hor as [H|H]; [left|now right].
      destruct (is_str _ "W"); [exact H|].
      now destruct (is_str _ "I" || is_str _ "S")%bool.
Qed.

Lemma carries_error_parsed result m :
  carries_error result = true ->
  parse_sap_return_messages (return_table_of result) = Ok m ->
  has_errors m = true.
Proof. intros H. apply parse_loop_has_errors. now right. Qed.

(** Every [call_bapi] through the journalled connector adds exactly one
    entry, with the remote answer; when it returns, that answer is what it
    returns. *)
Lemma call_bapi_journal name ps (w : W) (log : Journal) out w' log' :
  call_bapi (logged conn) rt name ps (w, log) = (out, (w', log')) ->
  exists r, log' = (log ++ [{| bapi := name; params := ps; reply := r |}])%list /\
            forall result, out = Ok result -> r = Ok result.
Proof.
  unfold call_bapi, bind, logged; simpl.
  destruct (call_function conn name ps w) as [[result|e] w1].
  - destruct (result !! "RETURN") as [[| | | | |d]|];
      try (intros [= <- <- <-]; eexists; split; [reflexivity|];
           now intros ? [= <-]).
    destruct (is_error_type _); intros [= <- <- <-]; eexists;
      (split; [reflexivity|]); [discriminate|now intros ? [= <-]].
  - intros [= <- <- <-]. eexists. split; [reflexivity|discriminate].
Qed.

(** The [except] clause of [create]: roll back, then raise. *)
Lemma rollback_then_raise {S} e (self : S) (w : W) (log : Journal)
      (out : Res PyVal) self' w' log' :
  bind (on_world (rollback_transaction (logged conn) rt))
       (fun _ => raise e) (self, (w, log)) = (out, (self', (w', log'))) ->
  (exists e', out = Raise e') /\ self' = self /\
  exists rb, log' = (log ++ [{| bapi := "BAPI_TRANSACTION_ROLLBACK";
                               params := mkdict []; reply := rb |}])%list.
Proof.
  intros H. apply bind_inv in H as [(a & [s1 [w1 log1]] & Hrb & Hk)|(e' & Hrb & ->)].
  - unfold raise in Hk. injection Hk as <- <- <- <-.
    apply on_world_inv in Hrb as [-> Hrb]. unfold rollback_transaction in Hrb.
    apply bind_inv in Hrb as [(res & [w2 log2] & Hc & Hr)|(e' & Hc & [=])].
    unfold ret in Hr. injection Hr as _ <- <-.
    apply call_bapi_journal in Hc as (rb & -> & _).
    split; [now exists e|]. split; [reflexivity|now exists rb].
  - apply on_world_inv in Hrb as [-> Hrb]. unfold rollback_transaction in Hrb.
    apply bind_inv in Hrb as [(res & [w2 log2] & Hc & Hr)|(e2 & Hc & _)].
    { unfold ret in Hr. discriminate Hr. }
    apply call_bapi_journal in Hc as (rb & -> & _).
    split; [now exists e'|]. split; [reflexivity|now exists rb].
Qed.

(** Validation only reads tables: it leaves the journal alone. *)
Lemma vendor_exists_journal v (w : W) (log : Journal) out w' log' :
  _vendor_exists (logged conn) v (w, log) = (out, (w', log')) -> log' = log.
Proof.
  unfold _vendor_exists, try_except, bind, lift, ret, logged; simpl.
  destruct (val_zfill 10 v) as [padded|e]; simpl.
  - destruct (read_table conn _ _ _ _ w) as [[r|e] w1]; now intros [= _ _ <-].
  - now intros [= _ _ <-].
Qed.

Lemma validate_data_journal data (w : W) (log : Journal) out w' log' :
  validate_data (logged conn) rt data (w, log) = (out, (w', log')) -> log' = log.
Proof.
  unfold validate_data. intros H.
  apply bind_inv in H as [(amt & [w1 log1] & Ha & H)|(e & Ha & _)];
    apply lift_inv in Ha as [_ Ha]; injection Ha as <- <-; [|reflexivity].
  apply bind_inv in H as [(errs & [w2 log2] & Hv & H)|(e & Hv & _)].
  - unfold ret in H. injection H as _ <- <-.
    destruct (truthy (dict_get data "vendor_code")).
    + apply bind_inv in Hv as [(found & [w3 log3] & Hf & Hv)|(e & Hf & _)].
      * unfold ret in Hv. injection Hv as _ <- <-.
        now apply vendor_exists_journal in Hf.
      * now apply vendor_exists_journal in Hf.
    + unfold ret in Hv. now injection Hv as _ _ <-.
  - destruct (truthy (dict_get data "vendor_code")).
    + apply bind_inv in Hv as [(found & [w3 log3] & Hf & Hv)|(e' & Hf & _)].
      * unfold ret in Hv. discriminate Hv.
      * now apply vendor_exists_journal in Hf.
    + unfold ret in Hv. discriminate Hv.
Qed.

(** The steps before the posting block of a [create] leave the journal
    empty; if one of them raises, nothing was posted. *)
Ltac lift_step Hrun Hin :=
  let Hi := fresh "Hi" in
  apply bind_inv in Hrun as [(? & [? [? ?]] & Hi & Hrun)|(? & Hi & _)];
  apply lift_inv in Hi as [_ Hi]; simplify_eq; [|destruct (in_nil Hin)].
Ltac get_step Hrun :=
  let Hi := fresh "Hi" in
  apply bind_inv in Hrun as [(? & [? [? ?]] & Hi & Hrun)|(? & Hi & _)];
  unfold get in Hi; simpl in Hi; simplify_eq.
Ltac clock_step Hrun :=
  let Hi := fresh "Hi" in
  apply bind_inv in Hrun as [(? & [? [? ?]] & Hi & Hrun)|(? & Hi & _)];
  apply on_world_inv in Hi as [? Hi]; simplify_eq.
Ltac invalid_step Hrun Hin :=
  unfold raise in Hrun; simplify_eq; destruct (in_nil Hin).

(** The posting block shared by the three [create] methods: call the
    posting function, parse the messages, raise on errors, otherwise
    commit and record; the [except] clause rolls back and re-raises.  If
    the remote answer carried an error message, the block raises right
    after the rollback call and leaves the module as it was. *)
Lemma posting_block_rolls_back {S : Type}
      (posting_bapi : string) (ps0 : Dict) (failure : Messages -> Exn)
      (document : Dict -> PyVal) (record : Dict -> Z -> S -> S)
      (clock : W * Journal -> Z)
      (s0 : S) (w0 : W) (out : Res PyVal) s' w' log' (ps result : Dict) :
  try_except
    (bind (on_world (call_bapi (logged conn) rt posting_bapi ps0)) (fun result =>
     bind (lift (parse_sap_return_messages (return_table_of result))) (fun messages =>
     if has_errors messages then raise (failure messages)
     else
       bind (on_world (commit_transaction (logged conn) rt)) (fun _ =>
       bind (on_world (fun w => (Ok (clock w), w))) (fun stamp =>
       bind (modify (record result stamp)) (fun _ =>
       ret (document result)))))))
    (fun e => bind (on_world (rollback_transaction (logged conn) rt))
                   (fun _ => raise e))
    (s0, (w0, [])) = (out, (s', (w', log'))) ->
  posting_bapi <> "BAPI_TRANSACTION_COMMIT" ->
  posting_bapi <> "BAPI_TRANSACTION_ROLLBACK" ->
  In {| bapi := posting_bapi; params := ps; reply := Ok result |} log' ->
  carries_error result = true ->
  (exists e, out = Raise e) /\ s' = s0 /\
  exists rb,
    log' = [ {| bapi := posting_bapi; params := ps; reply := Ok result |};
             {| bapi := "BAPI_TRANSACTION_ROLLBACK"; params := mkdict [];
                reply := rb |} ].
Proof.
  intros Hrun Hnc Hnr Hin Herr.
  match type of Hrun with
  | try_except ?b ?h _ = _ => set (body := b) in Hrun
  end.
  assert (Hbody : forall r s2 w2 log2,
    body (s0, (w0, [])) = (r, (s2, (w2, log2))) ->
    exists reply,
      ((exists e, r = Raise e) /\ s2 = s0 /\
       log2 = [ {| bapi := posting_bapi; params := ps0; reply := reply |} ]) \/
      (exists res c, reply = Ok res /\ carries_error res = false /\
         log2 = [ {| bapi := posting_bapi; params := ps0; reply := reply |};
                  {| bapi := "BAPI_TRANSACTION_COMMIT";
                     params := mkdict [("WAIT", PStr "X")]; reply := c |} ])).
  { intros r s2 w2 log2 Hb. unfold body in Hb.
    apply bind_inv in Hb as [(res & [? [? ?]] & Hc & Hb)|(e & Hc & ->)];
      apply on_world_inv in Hc as [? Hc];
      apply call_bapi_journal in Hc as (reply & Hlog & Hr); simpl in Hlog;
      subst; exists reply; [|left; eauto].
    specialize (Hr res eq_refl). subst reply.
    apply bind_inv in Hb as [(msgs & [? [? ?]] & Hp & Hb)|(e & Hp & ->)];
      apply lift_inv in Hp as [Hp ?]; simplify_eq; [|left; eauto].
    destruct (has_errors msgs) eqn:Hhe.
    { unfold raise in Hb. simplify_eq. left; eauto. }
    right.
    assert (Hce : carries_error res = false).
    { destruct (carries_error res) eqn:Hce; [|reflexivity].
      symmetry in Hp. pose proof (carries_error_parsed _ _ Hce Hp). congruence. }
    apply bind_inv in Hb as [(u & [? [? ?]] & Hcm & Hb)|(e & Hcm & ->)];
      apply on_world_inv in Hcm as [? Hcm]; unfold commit_transaction in Hcm;
      (apply bind_inv in Hcm as [(res2 & [? ?] & Hc2 & Hr2)|(e2 & Hc2 & ?)];
       [unfold ret in Hr2|]);
      apply call_bapi_journal in Hc2 as (c & Hlog & _); simpl in Hlog;
      simplify_eq; [|now exists res, c].
    apply bind_inv in Hb as [(stamp & [? [? ?]] & Hn & Hb)|(e & Hn & ->)];
      apply on_world_inv in Hn as [? Hn]; simplify_eq.
    apply bind_inv in Hb as [(u2 & [? [? ?]] & Hm & Hb)|(e & Hm & ->)];
      unfold modify in Hm; simpl in Hm; simplify_eq.
    unfold ret in Hb. simplify_eq. now exists res, c. }
  apply try_except_inv in Hrun as [(doc & Hb & ->)|(e & [s2 [w2 log2]] & Hb & Hh)].
  - exfalso. apply Hbody in Hb as (reply & [((e & [=]) & _)|(res & c & -> & Hce & ->)]).
    simpl in Hin. destruct Hin as [Hin|[Hin|[]]]; simplify_eq; congruence.
  - apply rollback_then_raise in Hh as (Hraise & -> & rb & ->).
    apply Hbody in Hb as (reply & [(_ & -> & ->)|(res & c & -> & Hce & ->)]); simpl in Hin.
    + destruct Hin as [Hin|[Hin|[]]]; simplify_eq; try congruence.
      split; [exact Hraise|]. split; [reflexivity|now exists rb].
    + exfalso. destruct Hin as [Hin|[Hin|[Hin|[]]]]; simplify_eq; congruence.
Qed.

Ltac finish_posting Hrun Hin Herr :=
  cbv zeta in Hrun;
  match type of Hrun with
  | try_except
      (bind _ (fun result =>
       bind _ (fun messages =>
       if _ then raise (@?failure messages)
       else bind _ (fun _ => bind _ (fun stamp =>
            bind (modify (@?record result stamp)) (fun _ =>
            ret (@?document result)))))))
      _ _ = _ =>
      eapply (posting_block_rolls_back _ _ failure document record) in Hrun;
      [ | discriminate | discriminate | exact Hin | exact Herr ]
  end;
  destruct Hrun as (Hraise & -> & Hlog); auto.

Lemma accounts_payable_create_rolls_back :
  rolls_back_on_remote_error "BAPI_ACC_DOCUMENT_POST" AccountsPayable.transactions
    (AccountsPayable.create (logged conn) rt (now ∘ fst)).
Proof.
  intros data self w out self' w' log' ps result Hrun Hin Herr.
  unfold create in Hrun.
  apply bind_inv in Hrun as [(chk & [? [? ?]] & Hv & Hrun)|(e & Hv & _)];
    apply on_world_inv in Hv as [? Hv]; apply validate_data_journal in Hv;
    simplify_eq; [|destruct (in_nil Hin)].
  destruct chk as [is_valid errs]. destruct is_valid; simpl in Hrun;
    [|invalid_step Hrun Hin].
  lift_step Hrun Hin. get_step Hrun. lift_step Hrun Hin. lift_step Hrun Hin.
  lift_step Hrun Hin. lift_step Hrun Hin.
  finish_posting Hrun Hin Herr.
Qed.

Lemma purchase_order_create_rolls_back :
  rolls_back_on_remote_error "BAPI_PO_CREATE1" PurchaseOrder.transactions
    (PurchaseOrder.create (logged conn) rt (now ∘ fst)).
Proof.
  intros data self w out self' w' log' ps result Hrun Hin Herr.
  unfold PurchaseOrder.create in Hrun.
  lift_step Hrun Hin.
  match goal with x : (bool * list string)%type |- _ => destruct x as [is_valid errs] end.
  destruct is_valid; simpl in Hrun; [|invalid_step Hrun Hin].
  get_step Hrun. lift_step Hrun Hin. lift_step Hrun Hin. clock_step Hrun.
  lift_step Hrun Hin. lift_step Hrun Hin. lift_step Hrun Hin. lift_step Hrun Hin.
  match goal with x : (list PyVal * list PyVal)%type |- _ =>
    destruct x as [po_items po_schedules] end.
  finish_posting Hrun Hin Herr.
Qed.

(** Validation of a sales order only reads a table. *)
Lemma customer_exists_journal v (w : W) (log : Journal) out w' log' :
  SalesOrder._customer_exists (logged conn) v (w, log) = (out, (w', log')) ->
  log' = log.
Proof.
  unfold SalesOrder._customer_exists, try_except, bind, lift, ret, logged; simpl.
  destruct (val_zfill 10 v) as [padded|e]; simpl.
  - destruct (read_table conn _ _ _ _ w) as [[r|e] w1]; now intros [= _ _ <-].
  - now intros [= _ _ <-].
Qed.

Lemma sales_order_validate_journal data (w : W) (log : Journal) out w' log' :
  SalesOrder.validate_data (logged conn) rt data (w, log) = (out, (w', log')) ->
  log' = log.
Proof.
  unfold SalesOrder.validate_data. intros H.
  apply bind_inv in H as [(more & [w1 log1] & Ha & H)|(e & Ha & _)];
    apply lift_inv in Ha as [_ Ha]; injection Ha as <- <-; [|reflexivity].
  apply bind_inv in H as [(errs & [w2 log2] & Hv & H)|(e & Hv & _)].
  - unfold ret in H. injection H as _ <- <-.
    destruct (truthy (dict_get data "customer")).
    + apply bind_inv in Hv as [(found & [w3 log3] & Hf & Hv)|(e & Hf & _)].
      * unfold ret in Hv. injection Hv as _ <- <-.
        now apply customer_exists_journal in Hf.
      * now apply customer_exists_journal in Hf.
    + unfold ret in Hv. now injection Hv as _ _ <-.
  - destruct (truthy (dict_get data "customer")).
    + apply bind_inv in Hv as [(found & [w3 log3] & Hf & Hv)|(e' & Hf & _)].
      * unfold ret in Hv. discriminate Hv.
      * now apply customer_exists_journal in Hf.
    + unfold ret in Hv. discriminate Hv.
Qed.

Lemma sales_order_create_rolls_back :
  rolls_back_on_remote_error "BAPI_SALESORDER_CREATEFROMDAT2" SalesOrder.transactions
    (SalesOrder.create (logged conn) rt (now ∘ fst)).
Proof.
  intros data self w out self' w' log' ps result Hrun Hin Herr.
  unfold SalesOrder.create in Hrun.
  apply bind_inv in Hrun as [(chk & [? [? ?]] & Hv & Hrun)|(e & Hv & _)];
    apply on_world_inv in Hv as [? Hv]; apply sales_order_validate_journal in Hv;
    simplify_eq; [|destruct (in_nil Hin)].
  destruct chk as [is_valid errs]. destruct is_valid; simpl in Hrun;
    [|invalid_step Hrun Hin].
  get_step Hrun. clock_step Hrun. lift_step Hrun Hin. lift_step Hrun Hin.
  lift_step Hrun Hin. lift_step Hrun Hin. lift_step Hrun Hin. lift_step Hrun Hin.
  match goal with x : (list PyVal * list PyVal)%type |- _ =>
    destruct x as [order_items order_schedules] end.
  finish_posting Hrun Hin Herr.
Qed.

(** C1, as amended: when a domain [create] ([AccountsPayable.create],
    [PurchaseOrder.create] or [SalesOrder.create]) runs and the remote
    answer to its posting call contains a message of error or abort
    severity, then [create] returns no document number: it raises, and the
    last thing it did before was to issue the rollback call; the module's
    audit list is left as it was (no record is appended, neither completed
    nor failed). *)
Theorem create_with_remote_error_raises_after_rollback :
  rolls_back_on_remote_error "BAPI_ACC_DOCUMENT_POST" AccountsPayable.transactions
    (AccountsPayable.create (logged conn) rt (now ∘ fst)) /\
  rolls_back_on_remote_error "BAPI_PO_CREATE1" PurchaseOrder.transactions
    (PurchaseOrder.create (logged conn) rt (now ∘ fst)) /\
  rolls_back_on_remote_error "BAPI_SALESORDER_CREATEFROMDAT2" SalesOrder.transactions
    (SalesOrder.create (logged conn) rt (now ∘ fst)).
Proof.
  split; [exact accounts_payable_create_rolls_back|].
  split; [exact purchase_order_create_rolls_back|exact sales_order_create_rolls_back].
Qed.

(** [get_vendor_balance] never raises. *)
Lemma get_vendor_balance_total vendor (self : t) (w : W) :
  exists q s', get_vendor_balance conn rt vendor (self, w) = (Ok q, s').
Proof.
  unfold get_vendor_balance, try_except.
  match goal with |- context [match ?b ?s with _ => _ end] =>
    destruct (b s) as [[q|e] s'] end; unfold ret; eauto.
Qed.

(** C10: when the remote balance call of [get_vendor_balance] fails
    (the connector raises, or answers with an error message, so that
    [call_bapi] raises), the method swallows the exception and returns 0.0
    with the module untouched; a remote system that answers the same
    inquiry successfully with balance zero produces the very same return
    value, so the caller cannot tell the two apart. *)
Theorem vendor_balance_failure_reads_as_zero
        (vc : string) (self : t) (w : W) (e : Exn) (w1 : W) :
  call_bapi conn rt "BAPI_AP_ACC_GETBALANCES"
            (mkdict [("COMPANYCODE", PStr (company_code self));
                     ("VENDOR", PStr (zfill 10 vc))]) w = (Raise e, w1) ->
  get_vendor_balance conn rt (PStr vc) (self, w) = (Ok 0%Q, (self, w1)) /\
  get_vendor_balance zero_balance_connector rt (PStr vc) (self, w)
    = (Ok 0%Q, (self, w)).
Proof.
  intros Hfail. split.
  - cbv [get_vendor_balance try_except bind get lift on_world val_zfill fst snd].
    now rewrite Hfail.
  - reflexivity.
Qed.

End AccountsPayableFacts.

(** C1 as stated fails: the remote system answers the posting call with
    an error message; [create] raises, but the module's audit list is still
    empty afterwards, so no record with status [FAILED] was appended. *)
Lemma create_with_remote_error_appends_no_failed_record :
  exists e self' log' ps result,
    AccountsPayable.create (BaseModule.logged AccountsPayable.rejecting_connector)
      AccountsPayable.sample_runtime (fun _ => 0)
      AccountsPayable.sample_invoice (AccountsPayable.init, (tt, []))
    = (Raise e, (self', (tt, log'))) /\
    In {| BaseModule.bapi := "BAPI_ACC_DOCUMENT_POST"; BaseModule.params := ps;
          BaseModule.reply := Ok result |} log' /\
    BaseModule.carries_error result = true /\
    AccountsPayable.transactions self' = [] /\
    ~ (exists t, In t (AccountsPayable.transactions self') /\
                 BaseModule.status t = BaseModule.FAILED).
Proof.
  do 5 eexists.
  split; [vm_compute; reflexivity|].
  split; [left; reflexivity|].
  split; [vm_compute; reflexivity|].
  split; [reflexivity|].
  intros (t & Hin & _). exact Hin.
Qed.

Lemma create_with_remote_error_raises_after_rollback_witness :
  let run := AccountsPayable.create
               (BaseModule.logged AccountsPayable.rejecting_connector)
               AccountsPayable.sample_runtime (fun _ => 0)
               AccountsPayable.sample_invoice (AccountsPayable.init, (tt, [])) in
  (exists e, fst run = Raise e) /\
  AccountsPayable.transactions (fst (snd run)) = [] /\
  exists ps result rb,
    BaseModule.carries_error result = true /\
    snd (snd (snd run)) =
    [ {| BaseModule.bapi := "BAPI_ACC_DOCUMENT_POST"; BaseModule.params := ps;
         BaseModule.reply := Ok result |};
      {| BaseModule.bapi := "BAPI_TRANSACTION_ROLLBACK";
         BaseModule.params := BaseModule.mkdict []; BaseModule.reply := rb |} ].
Proof.
  intros run.
  destruct run as [out [self' [w' log']]] eqn:Hrun.
  pose proof Hrun as Hc. unfold run in Hc. vm_compute in Hc.
  injection Hc as Ho Hs Hw Hl.
  eapply (proj1 (create_with_remote_error_raises_after_rollback
                   AccountsPayable.rejecting_connector
                   AccountsPayable.sample_runtime (fun _ => 0))
                AccountsPayable.sample_invoice AccountsPayable.init tt)
    in Hrun as (He & Ht & rb & Hlog);
    [ | rewrite <- Hl; left; reflexivity | vm_compute; reflexivity ].
  simpl. split; [exact He|]. split; [exact Ht|].
  eexists _, _, rb. split; [|exact Hlog]. vm_compute; reflexivity.
Defined.

Lemma vendor_balance_failure_reads_as_zero_witness :
  AccountsPayable.get_vendor_balance AccountsPayable.failing_connector
    AccountsPayable.sample_runtime (PStr "1000") (AccountsPayable.init, tt)
    = (Ok 0%Q, (AccountsPayable.init, tt)) /\
  AccountsPayable.get_vendor_balance AccountsPayable.zero_balance_connector
    AccountsPayable.sample_runtime (PStr "1000") (AccountsPayable.init, tt)
    = (Ok 0%Q, (AccountsPayable.init, tt)).
Proof.
  apply (vendor_balance_failure_reads_as_zero AccountsPayable.failing_connector
           AccountsPayable.sample_runtime "1000" AccountsPayable.init tt
           (Exception "RFC_COMMUNICATION_FAILURE") tt).
  reflexivity.
Defined.

(** ** Invoice processing workflow *)
Section InvoiceWorkflowFacts.
Import BaseModule InvoiceWorkflow.
#[local] Open Scope Q_scope.







Section Run.
Context {W : Type} (env : Env W) (rt : Runtime).


(** Validation only ever calls the duplicate check. *)
Lemma validate_traced data (w : W) tr r w' :
  _validate_invoice_data env rt data w = (r, w') ->
  exists tr', _validate_invoice_data (traced env) rt data (w, tr)
              = (r, (w', (tr ++ tr')%list)) /\
              (tr' = [] \/ tr' = [CDuplicateCheck]).
Proof.
  unfold _validate_invoice_data, bind, lift, ret; simpl.
  destruct (amount_errors rt data) as [more|e]; simpl.
  - destruct (truthy _ && truthy _)%bool; simpl.
    + destruct (_is_duplicate_invoice env _ _ w) as [[dup|e] w1]; intros [= <- <-];
        exists [CDuplicateCheck]; (split; [reflexivity|now right]).
    + intros [= <- <-]. exists []. rewrite app_nil_r. split; [reflexivity|now left].
  - intros [= <- <-]. exists []. rewrite app_nil_r. split; [reflexivity|now left].
Qed.

End Run.



End InvoiceWorkflowFacts.

(** ** Procure-to-pay workflow *)
Section ProcureToPayFacts.
Import BaseModule ProcureToPay.
Context {W : Type} (env : Env W) (rt : Runtime).






End ProcureToPayFacts.


(* --------------------------------------------------------------------- *)
(** * Part III: further properties of the code *)

(** ** Circuit breaker: invariants and runs *)
Section CircuitBreakerRunFacts.
Import CircuitBreaker CircuitBreakerRuns.
Context {W R : Type} (now : W -> Z).

(** What relates the state of a breaker to its failure counter. *)
Lemma call_tracks_failures (func : M W R) cb w :
  1 <= failure_threshold cb ->
  match state cb with
  | CLOSED => 0 <= failures cb < failure_threshold cb
  | OPEN => failure_threshold cb <= failures cb /\ last_failure_time cb <> None
  | HALF_OPEN => False
  end ->
  let cb' := snd (fst (call now func cb w)) in
  failure_threshold cb' = failure_threshold cb /\
  match state cb' with
  | CLOSED => 0 <= failures cb' < failure_threshold cb'
  | OPEN => failure_threshold cb' <= failures cb' /\ last_failure_time cb' <> None
  | HALF_OPEN => False
  end.
Proof.
  intros Hft Hinv. unfold call.
  destruct (state cb) eqn:Es; [| |contradiction].
  - destruct (func w) as [[r|e] w']; simpl; [split; [reflexivity|lia]|].
    split; [reflexivity|].
    destruct (Z.leb_spec (failure_threshold cb) (failures cb + 1)).
    + split; [lia|discriminate].
    + rewrite Es. lia.
  - destruct (_should_attempt_reset (now w) cb); simpl.
    + destruct (func w) as [[r|e] w']; simpl; [split; [reflexivity|lia]|].
      split; [reflexivity|].
      destruct (Z.leb_spec (failure_threshold cb) (failures cb + 1)).
      * split; [lia|discriminate].
      * lia.
    + rewrite Es. split; [reflexivity|exact Hinv].
Qed.

Lemma reachable_tracks_failures cb :
  @reachable W R now cb -> 1 <= failure_threshold cb ->
  match state cb with
  | CLOSED => 0 <= failures cb < failure_threshold cb
  | OPEN => failure_threshold cb <= failures cb /\ last_failure_time cb <> None
  | HALF_OPEN => False
  end.
Proof.
  induction 1 as [ft tmo|func cb w _ IH]; intros Hft.
  - simpl in *. lia.
  - assert (Hsame : failure_threshold (snd (fst (call now func cb w)))
                    = failure_threshold cb).
    { unfold call. destruct (state cb);
        [| destruct (_should_attempt_reset (now w) cb) |];
        try (destruct (func w) as [[r|e] w']); reflexivity. }
    rewrite Hsame in Hft.
    apply (call_tracks_failures func cb w Hft (IH Hft)).
Qed.

(** X1: every breaker that arises from [__init__] with a threshold of at
    least 1 by any calls of [call] is, between calls, either closed with
    fewer failures counted than the threshold (and never a negative
    count), or open with the threshold reached and the time of the last
    failure remembered; it is never left half-open. *)
Theorem breaker_state_tracks_failure_count cb :
  @reachable W R now cb -> 1 <= failure_threshold cb ->
  state cb <> HALF_OPEN /\
  (state cb = CLOSED -> 0 <= failures cb < failure_threshold cb) /\
  (state cb = OPEN ->
   failure_threshold cb <= failures cb /\ last_failure_time cb <> None).
Proof.
  intros Hr Hft. pose proof (reachable_tracks_failures cb Hr Hft) as H.
  destruct (state cb); repeat split; try discriminate; try tauto; try lia.
Qed.



(** X3: for an open breaker whose last failure lies less than a day back
    (and not in the future), a call runs the wrapped function exactly when
    at least [timeout] whole seconds have passed since that failure;
    otherwise the function is not invoked. *)
Theorem cooldown_is_exact_within_a_day (func : M W R) (cb : t) (w : W)
        (n : nat) (last : Z) :
  state cb = OPEN ->
  last_failure_time cb = Some last ->
  0 <= now w - last < 86400 * 1000000 ->
  snd (snd (call (now ∘ fst) (counted func) cb (w, n)))
  = if timeout cb <=? (now w - last) / 1000000 then S n else n.
Proof.
  intros Ho Hl Hd. unfold call, _should_attempt_reset. rewrite Ho, Hl.
  cbn [compose fst].
  rewrite (timedelta_seconds_within_a_day _ Hd). unfold timedelta_total_seconds.
  destruct (timeout cb <=? (now w - last) / 1000000); [|reflexivity].
  unfold counted. destruct (func w) as [[r|e] w']; reflexivity.
Qed.

End CircuitBreakerRunFacts.

Lemma breaker_state_tracks_failure_count_witness :
  let cb := snd (fst (CircuitBreaker.call id (CircuitBreaker.failing_op 0)
                        CircuitBreaker.sap_circuit_breaker 0)) in
  CircuitBreaker.state cb <> CircuitBreaker.HALF_OPEN /\
  (CircuitBreaker.state cb = CircuitBreaker.CLOSED ->
   0 <= CircuitBreaker.failures cb < CircuitBreaker.failure_threshold cb) /\
  (CircuitBreaker.state cb = CircuitBreaker.OPEN ->
   CircuitBreaker.failure_threshold cb <= CircuitBreaker.failures cb /\
   CircuitBreaker.last_failure_time cb <> None).
Proof.
  apply (breaker_state_tracks_failure_count (W := Z) (R := unit) id);
    [ apply (CircuitBreaker.reach_call id (CircuitBreaker.failing_op 0)),
            CircuitBreaker.reach_init
    | simpl; lia ].
Defined.


Lemma cooldown_is_exact_within_a_day_witness :
  snd (snd (CircuitBreaker.call (id ∘ fst)
              (counted (CircuitBreaker.succeeding_op 0))
              CircuitBreaker.tripped (60 * 1000000, 0%nat)))
  = 1%nat.
Proof.
  apply (cooldown_is_exact_within_a_day id (CircuitBreaker.succeeding_op 0)
           CircuitBreaker.tripped (60 * 1000000) 0%nat 0);
    [reflexivity | reflexivity | simpl; lia].
Defined.
(** ** Rate limiter: isolation, clean-up, and the 429 answer *)
Section RateLimitFacts.
Import Middleware HttpMiddleware.
#[local] Open Scope Q_scope.

(** X4: a request, a direct [consume] or a [_refill] of one client never
    changes the bucket of another client (nor creates or removes one). *)
Theorem events_of_one_client_leave_other_buckets_alone
        (clock : nat -> Q) (ev : event) (rl : RateLimiter) (k : nat)
        (c other : string) :
  ev = Allow c \/ (exists n, ev = Consume c n) \/ ev = Refill c ->
  other <> c ->
  buckets (fst (step clock ev rl k)) !! other = buckets rl !! other.
Proof.
  intros Hev Hne.
  destruct Hev as [-> | [[n ->] | ->]]; simpl.
  - unfold is_allowed.
    destruct (buckets rl !! c) as [b|] eqn:Eb.
    + rewrite Eb. destruct (consume clock 1 b k) as [[ok b'] k2]. simpl.
      now rewrite lookup_insert_ne by congruence.
    + unfold TokenBucket_init. simpl. rewrite lookup_insert_eq.
      destruct (consume clock 1 _ (S k)) as [[ok b'] k2]. simpl.
      now rewrite !lookup_insert_ne by congruence.
  - destruct (buckets rl !! c) as [b|] eqn:Eb; [|reflexivity].
    destruct (consume clock (inject_Z n) b k) as [[ok b'] k2]. simpl.
    now rewrite lookup_insert_ne by congruence.
  - destruct (buckets rl !! c) as [b|] eqn:Eb; [|reflexivity]. simpl.
    now rewrite lookup_insert_ne by congruence.
Qed.

Lemma events_of_one_client_leave_other_buckets_alone_witness :
  buckets (fst (step ten_ms_clock (Allow "b") drained 0)) !! "a"
  = buckets drained !! "a".
Proof.
  apply (events_of_one_client_leave_other_buckets_alone
           ten_ms_clock (Allow "b") drained 0%nat "b" "a");
    [left; reflexivity | discriminate].
Defined.

(** X5: in a limiter that was built by [RateLimiter(requests_per_minute)]
    and used at clock readings that never go backwards,
    [cleanup_old_buckets] keeps, unchanged, every bucket that was touched
    during the last 3600 seconds, and every bucket it removes would be
    full again at that moment: no client loses or gains tokens by the
    clean-up. *)
Theorem cleanup_discards_only_full_buckets
        (clock : nat -> Q) (rpm : Z) (evs : list event) (k0 : nat)
        (c : string) (b : TokenBucket) :
  (forall i, clock i <= clock (S i)) ->
  (0 <= rpm)%Z ->
  Forall nonneg_request evs ->
  buckets (fst (run clock evs (RateLimiter_init rpm) k0)) !! c = Some b ->
  let rl := fst (run clock evs (RateLimiter_init rpm) k0) in
  let k := snd (run clock evs (RateLimiter_init rpm) k0) in
  match buckets (fst (cleanup_old_buckets clock rl k)) !! c with
  | Some b' => b' = b /\ clock k - last_refill b <= 3600
  | None => 3600 < clock k - last_refill b /\
            tokens (refill_at (clock k) b) == capacity b
  end.
Proof.
  intros Hmono Hrpm Hevs Hb rl k.
  destruct (run_ok clock Hmono evs _ k0 Hevs (init_ok rpm (clock k0) Hrpm))
    as (_ & _ & Hok).
  destruct (run_buckets_match clock evs (RateLimiter_init rpm) k0)
    as (Hm & Hc & Hr).
  { intros c' b' H. simpl in H. rewrite lookup_empty in H. discriminate. }
  destruct (Hm _ _ Hb) as [Hcb Hrb]. rewrite Hc in Hcb. rewrite Hr in Hrb.
  simpl in Hcb, Hrb.
  destruct (Hok _ _ Hb) as (Ht0 & Ht1 & _ & _).
  fold rl k in Hb.
  unfold cleanup_old_buckets. cbn [fst buckets set_buckets].
  destruct (filter _ (buckets rl) !! c) as [b'|] eqn:E.
  - apply map_lookup_filter_Some in E as [E Hkeep]. simpl in Hkeep.
    rewrite Hb in E. injection E as <-.
    split; [reflexivity|]. now apply Qle_bool_iff.
  - assert (Hold : 3600 < clock k - last_refill b).
    { apply Qnot_le_lt. intros Hle. apply Qle_bool_iff in Hle.
      assert (filter (fun kv : string * TokenBucket =>
                Qle_bool (clock k - last_refill kv.2) 3600 = true)
                (buckets rl) !! c = Some b) as Hin
        by (apply map_lookup_filter_Some; split; [exact Hb|exact Hle]).
      rewrite Hin in E. discriminate. }
    split; [exact Hold|].
    unfold refill_at. cbn [tokens].
    apply Q.min_l. rewrite Hcb, Hrb.
    assert (H0 : 0 <= inject_Z rpm) by (now apply inject_Z_nonneg).
    assert (Hprod : 3600 * (inject_Z rpm / 60)
                    <= (clock k - last_refill b) * (inject_Z rpm / 60)).
    { apply Qmult_le_compat_r; [lra|]. apply Qle_shift_div_l; lra. }
    assert (Heq : 3600 * (inject_Z rpm / 60) == 60 * inject_Z rpm) by field.
    lra.
Qed.

Lemma cleanup_discards_only_full_buckets_witness :
  match buckets (fst (cleanup_old_buckets ten_ms_clock
                        (fst (run ten_ms_clock sample_events (RateLimiter_init 3) 0))
                        (snd (run ten_ms_clock sample_events (RateLimiter_init 3) 0))))
        !! "a",
        buckets (fst (run ten_ms_clock sample_events (RateLimiter_init 3) 0)) !! "a"
  with
  | Some b', Some b => b' = b
  | _, _ => False
  end.
Proof.
  destruct (buckets (fst (run ten_ms_clock sample_events (RateLimiter_init 3) 0))
            !! "a") as [b|] eqn:E.
  - pose proof (cleanup_discards_only_full_buckets ten_ms_clock 3 sample_events
                  0%nat "a" b ten_ms_clock_monotone ltac:(lia)
                  ltac:(repeat constructor; simpl; lia) E) as H.
    cbv zeta in H.
    destruct (buckets _ !! "a") as [b'|] eqn:E'.
    + exact (proj1 H).
    + vm_compute in E'. discriminate E'.
  - vm_compute in E. discriminate E.
Defined.




End RateLimitFacts.

(** ** Authentication and request identifiers *)
Section HttpMiddlewareFacts.
Import HttpMiddleware.
Context {W : Type}.

Lemma bearer_prefix_nonempty (h : string) :
  String.prefix "Bearer " h = true -> String.eqb h "" = false.
Proof. destruct h; [discriminate|reflexivity]. Qed.

(** X7: for a path that is not excluded, [AuthenticationMiddleware]
    decides on the shape of the [Authorization] header alone.  Without the
    header the answer is 401 with [WWW-Authenticate: Bearer]; with a header
    that does not start with ["Bearer "] it is 401; in both cases the
    downstream handler is not invoked.  With any header that starts with
    ["Bearer "] the request is passed on, whatever the token is, and the
    handler sees the constant user [test-user] with role [admin] in
    [request.state.user]: the branch "Invalid or expired token" is never
    taken. *)
Theorem authentication_accepts_every_bearer_token
        (self : AuthenticationMiddleware.t) (request : Request)
        (handler : Request -> M W Response) (w : W) (n : nat) :
  existsb (String.eqb (url_path request))
          (AuthenticationMiddleware.excluded_paths self) = false ->
  let run := AuthenticationMiddleware.dispatch self request
               (fun r => counted (handler r)) (w, n) in
  match req_header request "Authorization" with
  | Some h =>
      if String.prefix "Bearer " h then
        run = counted
                (handler (set_state_user
                            (BaseModule.mkdict [("user_id", PStr "test-user");
                                                ("role", PStr "admin")])
                            request)) (w, n)
      else
        exists response,
          run = (Ok response, (w, n)) /\ status_code response = 401
  | None =>
      exists response,
        run = (Ok response, (w, n)) /\ status_code response = 401 /\
        headers response !! "WWW-Authenticate" = Some "Bearer"
  end.
Proof.
  intros Hpath run. unfold run, AuthenticationMiddleware.dispatch.
  rewrite Hpath.
  destruct (req_header request "Authorization") as [h|].
  - destruct (String.prefix "Bearer " h) eqn:Ep.
    + rewrite (bearer_prefix_nonempty h Ep). reflexivity.
    + destruct (String.eqb h ""); eexists; (split; [reflexivity|reflexivity]).
  - eexists. split; [reflexivity|]. split; reflexivity.
Qed.

(** X8: [RequestIDMiddleware] hands the downstream handler a request
    whose [request.state.request_id] is the very identifier it then puts
    into the [X-Request-ID] header of the response; that identifier is the
    client's own [X-Request-ID] header when it sent a non-empty one (no new
    identifier is drawn then), and a freshly drawn one otherwise.  Nothing
    else of the handler's response is changed. *)
Theorem request_id_is_the_same_for_handler_and_client
        (uuid4 : M W string) (request : Request)
        (call_next : Request -> M W Response) (w w' : W) (response : Response) :
  RequestIDMiddleware.dispatch uuid4 request call_next w = (Ok response, w') ->
  exists request_id w1 inner,
    call_next (set_state_request_id request_id request) w1 = (Ok inner, w') /\
    response = set_header "X-Request-ID" request_id inner /\
    headers response !! "X-Request-ID" = Some request_id /\
    match req_header request "X-Request-ID" with
    | Some s => if String.eqb s "" then uuid4 w = (Ok request_id, w1)
                else request_id = s /\ w1 = w
    | None => uuid4 w = (Ok request_id, w1)
    end.
Proof.
  unfold RequestIDMiddleware.dispatch. intros H.
  apply bind_inv in H as [(request_id & w1 & Hid & H)|(e & _ & [=])].
  apply bind_inv in H as [(inner & w2 & Hnext & H)|(e & _ & [=])].
  unfold ret in H. injection H as <- <-.
  exists request_id, w1, inner. split; [exact Hnext|]. split; [reflexivity|].
  split; [apply lookup_insert_eq|].
  destruct (req_header request "X-Request-ID") as [s|]; [|exact Hid].
  destruct (String.eqb s ""); [exact Hid|].
  unfold ret in Hid. injection Hid as <- <-. now split.
Qed.

End HttpMiddlewareFacts.

Lemma authentication_accepts_every_bearer_token_witness :
  HttpMiddleware.AuthenticationMiddleware.dispatch
    (HttpMiddleware.AuthenticationMiddleware.init "your-secret-key" None)
    HttpMiddleware.sample_request
    (fun r => counted (HttpMiddleware.ok_handler r)) (tt, 0%nat)
  = counted
      (HttpMiddleware.ok_handler
         (HttpMiddleware.set_state_user
            (BaseModule.mkdict [("user_id", PStr "test-user");
                                ("role", PStr "admin")])
            HttpMiddleware.sample_request)) (tt, 0%nat).
Proof.
  apply (authentication_accepts_every_bearer_token
           (HttpMiddleware.AuthenticationMiddleware.init "your-secret-key" None)
           HttpMiddleware.sample_request HttpMiddleware.ok_handler tt 0%nat).
  reflexivity.
Defined.

Lemma request_id_is_the_same_for_handler_and_client_witness :
  exists request_id w1 inner,
    HttpMiddleware.ok_handler
      (HttpMiddleware.set_state_request_id request_id HttpMiddleware.sample_request)
      w1 = (Ok inner, tt) /\
    HttpMiddleware.set_header "X-Request-ID" "req-42"
      (HttpMiddleware.JSONResponse 200 [("message", PStr "API is working!")] [])
    = HttpMiddleware.set_header "X-Request-ID" request_id inner /\
    request_id = "req-42".
Proof.
  destruct (request_id_is_the_same_for_handler_and_client
              (ret "fresh-uuid") HttpMiddleware.sample_request
              HttpMiddleware.ok_handler tt tt
              (HttpMiddleware.set_header "X-Request-ID" "req-42"
                 (HttpMiddleware.JSONResponse 200
                    [("message", PStr "API is working!")] [])))
    as (request_id & w1 & inner & Hnext & Hresp & _ & Hid);
    [reflexivity|].
  exists request_id, w1, inner. split; [exact Hnext|]. split; [exact Hresp|].
  exact (proj1 Hid).
Defined.
(** ** Base module: batches, return messages, the BAPI wrapper *)
Section BaseModuleFacts.
Import BaseModule BaseModuleBatch.
Context {W : Type}.

Lemma batch_loop_accounts (process_function : Dict -> M W PyVal)
      (data_list : list Dict) : forall idx results w n,
  exists results' w',
    batch_loop (fun d => counted (process_function d)) idx data_list results (w, n)
      = (Ok results', (w', (n + length data_list)%nat)) /\
    total results' = total results /\
    successful results' + failed results'
      = successful results + failed results + Z.of_nat (length data_list) /\
    successful results <= successful results' /\
    failed results <= failed results' /\
    exists more,
      details results' = (details results ++ more)%list /\
      length more = length data_list /\
      successful results' - successful results
        = Z.of_nat (length (List.filter is_success more)) /\
      forall i detail, more !! i = Some detail ->
        detail !! "index" = Some (PNum (inject_Z (idx + Z.of_nat i))).
Proof.
  induction data_list as [|data rest IH]; intros idx results w n.
  - exists results, w. simpl. rewrite Nat.add_0_r.
    split; [reflexivity|]. split; [reflexivity|]. split; [lia|].
    split; [lia|]. split; [lia|].
    exists []. rewrite app_nil_r. split; [reflexivity|]. split; [reflexivity|].
    split; [simpl; lia|].
    intros i detail H. destruct i; discriminate H.
  - cbn [batch_loop]. unfold bind at 1, try_except at 1, bind at 1.
    unfold counted at 1.
    destruct (process_function data w) as [[result|e] w1]; cbn [ret].
    + destruct (IH (idx + 1) (add_success idx result results) w1 (S n))
        as (results' & w' & Hrun & Ht & Hsum & Hs & Hf & more & Hd & Hl & Hc & Hi).
      exists results', w'. rewrite Hrun.
      split; [cbn [length]; rewrite Nat.add_succ_r; reflexivity|].
      cbn [add_success total successful failed details] in *.
      split; [exact Ht|]. split; [cbn [length]; lia|].
      split; [lia|]. split; [lia|].
      exists (success_detail idx result :: more).
      split; [rewrite Hd, <- app_assoc; reflexivity|].
      split; [cbn [length]; lia|]. split.
      * cbn [List.filter]. change (is_success (success_detail idx result)) with true.
        cbn [length]. lia.
      * intros [|i] detail H.
        -- injection H as <-. rewrite Z.add_0_r. reflexivity.
        -- rewrite (Hi i detail H). do 3 f_equal. lia.
    + destruct (IH (idx + 1) (add_failure idx e results) w1 (S n))
        as (results' & w' & Hrun & Ht & Hsum & Hs & Hf & more & Hd & Hl & Hc & Hi).
      exists results', w'. rewrite Hrun.
      split; [cbn [length]; rewrite Nat.add_succ_r; reflexivity|].
      cbn [add_failure total successful failed details] in *.
      split; [exact Ht|]. split; [cbn [length]; lia|].
      split; [lia|]. split; [lia|].
      exists (failure_detail idx e :: more).
      split; [rewrite Hd, <- app_assoc; reflexivity|].
      split; [cbn [length]; lia|]. split.
      * cbn [List.filter]. change (is_success (failure_detail idx e)) with false.
        lia.
      * intros [|i] detail H.
        -- injection H as <-. rewrite Z.add_0_r. reflexivity.
        -- rewrite (Hi i detail H). do 3 f_equal. lia.
Qed.

(** X9: [batch_process] never raises and never stops early: the
    processing function is invoked once for every record, also after
    records that failed.  The summary satisfies [total = len(data_list)]
    and [successful + failed = total]; [details] has one entry per record,
    in order, numbered from 1, and [successful] counts the entries with
    status [success]. *)
Theorem batch_process_accounts_for_every_record
        (data_list : list Dict) (process_function : Dict -> M W PyVal)
        (w : W) (n : nat) :
  exists results w',
    batch_process data_list (fun d => counted (process_function d)) (w, n)
      = (Ok results, (w', (n + length data_list)%nat)) /\
    total results = Z.of_nat (length data_list) /\
    successful results + failed results = total results /\
    0 <= successful results /\ 0 <= failed results /\
    length (details results) = length data_list /\
    successful results
      = Z.of_nat (length (List.filter is_success (details results))) /\
    forall i detail, details results !! i = Some detail ->
      detail !! "index" = Some (PNum (inject_Z (Z.of_nat i + 1))).
Proof.
  unfold batch_process.
  destruct (batch_loop_accounts process_function data_list 1
              {| total := Z.of_nat (length data_list); successful := 0;
                 failed := 0; details := [] |} w n)
    as (results & w' & Hrun & Ht & Hsum & Hs & Hf & more & Hd & Hl & Hc & Hi).
  cbn [total successful failed details] in *.
  exists results, w'. split; [exact Hrun|].
  rewrite Hd in *. cbn [app] in *.
  split; [exact Ht|]. split; [lia|]. split; [lia|]. split; [lia|].
  split; [exact Hl|]. split; [lia|].
  intros i detail H. rewrite (Hi i detail H). do 3 f_equal. lia.
Qed.

End BaseModuleFacts.
Section ReturnMessageFacts.
Import BaseModule.
Context {W : Type} (conn : Connector W) (rt : Runtime).

Lemma parse_loop_sorts (table : list Dict) : forall acc,
  parse_loop (map PDict table) acc =
  Ok {| has_errors :=
          has_errors acc ||
          existsb (fun d => is_error_type (dict_get_or d "TYPE" (PStr ""))) table;
        errors :=
          errors acc ++
          map (fun d => dict_get_or d "MESSAGE" (PStr ""))
              (List.filter (fun d => is_error_type (dict_get_or d "TYPE" (PStr "")))
                           table);
        warnings :=
          warnings acc ++
          map (fun d => dict_get_or d "MESSAGE" (PStr ""))
              (List.filter (fun d => is_str (dict_get_or d "TYPE" (PStr "")) "W")
                           table);
        info :=
          info acc ++
          map (fun d => dict_get_or d "MESSAGE" (PStr ""))
              (List.filter
                 (fun d => is_str (dict_get_or d "TYPE" (PStr "")) "I" ||
                           is_str (dict_get_or d "TYPE" (PStr "")) "S")
                 table) |}.
Proof.
  induction table as [|d rest IH]; intros acc.
  - simpl. rewrite orb_false_r, !app_nil_r. now destruct acc.
  - cbn [map parse_loop val_get_or]. rewrite IH. cbn [existsb List.filter].
    set (ty := dict_get_or d "TYPE" (PStr "")).
    assert (Hexcl : is_error_type ty = true ->
                    is_str ty "W" = false /\ is_str ty "I" = false /\
                    is_str ty "S" = false).
    { unfold is_error_type, is_str. destruct ty as [| | |s| |]; try discriminate.
      intros H. apply orb_true_iff in H as [H|H];
        apply String.eqb_eq in H; subst s; repeat split; reflexivity. }
    assert (Hexcl2 : is_str ty "W" = true ->
                     is_str ty "I" = false /\ is_str ty "S" = false).
    { unfold is_str. destruct ty as [| | |s| |]; try discriminate.
      intros H. apply String.eqb_eq in H; subst s; split; reflexivity. }
    destruct (is_error_type ty) eqn:Ee.
    + destruct (Hexcl eq_refl) as (-> & -> & ->).
      cbn [has_errors errors warnings info orb map].
      rewrite orb_true_r, <- app_assoc. reflexivity.
    + destruct (is_str ty "W") eqn:Ew.
      * destruct (Hexcl2 eq_refl) as (-> & ->).
        cbn [has_errors errors warnings info orb map].
        rewrite <- app_assoc. reflexivity.
      * destruct (is_str ty "I" || is_str ty "S")%bool eqn:Ei;
          cbn [has_errors errors warnings info orb map];
          [rewrite <- app_assoc|]; reflexivity.
Qed.

(** X10: on a table of message structures [parse_sap_return_messages]
    never raises; it returns the texts of the messages of type [E] or [A]
    as [errors], those of type [W] as [warnings] and those of type [I] or
    [S] as [info], each in the order of the table (a message of any other
    type is dropped), and [has_errors] is set exactly when [errors] is not
    empty. *)
Theorem parse_sorts_messages_by_severity (table : list Dict) :
  exists messages,
    parse_sap_return_messages (map PDict table) = Ok messages /\
    errors messages =
      map (fun d => dict_get_or d "MESSAGE" (PStr ""))
          (List.filter (fun d => is_error_type (dict_get_or d "TYPE" (PStr "")))
                       table) /\
    warnings messages =
      map (fun d => dict_get_or d "MESSAGE" (PStr ""))
          (List.filter (fun d => is_str (dict_get_or d "TYPE" (PStr "")) "W")
                       table) /\
    info messages =
      map (fun d => dict_get_or d "MESSAGE" (PStr ""))
          (List.filter
             (fun d => is_str (dict_get_or d "TYPE" (PStr "")) "I" ||
                       is_str (dict_get_or d "TYPE" (PStr "")) "S")
             table) /\
    (has_errors messages = true <-> errors messages <> []).
Proof.
  unfold parse_sap_return_messages. rewrite parse_loop_sorts.
  eexists. split; [reflexivity|]. cbn [has_errors errors warnings info app orb].
  split; [reflexivity|]. split; [reflexivity|]. split; [reflexivity|].
  induction table as [|d rest IH]; cbn [existsb List.filter].
  - split; [discriminate|now intros []].
  - destruct (is_error_type (dict_get_or d "TYPE" (PStr ""))); cbn [orb map].
    + split; [discriminate|reflexivity].
    + exact IH.
Qed.

(** X11: [call_bapi] inspects [RETURN] only when it is a single message
    structure.  A result it returns never has a structure-form [RETURN]
    of type [E] or [A] (so such a result carries no error at all unless
    its [RETURN] is a table), whereas a result whose [RETURN] is a table
    is returned as the connector gave it, whatever messages the table
    holds. *)
Theorem call_bapi_checks_only_a_single_return_structure
        (bapi_name : string) (params : Dict) (w : W) :
  (forall result w',
     call_bapi conn rt bapi_name params w = (Ok result, w') ->
     call_function conn bapi_name params w = (Ok result, w') /\
     ((forall table, result !! "RETURN" <> Some (PList table)) ->
      carries_error result = false)) /\
  (forall result w' table,
     call_function conn bapi_name params w = (Ok result, w') ->
     result !! "RETURN" = Some (PList table) ->
     call_bapi conn rt bapi_name params w = (Ok result, w')).
Proof.
  split.
  - intros result w' H. unfold call_bapi in H.
    apply bind_inv in H as [(res & w1 & Hc & H)|(e & _ & [=])].
    destruct (res !! "RETURN") as [v|] eqn:Er.
    + destruct v as [| | | | |d];
        try (unfold ret in H; injection H as <- <-; split; [exact Hc|];
             intros Hnl; unfold carries_error, return_table_of; rewrite Er;
             try reflexivity; exfalso; eapply Hnl; exact Er).
      destruct (is_error_type (dict_get_or d "TYPE" (PStr ""))) eqn:Ee;
        [discriminate H|].
      unfold ret in H; injection H as <- <-. split; [exact Hc|].
      intros _. unfold carries_error, return_table_of. rewrite Er.
      cbn [existsb is_error_message]. now rewrite Ee.
    + unfold ret in H; injection H as <- <-. split; [exact Hc|].
      intros _. unfold carries_error, return_table_of. now rewrite Er.
  - intros result w' table Hc Er. unfold call_bapi, bind. rewrite Hc, Er.
    reflexivity.
Qed.

End ReturnMessageFacts.
(** ** The audit trail written by [create] *)
Section AuditTrailFacts.
Import BaseModule AuditTrail.
Context {W : Type} (conn : Connector W) (rt : Runtime) (now : W -> Z).

(** The posting block shared by the three [create] methods either returns
    the document after recording it, or raises and leaves the module as
    it was. *)
Lemma posting_block_records {S : Type}
      (posting_bapi : string) (ps0 : Dict) (failure : Messages -> Exn)
      (document : Dict -> PyVal) (record : Dict -> Z -> S -> S)
      (s0 : S) (w0 : W) (out : Res PyVal) s' w' :
  try_except
    (bind (on_world (call_bapi conn rt posting_bapi ps0)) (fun result =>
     bind (lift (parse_sap_return_messages (return_table_of result))) (fun messages =>
     if has_errors messages then raise (failure messages)
     else
       bind (on_world (commit_transaction conn rt)) (fun _ =>
       bind (on_world (fun w => (Ok (now w), w))) (fun stamp =>
       bind (modify (record result stamp)) (fun _ =>
       ret (document result)))))))
    (fun e => bind (on_world (rollback_transaction conn rt))
                   (fun _ => raise e))
    (s0, w0) = (out, (s', w')) ->
  match out with
  | Ok doc => exists result stamp, s' = record result stamp s0 /\ doc = document result
  | Raise _ => s' = s0
  end.
Proof.
  intros Hrun.
  apply try_except_inv in Hrun as [(doc & Hb & ->)|(e & [s2 w2] & Hb & Hh)].
  - apply bind_inv in Hb as [(res & [? ?] & Hc & Hb)|(e & _ & [=])].
    apply on_world_inv in Hc as [-> Hc].
    apply bind_inv in Hb as [(msgs & [? ?] & Hp & Hb)|(e & _ & [=])].
    apply lift_inv in Hp as [_ Hp]. injection Hp as <- <-.
    destruct (has_errors msgs); [discriminate Hb|].
    apply bind_inv in Hb as [(u & [? ?] & Hcm & Hb)|(e & _ & [=])].
    apply on_world_inv in Hcm as [-> Hcm].
    apply bind_inv in Hb as [(stamp & [? ?] & Hn & Hb)|(e & _ & [=])].
    apply on_world_inv in Hn as [-> Hn].
    apply bind_inv in Hb as [(u2 & [? ?] & Hm & Hb)|(e & _ & [=])].
    unfold modify in Hm. simpl in Hm. injection Hm as _ <- <-.
    unfold ret in Hb. injection Hb as <- <- <-.
    now exists res, stamp.
  - assert (Hs2 : s2 = s0).
    { apply bind_inv in Hb as [(res & [? ?] & Hc & Hb)|(e1 & Hc & _)];
        apply on_world_inv in Hc as [? Hc]; subst; [|reflexivity].
      apply bind_inv in Hb as [(msgs & [? ?] & Hp & Hb)|(e1 & Hp & _)];
        apply lift_inv in Hp as [_ Hp]; simplify_eq; [|reflexivity].
      destruct (has_errors msgs); [unfold raise in Hb; now simplify_eq|].
      apply bind_inv in Hb as [(u & [? ?] & Hcm & Hb)|(e1 & Hcm & _)];
        apply on_world_inv in Hcm as [? Hcm]; subst; [|reflexivity].
      apply bind_inv in Hb as [(stamp & [? ?] & Hn & Hb)|(e1 & Hn & _)];
        apply on_world_inv in Hn as [? Hn]; subst; [|reflexivity].
      apply bind_inv in Hb as [(u2 & [? ?] & Hm & Hb)|(e1 & Hm & _)];
        unfold modify in Hm; simpl in Hm; [|discriminate Hm].
      unfold ret in Hb. discriminate Hb. }
    subst s2.
    apply bind_inv in Hh as [(u & [? ?] & Hrb & Hh)|(e1 & Hrb & ->)];
      apply on_world_inv in Hrb as [? Hrb]; subst; [|reflexivity].
    unfold raise in Hh. now simplify_eq.
Qed.

(** The steps before the posting block leave the module object alone. *)
Ltac before_posting_lift Hrun :=
  let Hi := fresh "Hi" in
  apply bind_inv in Hrun as [(? & [? ?] & Hi & Hrun)|(? & Hi & ->)];
  apply lift_inv in Hi as [_ Hi]; simplify_eq; [|reflexivity].
Ltac before_posting_get Hrun :=
  let Hi := fresh "Hi" in
  apply bind_inv in Hrun as [(? & [? ?] & Hi & Hrun)|(? & Hi & _)];
  unfold get in Hi; simpl in Hi; simplify_eq.
Ltac before_posting_world Hrun :=
  let Hi := fresh "Hi" in
  apply bind_inv in Hrun as [(? & [? ?] & Hi & Hrun)|(? & Hi & ->)];
  apply on_world_inv in Hi as [? Hi]; simplify_eq; [|reflexivity].
Ltac before_posting_clock Hrun :=
  let Hi := fresh "Hi" in
  apply bind_inv in Hrun as [(? & [? ?] & Hi & Hrun)|(? & Hi & _)];
  apply on_world_inv in Hi as [? Hi]; simplify_eq.
Ltac at_posting Hrun :=
  cbv zeta in Hrun;
  match type of Hrun with
  | try_except
      (bind _ (fun result =>
       bind _ (fun messages =>
       if _ then raise (@?failure messages)
       else bind _ (fun _ => bind _ (fun stamp =>
            bind (modify (@?record result stamp)) (fun _ =>
            ret (@?document result)))))))
      _ _ = _ =>
      eapply (posting_block_records _ _ failure document record) in Hrun
  end.

Lemma accounts_payable_create_audits :
  audits_exactly_the_successes AccountsPayable.transactions
    (AccountsPayable.create conn rt now).
Proof.
  intros data self w out self' w' Hrun.
  unfold AccountsPayable.create in Hrun.
  before_posting_world Hrun.
  match goal with x : (bool * list string)%type |- _ => destruct x as [is_valid errs] end.
  destruct is_valid; simpl in Hrun; [|unfold raise in Hrun; now simplify_eq].
  before_posting_lift Hrun. before_posting_get Hrun.
  before_posting_lift Hrun. before_posting_lift Hrun.
  before_posting_lift Hrun. before_posting_lift Hrun.
  at_posting Hrun.
  destruct out as [doc|e]; [|now rewrite Hrun].
  destruct Hrun as (result & stamp & -> & ->).
  eexists. split; [reflexivity|]. now repeat split.
Qed.

Lemma purchase_order_create_audits :
  audits_exactly_the_successes PurchaseOrder.transactions
    (PurchaseOrder.create conn rt now).
Proof.
  intros data self w out self' w' Hrun.
  unfold PurchaseOrder.create in Hrun.
  before_posting_lift Hrun.
  match goal with x : (bool * list string)%type |- _ => destruct x as [is_valid errs] end.
  destruct is_valid; simpl in Hrun; [|unfold raise in Hrun; now simplify_eq].
  before_posting_get Hrun. before_posting_lift Hrun. before_posting_lift Hrun.
  before_posting_clock Hrun.
  before_posting_lift Hrun. before_posting_lift Hrun. before_posting_lift Hrun.
  before_posting_lift Hrun.
  match goal with x : (list PyVal * list PyVal)%type |- _ =>
    destruct x as [po_items po_schedules] end.
  at_posting Hrun.
  destruct out as [doc|e]; [|now rewrite Hrun].
  destruct Hrun as (result & stamp & -> & ->).
  eexists. split; [reflexivity|]. now repeat split.
Qed.

Lemma sales_order_create_audits :
  audits_exactly_the_successes SalesOrder.transactions
    (SalesOrder.create conn rt now).
Proof.
  intros data self w out self' w' Hrun.
  unfold SalesOrder.create in Hrun.
  before_posting_world Hrun.
  match goal with x : (bool * list string)%type |- _ => destruct x as [is_valid errs] end.
  destruct is_valid; simpl in Hrun; [|unfold raise in Hrun; now simplify_eq].
  before_posting_get Hrun. before_posting_clock Hrun.
  before_posting_lift Hrun. before_posting_lift Hrun. before_posting_lift Hrun.
  before_posting_lift Hrun. before_posting_lift Hrun. before_posting_lift Hrun.
  match goal with x : (list PyVal * list PyVal)%type |- _ =>
    destruct x as [order_items order_schedules] end.
  at_posting Hrun.
  destruct out as [doc|e]; [|now rewrite Hrun].
  destruct Hrun as (result & stamp & -> & ->).
  eexists. split; [reflexivity|]. now repeat split.
Qed.

(** X12: each of the three domain [create] methods
    ([AccountsPayable.create], [PurchaseOrder.create],
    [SalesOrder.create]) changes the audit list [self.transactions] in
    exactly one way: when it returns a document number it has appended one
    record with status [COMPLETED] that carries this document number and
    the input data; when it raises, for whatever reason, the list is as it
    was before the call. *)
Theorem create_audits_exactly_its_successes :
  audits_exactly_the_successes AccountsPayable.transactions
    (AccountsPayable.create conn rt now) /\
  audits_exactly_the_successes PurchaseOrder.transactions
    (PurchaseOrder.create conn rt now) /\
  audits_exactly_the_successes SalesOrder.transactions
    (SalesOrder.create conn rt now).
Proof.
  split; [exact accounts_payable_create_audits|].
  split; [exact purchase_order_create_audits|exact sales_order_create_audits].
Qed.

(** Runs of a [create] that audits its successes. *)
Lemma creates_audit {S : Type} (audit : S -> list SAPTransaction)
      (create : Dict -> M (S * W) PyVal) :
  audits_exactly_the_successes audit create ->
  forall inputs self w,
    let '(outs, (self', w')) := creates create inputs (self, w) in
    exists added,
      audit self' = (audit self ++ added)%list /\
      map sap_document_number added = returned outs /\
      Forall (fun t => status t = COMPLETED) added.
Proof.
  intros Hcreate. induction inputs as [|data rest IH]; intros self w.
  - simpl. exists []. rewrite app_nil_r. repeat split. constructor.
  - cbn [creates].
    destruct (create data (self, w)) as [out [self1 w1]] eqn:Hc.
    specialize (IH self1 w1).
    destruct (creates create rest (self1, w1)) as [outs [self2 w2]].
    destruct IH as (added & Ha & Hd & Hs).
    apply Hcreate in Hc. destruct out as [doc|e].
    + destruct Hc as (t & Ht & Hst & Hdoc & _).
      exists (t :: added). rewrite Ha, Ht. unfold log_transaction.
      rewrite <- app_assoc. split; [reflexivity|].
      split; [cbn; now rewrite Hd, Hdoc|]. now constructor.
    + exists added. rewrite Ha, Hc. repeat split; assumption.
Qed.

Lemma history_of_completed_records (l : list SAPTransaction) :
  Forall (fun t => status t = COMPLETED) l ->
  get_transaction_history (Some COMPLETED) l = l /\
  forall st, st <> COMPLETED -> get_transaction_history (Some st) l = [].
Proof.
  unfold get_transaction_history.
  induction 1 as [|t l Ht _ [IH1 IH2]]; [now split|].
  cbn [List.filter]. rewrite Ht. split.
  - cbn [status_eqb]. now rewrite IH1.
  - intros st Hst. rewrite (IH2 st Hst). destruct st; try reflexivity.
    contradiction.
Qed.

(** X13: after any sequence of [AccountsPayable.create] calls on a new
    module object, the document numbers in the audit list are exactly the
    document numbers the calls returned, in the same order; every record
    is [COMPLETED], so [get_transaction_history] filtered by [COMPLETED]
    gives the whole list and filtered by any other status (for instance
    [FAILED]) gives the empty list; and [get_module_info] counts as many
    transactions as calls returned. *)
Theorem audit_list_mirrors_the_returned_documents (inputs : list Dict) (w : W) :
  let '(outs, (self', w')) :=
    creates (AccountsPayable.create conn rt now) inputs (AccountsPayable.init, w) in
  let transactions := AccountsPayable.transactions self' in
  map sap_document_number transactions = returned outs /\
  get_transaction_history (Some COMPLETED) transactions = transactions /\
  (forall st, st <> COMPLETED ->
              get_transaction_history (Some st) transactions = []) /\
  BaseModuleBatch.transactions_count
    (BaseModuleBatch.get_module_info (AccountsPayable.module_name self') transactions)
  = Z.of_nat (length (returned outs)).
Proof.
  pose proof (creates_audit AccountsPayable.transactions _
                accounts_payable_create_audits inputs AccountsPayable.init w) as H.
  destruct (creates _ inputs (AccountsPayable.init, w)) as [outs [self' w']].
  destruct H as (added & Ha & Hd & Hs). cbn [AccountsPayable.init
    AccountsPayable.transactions app] in Ha. cbv zeta. rewrite Ha.
  split; [exact Hd|].
  destruct (history_of_completed_records added Hs) as [Hall Hnone].
  split; [exact Hall|]. split; [exact Hnone|].
  cbn [BaseModuleBatch.get_module_info BaseModuleBatch.transactions_count].
  now rewrite <- Hd, length_map.
Qed.

End AuditTrailFacts.
(** ** Accounts payable: validation, reversal *)
Section AccountsPayableMoreFacts.
Import BaseModule AccountsPayable AccountsPayableDocuments.
Context {W : Type} (conn : Connector W) (rt : Runtime) (now : W -> Z)
        (year : Z -> Z).







(** X16: [AccountsPayable.delete] never changes the module object and
    always issues the reversal call first.  It returns [True] only when
    that call returned a result whose [RETURN] is absent or a single
    message structure not of type [E] or [A], and the commit call returned;
    the journal is then exactly reversal, commit.  In every other case, in
    particular when [RETURN] is a table (whatever its messages), the last
    remote call is the rollback, and [delete] returns [False] if the
    rollback call returned, while an exception of the rollback call is
    raised to the caller. *)
Theorem reversal_reports_success_only_after_commit
        (document_number : PyVal) (self : t) (w : W)
      (out : Res bool) (self' : t) (w' : W) (log' : Journal) :
  delete (logged conn) rt (now ∘ fst) year document_number (self, (w, []))
    = (out, (self', (w', log'))) ->
  self' = self /\
  exists ps reply,
    (out = Ok true /\
     exists result c,
       reply = Ok result /\
       log' = [ {| bapi := "BAPI_ACC_DOCUMENT_REV_POST"; params := ps;
                   reply := Ok result |};
                {| bapi := "BAPI_TRANSACTION_COMMIT";
                   params := mkdict [("WAIT", PStr "X")]; reply := Ok c |} ] /\
       match result !! "RETURN" with
       | None => True
       | Some (PDict d) => is_error_type (dict_get_or d "TYPE" (PStr "")) = false
       | Some _ => False
       end) \/
    (out <> Ok true /\
     exists between rb,
       log' = ({| bapi := "BAPI_ACC_DOCUMENT_REV_POST"; params := ps;
                  reply := reply |} :: between ++
               [ {| bapi := "BAPI_TRANSACTION_ROLLBACK"; params := mkdict [];
                    reply := rb |} ])%list /\
       (out = Ok false -> exists r, rb = Ok r) /\
       (forall e, rb = Raise e -> out = Raise e)).
Proof.
  intros Hrun. unfold delete in Hrun.
  apply try_except_inv in Hrun as [(b & Hb & ->)|(e & [s2 [w2 log2]] & Hb & Hh)].
  - apply bind_inv in Hb as [(s & [? [? ?]] & Hg & Hb)|(e & _ & [=])].
    unfold get in Hg. simpl in Hg. simplify_eq.
    apply bind_inv in Hb as [(stamp & [? [? ?]] & Hn & Hb)|(e & _ & [=])].
    apply on_world_inv in Hn as [-> Hn]. simplify_eq.
    apply bind_inv in Hb as [(res & [? [? ?]] & Hc & Hb)|(e & _ & [=])].
    apply on_world_inv in Hc as [-> Hc].
    pose proof Hc as Hc0.
    apply call_bapi_journal in Hc as (reply & -> & Hr).
    specialize (Hr res eq_refl). subst reply.
    apply bind_inv in Hb as [(msgs & [? [? ?]] & Hp & Hb)|(e & _ & [=])].
    apply lift_inv in Hp as [Hp ?]. simplify_eq.
    destruct (has_errors msgs) eqn:Hhe; [discriminate Hb|].
    apply bind_inv in Hb as [(u & [? [? ?]] & Hcm & Hb)|(e & _ & [=])].
    apply on_world_inv in Hcm as [-> Hcm]. unfold commit_transaction in Hcm.
    apply bind_inv in Hcm as [(r2 & [? ?] & Hc2 & Hr2)|(e & _ & [=])].
    unfold ret in Hr2. simplify_eq.
    apply call_bapi_journal in Hc2 as (c & -> & Hr2).
    specialize (Hr2 r2 eq_refl). subst c.
    unfold ret in Hb. simplify_eq.
    split; [reflexivity|]. eexists _, _. left. split; [reflexivity|].
    eexists _, _. split; [reflexivity|]. split; [reflexivity|].
    unfold dict_get_or in Hp. symmetry in Hp.
    destruct (res !! "RETURN") as [v|]; [|exact I]. cbn [default] in Hp.
    destruct v as [| | | | |d]; try discriminate Hp.
    unfold parse_sap_return_messages in Hp. simpl in Hp.
    destruct (is_error_type (dict_get_or d "TYPE" (PStr ""))); [|reflexivity].
    injection Hp as <-. cbn in Hhe. discriminate Hhe.
  - assert (Hpre : s2 = self /\ exists ps reply between,
              log2 = {| bapi := "BAPI_ACC_DOCUMENT_REV_POST"; params := ps;
                        reply := reply |} :: between).
    { apply bind_inv in Hb as [(s & [? [? ?]] & Hg & Hb)|(e1 & Hg & _)];
        unfold get in Hg; simpl in Hg; simplify_eq.
      apply bind_inv in Hb as [(stamp & [? [? ?]] & Hn & Hb)|(e1 & Hn & _)];
        apply on_world_inv in Hn as [? Hn]; simplify_eq.
      apply bind_inv in Hb as [(res & [? [? ?]] & Hc & Hb)|(e1 & Hc & _)];
        apply on_world_inv in Hc as [? Hc];
        apply call_bapi_journal in Hc as (reply & Hl & _); simpl in Hl; subst;
        [|split; [reflexivity|now eexists _, _, _]].
      apply bind_inv in Hb as [(msgs & [? [? ?]] & Hp & Hb)|(e1 & Hp & _)];
        apply lift_inv in Hp as [_ Hp]; simplify_eq;
        [|split; [reflexivity|now eexists _, _, _]].
      destruct (has_errors msgs);
        [unfold raise in Hb; simplify_eq; split; [reflexivity|now eexists _, _, _]|].
      apply bind_inv in Hb as [(u & [? [? ?]] & Hcm & Hb)|(e1 & Hcm & _)];
        apply on_world_inv in Hcm as [? Hcm]; unfold commit_transaction in Hcm;
        (apply bind_inv in Hcm as [(r2 & [? ?] & Hc2 & Hr2)|(e2 & Hc2 & ?)];
         [unfold ret in Hr2|]);
        apply call_bapi_journal in Hc2 as (c & Hl & _); simpl in Hl;
        simplify_eq.
      split; [reflexivity|now eexists _, _, _]. }
    destruct Hpre as (-> & ps & reply & between & ->).
    apply bind_inv in Hh as [(u & [? [? ?]] & Hrb & Hh)|(e1 & Hrb & ->)];
      apply on_world_inv in Hrb as [? Hrb]; unfold rollback_transaction in Hrb;
      (apply bind_inv in Hrb as [(r2 & [? ?] & Hc2 & Hr2)|(e2 & Hc2 & ?)];
       [unfold ret in Hr2|]);
      pose proof Hc2 as Hc3;
      apply call_bapi_journal in Hc2 as (rb & Hl & Hrbv); simpl in Hl;
      simplify_eq.
    + unfold ret in Hh. simplify_eq. split; [reflexivity|].
      exists ps, reply. right. split; [discriminate|].
      exists between, rb. split; [reflexivity|].
      split; [intros _; exists r2; now apply Hrbv|].
      intros e1 ->. specialize (Hrbv r2 eq_refl). discriminate Hrbv.
    + split; [reflexivity|].
      exists ps, reply. right. split; [discriminate|].
      exists between, rb. split; [reflexivity|].
      split; [discriminate|].
      intros e1 ->. unfold call_bapi in Hc3.
      apply bind_inv in Hc3 as [(res & [? ?] & Hf & Hk)|(e3 & Hf & ?)];
        cbn [logged call_function] in Hf;
        destruct (call_function conn _ _ _) as [? ?]; simplify_eq.
      2:{ match goal with
          | H : (_ ++ [_])%list = _ :: _ ++ [_] |- _ =>
              simpl in H; injection H as H;
              apply app_inj_tail in H as [_ H]; injection H as ->
          end. reflexivity. }
      exfalso. apply (f_equal snd) in Hk.
      destruct (res !! "RETURN") as [[| | | | |d]|];
        try destruct (is_error_type _);
        unfold raise, ret in Hk; cbn [snd] in Hk;
        injection Hk as _ Hk; simpl in Hk;
        apply app_inj_tail in Hk as [_ Hk]; discriminate Hk.
Qed.

End AccountsPayableMoreFacts.
(** ** Purchase orders: goods receipt and the validation of items *)
Section PurchaseOrderFacts.
Import BaseModule PurchaseOrder PurchaseOrderGoods.
Context {W : Type} (conn : Connector W) (rt : Runtime) (now : W -> Z).

(** X17: [create_goods_receipt] does not look at the messages of a
    [RETURN] table.  When the remote system answers the goods movement
    with a result whose [RETURN] is a table, even one that contains
    messages of type [E] or [A], and the commit call returns without a
    structure-form error, the goods receipt is committed and the
    [MATERIALDOCUMENT] entry of the result (or [''] if there is none) is
    returned; the journal is exactly goods movement, commit, and no
    rollback is issued. *)
Theorem goods_receipt_is_committed_despite_errors_in_return_table
        (po_number : PyVal) (items : list Dict) (w : W)
        (pstng_date : string) (gm_items : list PyVal)
        (result : Dict) (table : list PyVal) (w1 : W) (c : Dict) (w2 : W) :
  format_sap_date rt (PStr (strftime rt "%Y-%m-%d" (now w))) = Ok pstng_date ->
  gm_items_of po_number items = Ok gm_items ->
  call_function conn "BAPI_GOODSMVT_CREATE"
    (mkdict [("GOODSMVT_HEADER",
              PDict (mkdict [("PSTNG_DATE", PStr pstng_date);
                             ("DOC_DATE", PStr pstng_date)]));
             ("GOODSMVT_CODE", PDict (mkdict [("GM_CODE", PStr "01")]));
             ("GOODSMVT_ITEM", PList gm_items)]) w = (Ok result, w1) ->
  result !! "RETURN" = Some (PList table) ->
  call_bapi conn rt "BAPI_TRANSACTION_COMMIT" (mkdict [("WAIT", PStr "X")]) w1
    = (Ok c, w2) ->
  exists log',
    create_goods_receipt (logged conn) rt (now ∘ fst) po_number items (w, [])
    = (Ok (dict_get_or result "MATERIALDOCUMENT" (PStr "")), (w2, log')) /\
    map bapi log' = ["BAPI_GOODSMVT_CREATE"; "BAPI_TRANSACTION_COMMIT"].
Proof.
  intros Hdate Hitems Hcall Hret Hcommit.
  assert (Hlogged : forall name ps (w0 : W) (log : Journal) r w0',
    call_bapi conn rt name ps w0 = (r, w0') ->
    exists reply,
      call_bapi (logged conn) rt name ps (w0, log)
      = (r, (w0', (log ++ [{| bapi := name; params := ps; reply := reply |}])%list))).
  { intros name ps w0 log r w0'. unfold call_bapi, bind. cbn [logged call_function].
    destruct (call_function conn name ps w0) as [[res|e] w3].
    - destruct (res !! "RETURN") as [[| | | | |d]|];
        try destruct (is_error_type _); unfold raise, ret;
        intros [= <- <-]; eexists; reflexivity.
    - intros [= <- <-]. eexists; reflexivity. }
  destruct (Hlogged "BAPI_GOODSMVT_CREATE"
              (mkdict [("GOODSMVT_HEADER",
                        PDict (mkdict [("PSTNG_DATE", PStr pstng_date);
                                       ("DOC_DATE", PStr pstng_date)]));
                       ("GOODSMVT_CODE", PDict (mkdict [("GM_CODE", PStr "01")]));
                       ("GOODSMVT_ITEM", PList gm_items)]) w [] (Ok result) w1)
    as (reply1 & Hpost).
  { unfold call_bapi, bind. now rewrite Hcall, Hret. }
  destruct (Hlogged _ _ w1
              ([] ++ [{| bapi := "BAPI_GOODSMVT_CREATE";
                         params := mkdict
                           [("GOODSMVT_HEADER",
                             PDict (mkdict [("PSTNG_DATE", PStr pstng_date);
                                            ("DOC_DATE", PStr pstng_date)]));
                            ("GOODSMVT_CODE", PDict (mkdict [("GM_CODE", PStr "01")]));
                            ("GOODSMVT_ITEM", PList gm_items)];
                         reply := reply1 |}])%list _ _ Hcommit)
    as (reply2 & Hcm).
  eexists. unfold create_goods_receipt.
  unfold bind at 1. cbn [compose fst].
  unfold bind at 1, lift at 1. rewrite Hdate.
  unfold bind at 1. cbn [compose fst].
  unfold bind at 1, lift at 1. rewrite Hdate.
  unfold bind at 1, lift at 1. rewrite Hitems.
  unfold try_except. unfold bind at 1. rewrite Hpost.
  unfold commit_transaction. unfold bind at 1. unfold bind at 1.
  rewrite Hcm. unfold ret. split; [reflexivity|reflexivity].
Qed.

(** X18: the items [ProcureToPayWorkflow._post_goods_receipt] prepares are
    always acceptable to [create_goods_receipt]: whenever the workflow's
    loop builds its list (every material has [material], [plant] and
    [quantity]), the loop of [create_goods_receipt] finds every key it
    subscripts and yields one goods-movement item per material, each for
    the given purchase order. *)
Theorem prepared_receipt_items_have_every_key
        (po_number : PyVal) (materials gr_items : list Dict) :
  ProcureToPay.gr_items_of materials = Ok gr_items ->
  exists gm_items,
    gm_items_of po_number gr_items = Ok gm_items /\
    length gm_items = length materials /\
    Forall (fun gm => exists d, gm = PDict d /\
                                d !! "PO_NUMBER" = Some po_number /\
                                d !! "MOVE_TYPE" = Some (PStr "101"))
           gm_items.
Proof.
  revert gr_items.
  induction materials as [|item rest IH]; intros gr_items H.
  - injection H as <-. exists []. repeat split. constructor.
  - cbn [ProcureToPay.gr_items_of] in H.
    destruct (dict_item item "material") as [material|e]; [|discriminate H].
    destruct (dict_item item "plant") as [plant|e]; [|discriminate H].
    destruct (dict_item item "quantity") as [quantity|e]; [|discriminate H].
    destruct (ProcureToPay.gr_items_of rest) as [more|e]; [|discriminate H].
    injection H as <-.
    destruct (IH more eq_refl) as (gm & Hgm & Hlen & Hall).
    cbn [gm_items_of]. rewrite Hgm.
    eexists. split; [reflexivity|]. split; [cbn [length]; now rewrite Hlen|].
    constructor; [|exact Hall].
    eexists. split; [reflexivity|]. split; reflexivity.
Qed.

(** An item without [plant] stops the item loop of [create]. *)
Lemma build_items_needs_plant (today : string) (items : list PyVal) :
  forall idx,
    (exists d, In (PDict d) items /\ d !! "plant" = None) ->
    exists e, build_items rt today idx items = Raise e.
Proof.
  induction items as [|item rest IH]; intros idx (d & Hin & Hd).
  - destruct Hin.
  - cbn [build_items]. destruct Hin as [-> | Hin].
    + unfold dict_item at 2. rewrite Hd.
      destruct (dict_item d "material"); eauto.
    + destruct item as [| | | | |d0]; eauto.
      destruct (dict_item d0 "material"); eauto.
      destruct (dict_item d0 "plant"); eauto.
      destruct (dict_item d0 "quantity"); eauto.
      destruct (dict_item d0 "price"); eauto.
      destruct (format_sap_date rt _); eauto.
      destruct (IH (idx + 1) (ex_intro _ d (conj Hin Hd))) as (e & ->). eauto.
Qed.

(** X19: [validate_data] of a purchase order does not ask for the [plant]
    of an item, but [create] subscripts it.  For data that passes
    validation and has an item without [plant], [create] raises before
    any remote function call and leaves the module object as it was. *)
Theorem order_item_without_plant_fails_after_validation
        (data : Dict) (items : list PyVal) (self : t) (w : W) :
  validate_data rt data = Ok (true, []) ->
  dict_get data "items" = PList items ->
  (exists d, In (PDict d) items /\ d !! "plant" = None) ->
  exists e,
    create (logged conn) rt (now ∘ fst) data (self, (w, []))
    = (Raise e, (self, (w, []))).
Proof.
  intros Hvalid Hitems Hplant.
  assert (Hraw : dict_item data "items" = Ok (PList items)).
  { unfold dict_item. unfold dict_get in Hitems.
    destruct (data !! "items") as [v|]; simpl in Hitems;
      [now subst v|discriminate Hitems]. }
  unfold create. unfold bind at 1, lift at 1. rewrite Hvalid. cbn [negb].
  unfold bind at 1, get at 1. cbn [fst].
  unfold bind at 1, lift at 1.
  destruct (dict_item data "vendor") as [vendor|e]; [|eauto].
  unfold bind at 1, lift at 1.
  destruct (val_zfill 10 vendor) as [padded|e]; [|eauto].
  unfold bind at 1, on_world at 1. cbn [snd fst compose].
  unfold bind at 1, lift at 1.
  destruct (format_sap_date rt _) as [doc_date|e]; [|eauto].
  unfold bind at 1, lift at 1. rewrite Hraw.
  unfold bind at 1, lift at 1. cbn [py_iter].
  unfold bind at 1, lift at 1.
  destruct (build_items_needs_plant (strftime rt "%Y-%m-%d" (now w)) items 1
              Hplant) as (e & ->).
  eauto.
Qed.

End PurchaseOrderFacts.
(** ** Sales orders: the sold-to party *)
Section SalesOrderFacts.
Import BaseModule SalesOrder SalesOrderDocuments.
Context {W : Type} (conn : Connector W) (rt : Runtime) (now : W -> Z).

(** The posting call of [SalesOrder.create] is the first remote call it
    makes, and its [ORDER_PARTNERS] are the sold-to and the ship-to party,
    both with the customer number padded to ten digits. *)
Lemma sales_order_partners (data : Dict) (self : t) (w : W) (out : Res PyVal)
      (self' : t) (w' : W) (log' : Journal) (ps : Dict) (reply : Res Dict) :
  create (logged conn) rt (now ∘ fst) data (self, (w, [])) = (out, (self', (w', log'))) ->
  In {| bapi := "BAPI_SALESORDER_CREATEFROMDAT2"; params := ps; reply := reply |} log' ->
  exists c,
    data !! "customer" = Some (PStr c) /\
    ps !! "ORDER_PARTNERS" =
      Some (PList [PDict (mkdict [("PARTN_ROLE", PStr "AG");
                                  ("PARTN_NUMB", PStr (zfill 10 c))]);
                   PDict (mkdict [("PARTN_ROLE", PStr "WE");
                                  ("PARTN_NUMB", PStr (zfill 10 c))])]).
Proof.
  intros Hrun Hin. unfold create in Hrun.
  apply bind_inv in Hrun as [(chk & [? [? ?]] & Hv & Hrun)|(e & Hv & _)];
    apply on_world_inv in Hv as [? Hv]; apply sales_order_validate_journal in Hv;
    simplify_eq; [|destruct (in_nil Hin)].
  destruct chk as [is_valid errs]. destruct is_valid; cbn [negb] in Hrun;
    [|unfold raise in Hrun; simplify_eq; destruct (in_nil Hin)].
  apply bind_inv in Hrun as [(? & [? [? ?]] & Hi & Hrun)|(? & Hi & _)];
    unfold get in Hi; simpl in Hi; simplify_eq.
  apply bind_inv in Hrun as [(? & [? [? ?]] & Hi & Hrun)|(? & Hi & _)];
    apply on_world_inv in Hi as [? Hi]; simplify_eq.
  apply bind_inv in Hrun as [(? & [? [? ?]] & Hi & Hrun)|(? & Hi & _)];
    apply lift_inv in Hi as [_ Hi]; simplify_eq; [|destruct (in_nil Hin)].
  apply bind_inv in Hrun as [(customer & [? [? ?]] & Hcust & Hrun)|(? & Hi & _)];
    [apply lift_inv in Hcust as [Hcust Hi]
    |apply lift_inv in Hi as [_ Hi]]; simplify_eq; [|destruct (in_nil Hin)].
  apply bind_inv in Hrun as [(padded & [? [? ?]] & Hpad & Hrun)|(? & Hi & _)];
    [apply lift_inv in Hpad as [Hpad Hi]
    |apply lift_inv in Hi as [_ Hi]]; simplify_eq; [|destruct (in_nil Hin)].
  assert (Hc : exists c, data !! "customer" = Some (PStr c) /\ padded = zfill 10 c).
  { unfold dict_item in Hcust. destruct (data !! "customer") as [v|]; [|discriminate].
    injection Hcust as ->. destruct v; try discriminate Hpad.
    cbn [val_zfill] in Hpad. injection Hpad as ->. eauto. }
  destruct Hc as (c & Hc & ->). exists c. split; [exact Hc|].
  apply bind_inv in Hrun as [(? & [? [? ?]] & Hi & Hrun)|(? & Hi & _)];
    apply lift_inv in Hi as [_ Hi]; simplify_eq; [|destruct (in_nil Hin)].
  apply bind_inv in Hrun as [(? & [? [? ?]] & Hi & Hrun)|(? & Hi & _)];
    apply lift_inv in Hi as [_ Hi]; simplify_eq; [|destruct (in_nil Hin)].
  apply bind_inv in Hrun as [(built & [? [? ?]] & Hi & Hrun)|(? & Hi & _)];
    apply lift_inv in Hi as [_ Hi]; simplify_eq; [|destruct (in_nil Hin)].
  destruct built as [order_items order_schedules]. cbv zeta in Hrun.
  assert (Hfirst : exists reply0 more ps0,
    log' = {| bapi := "BAPI_SALESORDER_CREATEFROMDAT2";
              params := ps0; reply := reply0 |} :: more /\
    ps0 !! "ORDER_PARTNERS" =
      Some (PList [PDict (mkdict [("PARTN_ROLE", PStr "AG");
                                  ("PARTN_NUMB", PStr (zfill 10 c))]);
                   PDict (mkdict [("PARTN_ROLE", PStr "WE");
                                  ("PARTN_NUMB", PStr (zfill 10 c))])]) /\
    Forall (fun r => bapi r = "BAPI_TRANSACTION_COMMIT" \/
                     bapi r = "BAPI_TRANSACTION_ROLLBACK") more).
  { apply try_except_inv in Hrun as [(doc & Hb & ->)|(e & [s2 [w2 log2]] & Hb & Hh)].
    - apply bind_inv in Hb as [(res & [? [? ?]] & Hcall & Hb)|(e & _ & [=])].
      apply on_world_inv in Hcall as [-> Hcall].
      apply call_bapi_journal in Hcall as (reply0 & -> & _).
      apply bind_inv in Hb as [(msgs & [? [? ?]] & Hp & Hb)|(e & _ & [=])].
      apply lift_inv in Hp as [_ Hp]. simplify_eq.
      destruct (has_errors msgs); [discriminate Hb|].
      apply bind_inv in Hb as [(u & [? [? ?]] & Hcm & Hb)|(e & _ & [=])].
      apply on_world_inv in Hcm as [-> Hcm]. unfold commit_transaction in Hcm.
      apply bind_inv in Hcm as [(r2 & [? ?] & Hc2 & Hr2)|(e & _ & [=])].
      unfold ret in Hr2. simplify_eq.
      apply call_bapi_journal in Hc2 as (cr & -> & _).
      apply bind_inv in Hb as [(stamp & [? [? ?]] & Hn & Hb)|(e & _ & [=])].
      apply on_world_inv in Hn as [-> Hn]. simplify_eq.
      apply bind_inv in Hb as [(u2 & [? [? ?]] & Hm & Hb)|(e & _ & [=])].
      unfold modify in Hm. simpl in Hm. simplify_eq.
      unfold ret in Hb. simplify_eq.
      eexists _, _, _. split; [reflexivity|]. split; [reflexivity|].
      repeat constructor.
    - apply rollback_then_raise in Hh as (_ & _ & rb & ->).
      apply bind_inv in Hb as [(res & [? [? ?]] & Hcall & Hb)|(e1 & Hcall & _)];
        apply on_world_inv in Hcall as [? Hcall];
        apply call_bapi_journal in Hcall as (reply0 & Hl & _); simpl in Hl; subst;
        [|eexists _, _, _; split; [reflexivity|]; split; [reflexivity|];
         repeat constructor; now right].
      apply bind_inv in Hb as [(msgs & [? [? ?]] & Hp & Hb)|(e1 & Hp & _)];
        apply lift_inv in Hp as [_ Hp]; simplify_eq;
        [|eexists _, _, _; split; [reflexivity|]; split; [reflexivity|];
         repeat constructor; now right].
      destruct (has_errors msgs);
        [unfold raise in Hb; simplify_eq;
         eexists _, _, _; split; [reflexivity|]; split; [reflexivity|];
         repeat constructor; now right|].
      apply bind_inv in Hb as [(u & [? [? ?]] & Hcm & Hb)|(e1 & Hcm & _)];
        apply on_world_inv in Hcm as [? Hcm]; unfold commit_transaction in Hcm;
        (apply bind_inv in Hcm as [(r2 & [? ?] & Hc2 & Hr2)|(e2 & Hc2 & ?)];
         [unfold ret in Hr2|]);
        apply call_bapi_journal in Hc2 as (cr & Hl & _); simpl in Hl;
        simplify_eq.
      eexists _, _, _. split; [reflexivity|]. split; [reflexivity|].
      constructor; [now left|]. constructor; [now right|constructor]. }
  destruct Hfirst as (reply0 & more & ps0 & -> & Hps & Hmore).
  destruct Hin as [Heq|Hin].
  - injection Heq as <- _. exact Hps.
  - rewrite List.Forall_forall in Hmore. apply Hmore in Hin. simpl in Hin.
    destruct Hin as [Hin|Hin]; discriminate Hin.
Qed.

(** X20: the sold-to party survives the round trip.  Whatever
    [SalesOrder.create] sends as [ORDER_PARTNERS] in its posting call,
    when a remote system displays a sales order with these partners,
    [SalesOrder.read] reports as [customer] the customer number of the
    input data padded with zeros to ten digits. *)
Theorem sold_to_party_is_read_back_padded
        {W2 : Type} (conn2 : Connector W2)
        (data : Dict) (self : t) (w : W) (out : Res PyVal)
        (self' : t) (w' : W) (log' : Journal) (ps : Dict) (reply : Res Dict)
        (sales_order : PyVal) (header : Dict) (items : PyVal) (w2 w3 : W2) :
  create (logged conn) rt (now ∘ fst) data (self, (w, [])) = (out, (self', (w', log'))) ->
  In {| bapi := "BAPI_SALESORDER_CREATEFROMDAT2"; params := ps; reply := reply |} log' ->
  call_function conn2 "BAPI_SALESORDER_GETDETAIL"
                (mkdict [("SALESDOCUMENT", sales_order)]) w2
    = (Ok (mkdict [("ORDER_HEADER_IN", PDict header);
                   ("ORDER_ITEMS_IN", items);
                   ("ORDER_PARTNERS", dict_get ps "ORDER_PARTNERS")]), w3) ->
  exists c order,
    data !! "customer" = Some (PStr c) /\
    read conn2 rt sales_order w2 = (Ok order, w3) /\
    order !! "customer" = Some (PStr (zfill 10 c)).
Proof.
  intros Hrun Hin Hdisplay.
  destruct (sales_order_partners _ _ _ _ _ _ _ _ _ Hrun Hin) as (c & Hc & Hps).
  exists c. unfold dict_get in Hdisplay. rewrite Hps in Hdisplay.
  cbn [default] in Hdisplay.
  eexists. split; [exact Hc|].
  unfold read, bind, call_bapi, bind. rewrite Hdisplay.
  split; [reflexivity|reflexivity].
Qed.

End SalesOrderFacts.
(** ** Invoice workflow: what a run calls, and in which order *)
Section InvoiceWorkflowTraceFacts.
Import BaseModule InvoiceWorkflow InvoiceWorkflowTraces.
Context {W : Type} (env : Env W) (rt : Runtime).

Lemma noting_inv {A} (c : Call) (m : M W A) w tr r w' tr' :
  noting c m (w, tr) = (r, (w', tr')) -> tr' = (tr ++ [c])%list /\ m w = (r, w').
Proof.
  unfold noting. destruct (m w) as [r0 w0]. now intros [= <- <- <-].
Qed.

Lemma quiet_nil : quiet [].
Proof. split; intros []. Qed.

Lemma quiet_app l1 l2 : quiet l1 -> quiet l2 -> quiet (l1 ++ l2).
Proof.
  intros [H1 H2] [H3 H4]. split; intros H; apply in_app_or in H; tauto.
Qed.

Lemma quiet_one c : c <> CNotify -> c <> CCreate -> quiet [c].
Proof. intros H1 H2. split; intros [H|[]]; congruence. Qed.

Lemma validate_trace data (w : W) tr r w' tr' :
  _validate_invoice_data (traced env) rt data (w, tr) = (r, (w', tr')) ->
  exists suffix, tr' = (tr ++ suffix)%list /\ quiet suffix.
Proof.
  destruct (_validate_invoice_data env rt data w) as [r0 w0] eqn:E.
  destruct (validate_traced env rt data w tr r0 w0 E) as (suffix & Ht & Hs).
  rewrite Ht. intros [= <- <- <-]. exists suffix. split; [reflexivity|].
  destruct Hs as [-> | ->]; [apply quiet_nil|now apply quiet_one].
Qed.

Lemma match_with_po_trace invoice_data po_number (w : W) tr r w' tr' :
  _match_with_po (traced env) rt invoice_data po_number (w, tr) = (r, (w', tr')) ->
  tr' = (tr ++ [CPoRead])%list /\ exists m, r = Ok m.
Proof.
  unfold _match_with_po, try_except, bind. cbn [traced mm_po_read].
  unfold noting. destruct (mm_po_read env po_number w) as [[po|e] w1];
    [|intros [= <- <- <-]; eauto].
  unfold lift. destruct (po_total po) as [total|e]; [|intros [= <- <- <-]; eauto].
  destruct (py_float rt _) as [amount|e]; [|intros [= <- <- <-]; eauto].
  destruct (variance_percent total amount) as [v|e]; intros [= <- <- <-]; eauto.
Qed.

Lemma three_way_match_trace invoice_data po_match (w : W) tr r w' tr' :
  _three_way_match (traced env) rt invoice_data po_match (w, tr) = (r, (w', tr')) ->
  tr' = (tr ++ [CReadTable])%list /\ exists m, r = Ok m.
Proof.
  unfold _three_way_match, try_except, bind. cbn [traced self_read_table].
  unfold noting. destruct (self_read_table env _ _ _ w) as [[docs|e] w1];
    [|intros [= <- <- <-]; eauto].
  destruct docs as [|doc docs]; [intros [= <- <- <-]; eauto|].
  unfold lift. destruct (fold_right _ _ _) as [numbers|e];
    intros [= <- <- <-]; eauto.
Qed.

Lemma requires_approval_trace invoice_data (w : W) tr r w' tr' :
  _requires_approval (traced env) rt invoice_data (w, tr) = (r, (w', tr')) ->
  exists suffix, tr' = (tr ++ suffix)%list /\ quiet suffix.
Proof.
  unfold _requires_approval, bind, lift.
  destruct (py_float rt _) as [amount|e].
  - cbn [traced fi_ap_config_get]. unfold noting.
    destruct (fi_ap_config_get env _ _ w) as [[threshold|e] w1].
    + destruct (as_number threshold); intros [= <- <- <-];
        exists [CConfig]; (split; [reflexivity|now apply quiet_one]).
    + intros [= <- <- <-]. exists [CConfig].
      split; [reflexivity|now apply quiet_one].
  - intros [= <- <- <-]. exists []. rewrite app_nil_r.
    split; [reflexivity|apply quiet_nil].
Qed.

Lemma request_approval_trace invoice_data match_data (w : W) tr r w' tr' :
  _request_approval (traced env) rt invoice_data match_data (w, tr)
    = (r, (w', tr')) ->
  tr' = (tr ++ [CNotify])%list /\
  forall approval, r = Ok approval ->
                   approval !! "status" = Some (PStr "pending").
Proof.
  unfold _request_approval, bind. cbn [traced _send_approval_notification].
  unfold noting.
  destruct (_send_approval_notification env _ _ w) as [[u|e] w1];
    intros [= <- <- <-]; (split; [reflexivity|]).
  - intros approval [= <-]. reflexivity.
  - discriminate.
Qed.

Lemma post_invoice_trace invoice_data (w : W) tr r w' tr' :
  _post_invoice_to_sap (traced env) rt invoice_data (w, tr) = (r, (w', tr')) ->
  exists suffix, tr' = (tr ++ suffix)%list /\ ~ In CNotify suffix.
Proof.
  unfold _post_invoice_to_sap, bind, lift.
  destruct (dict_item invoice_data "vendor_code");
    [|intros [= <- <- <-]; exists []; rewrite app_nil_r; split; [reflexivity|intros []]].
  destruct (dict_item invoice_data "invoice_number");
    [|intros [= <- <- <-]; exists []; rewrite app_nil_r; split; [reflexivity|intros []]].
  destruct (dict_item invoice_data "date");
    [|intros [= <- <- <-]; exists []; rewrite app_nil_r; split; [reflexivity|intros []]].
  destruct (dict_item invoice_data "amount");
    [|intros [= <- <- <-]; exists []; rewrite app_nil_r; split; [reflexivity|intros []]].
  destruct (py_float rt _);
    [|intros [= <- <- <-]; exists []; rewrite app_nil_r; split; [reflexivity|intros []]].
  cbn [traced fi_ap_create]. unfold noting.
  destruct (fi_ap_create env _ _) as [r0 w0]. intros [= <- <- <-].
  exists [CCreate]. split; [reflexivity|]. intros [H|[]]; discriminate H.
Qed.

Ltac modify_step H :=
  let Hm := fresh "Hm" in
  apply bind_inv in H as [(? & [? [? ?]] & Hm & H)|(? & Hm & _)];
  unfold modify in Hm; simpl in Hm; simplify_eq.

Lemma approve_and_post_outcome (fr : Frame) (w : W) tr out fr' w' tr' :
  approve_and_post (traced env) rt (fr, (w, tr)) = (out, (fr', (w', tr'))) ->
  sap_document (result fr) = None ->
  stage_outcome tr tr' out fr'.
Proof.
  intros H Hnone. unfold approve_and_post in H.
  apply bind_inv in H as [(? & [? [? ?]] & Hg & H)|(? & Hg & _)];
    unfold get in Hg; simpl in Hg; simplify_eq.
  apply bind_inv in H as [(req & [? [? ?]] & Hr & H)|(e & Hr & ->)];
    apply on_world_inv in Hr as [-> Hr];
    apply requires_approval_trace in Hr as (s1 & -> & Hq1).
  2:{ exists s1, []. rewrite app_nil_r. split; [reflexivity|].
      split; [exact Hq1|]. left. intros []. }
  apply bind_inv in H as [(pending & [fr1 [w1 tr1]] & Hp & H)|(e & Hp & ->)].
  - (* the approval block returned *)
    destruct req.
    + apply bind_inv in Hp as [(approval & [? [? ?]] & Ha & Hp)|(e & _ & [=])].
      apply on_world_inv in Ha as [-> Ha].
      apply request_approval_trace in Ha as (-> & Hst).
      specialize (Hst approval eq_refl).
      modify_step Hp.
      apply bind_inv in Hp as [(st & [? [? ?]] & Hs & Hp)|(e & _ & [=])].
      apply lift_inv in Hs as [Hs ?]. simplify_eq.
      unfold dict_item in Hs. rewrite Hst in Hs. injection Hs as ->.
      cbn [is_str String.eqb negb] in Hp.
      change (negb (is_str (PStr "pending") "approved")) with true in Hp.
      cbv iota in Hp.
      modify_step Hp. unfold ret in Hp. simplify_eq.
      unfold ret in H. simplify_eq.
      exists s1, [CNotify]. rewrite <- app_assoc.
      split; [reflexivity|]. split; [exact Hq1|]. right.
      split; [reflexivity|]. split; [exact Hnone|].
      intros _. right. right. reflexivity.
    + unfold ret in Hp. simplify_eq. cbv iota in H.
      apply bind_inv in H as [(? & [? [? ?]] & Hg & H)|(? & Hg & _)];
        unfold get in Hg; simpl in Hg; simplify_eq.
      apply bind_inv in H as [(doc & [? [? ?]] & Hpost & H)|(e & Hpost & ->)];
        apply on_world_inv in Hpost as [-> Hpost];
        apply post_invoice_trace in Hpost as (s2 & -> & Hn2).
      2:{ exists s1, s2. rewrite <- app_assoc. split; [reflexivity|].
          split; [exact Hq1|]. now left. }
      modify_step H. unfold modify in H. simpl in H. simplify_eq.
      exists s1, s2. rewrite <- app_assoc. split; [reflexivity|].
      split; [exact Hq1|]. now left.
  - (* the approval block raised *)
    destruct req; [|unfold ret in Hp; discriminate Hp].
    apply bind_inv in Hp as [(approval & [? [? ?]] & Ha & Hp)|(e1 & Ha & ?)];
      apply on_world_inv in Ha as [? Ha];
      apply request_approval_trace in Ha as (Ht & Hst); subst.
    + specialize (Hst approval eq_refl).
      modify_step Hp.
      apply bind_inv in Hp as [(st & [? [? ?]] & Hs & Hp)|(e2 & Hs & ?)];
        apply lift_inv in Hs as [Hs ?]; simplify_eq.
      * unfold dict_item in Hs. rewrite Hst in Hs. injection Hs as ->.
        change (negb (is_str (PStr "pending") "approved")) with true in Hp.
        cbv iota in Hp. modify_step Hp; unfold ret in Hp; discriminate Hp.
      * unfold dict_item in Hs. rewrite Hst in Hs. discriminate Hs.
    + exists s1, [CNotify]. rewrite <- app_assoc.
      split; [reflexivity|]. split; [exact Hq1|]. right.
      split; [reflexivity|]. split; [exact Hnone|]. discriminate.
Qed.


Lemma stage_outcome_extend (tr p tr' : list Call) out fr' :
  quiet p -> stage_outcome (tr ++ p) tr' out fr' -> stage_outcome tr tr' out fr'.
Proof.
  intros Hp (q & last & -> & Hq & Hlast).
  exists (p ++ q)%list, last. rewrite <- !app_assoc.
  split; [reflexivity|]. split; [now apply quiet_app|exact Hlast].
Qed.

(** A mismatch is reported to the approver and ends the stage. *)
Lemma mismatch_outcome (st : string) (prefix : string) (m : Dict)
      (fr0 : Frame) (data : Dict) (w : W) tr out fr' w' tr' :
  (modify (with_result (set_status st)) ;;;
   reason <- lift (dict_item m "reason") ;;
   modify (with_result (add_errors [prefix ++ py_str rt reason])) ;;;
   on_world (_request_approval (traced env) rt data (Some m)) ;;;
   ret tt)%py (fr0, (w, tr)) = (out, (fr', (w', tr'))) ->
  sap_document (result fr0) = None ->
  st = "po_mismatch" \/ st = "three_way_mismatch" ->
  stage_outcome tr tr' out fr'.
Proof.
  intros H Hnone Hst.
  modify_step H.
  apply bind_inv in H as [(reason & [? [? ?]] & Hr & H)|(e & Hr & ->)];
    apply lift_inv in Hr as [_ Hr]; simplify_eq.
  2:{ exists [], []. rewrite !app_nil_r. split; [reflexivity|].
      split; [apply quiet_nil|]. left. intros []. }
  modify_step H.
  apply bind_inv in H as [(a & [? [? ?]] & Ha & H)|(e & Ha & ->)];
    apply on_world_inv in Ha as [-> Ha];
    apply request_approval_trace in Ha as (-> & _).
  - unfold ret in H. simplify_eq.
    exists [], [CNotify]. split; [reflexivity|]. split; [apply quiet_nil|].
    right. split; [reflexivity|]. split; [exact Hnone|].
    intros _. simpl. destruct Hst as [-> | ->]; auto.
  - exists [], [CNotify]. split; [reflexivity|]. split; [apply quiet_nil|].
    right. split; [reflexivity|]. split; [exact Hnone|]. discriminate.
Qed.

Lemma resolve_match_post_outcome (fr : Frame) (w : W) tr out fr' w' tr' :
  resolve_match_post (traced env) rt (fr, (w, tr)) = (out, (fr', (w', tr'))) ->
  sap_document (result fr) = None ->
  stage_outcome tr tr' out fr'.
Proof.
  intros H Hnone. unfold resolve_match_post in H.
  apply bind_inv in H as [(? & [? [? ?]] & Hg & H)|(? & Hg & _)];
    unfold get in Hg; simpl in Hg; simplify_eq.
  apply bind_inv in H as [(vendor & [? [? ?]] & Hv & H)|(e & Hv & ->)];
    apply on_world_inv in Hv as [-> Hv];
    cbn [traced fi_ap_get_or_create_vendor] in Hv;
    apply noting_inv in Hv as [-> _].
  2:{ exists [CVendor], []. rewrite app_nil_r. split; [reflexivity|].
      split; [now apply quiet_one|]. left. intros []. }
  apply stage_outcome_extend with (p := [CVendor]); [now apply quiet_one|].
  modify_step H.
  apply bind_inv in H as [(? & [? [? ?]] & Hg & H)|(? & Hg & _)];
    unfold get in Hg; simpl in Hg; simplify_eq.
  match type of H with
  | (if truthy ?po then _ else _) _ = _ => destruct (truthy po)
  end.
  2:{ apply approve_and_post_outcome in H; [exact H|exact Hnone]. }
  apply bind_inv in H as [(po_match & [? [? ?]] & Hm & H)|(e & Hm & ->)];
    apply on_world_inv in Hm as [-> Hm];
    apply match_with_po_trace in Hm as (-> & m & Hok); [|discriminate Hok].
  apply stage_outcome_extend with (p := [CPoRead]); [now apply quiet_one|].
  modify_step H.
  apply bind_inv in H as [(matched & [? [? ?]] & Hi & H)|(e & Hi & ->)];
    apply lift_inv in Hi as [_ Hi]; simplify_eq.
  2:{ exists [], []. rewrite !app_nil_r. split; [reflexivity|].
      split; [apply quiet_nil|]. left. intros []. }
  destruct (negb (truthy matched)).
  { eapply mismatch_outcome in H; [exact H|exact Hnone|now left]. }
  apply bind_inv in H as [(three_way & [? [? ?]] & Hm & H)|(e & Hm & ->)];
    apply on_world_inv in Hm as [-> Hm];
    apply three_way_match_trace in Hm as (-> & m3 & Hok); [|discriminate Hok].
  apply stage_outcome_extend with (p := [CReadTable]); [now apply quiet_one|].
  modify_step H.
  apply bind_inv in H as [(matched3 & [? [? ?]] & Hi & H)|(e & Hi & ->)];
    apply lift_inv in Hi as [_ Hi]; simplify_eq.
  2:{ exists [], []. rewrite !app_nil_r. split; [reflexivity|].
      split; [apply quiet_nil|]. left. intros []. }
  destruct (negb (truthy matched3)).
  { eapply mismatch_outcome in H; [exact H|exact Hnone|now right]. }
  apply approve_and_post_outcome in H; [exact H|exact Hnone].
Qed.

Lemma process_steps_outcome file_path metadata (w : W) out fr' w' tr' :
  process_steps (traced env) rt file_path metadata
    ({| result := initial_result file_path; invoice_data := ∅ |}, (w, []))
    = (out, (fr', (w', tr'))) ->
  stage_outcome [] tr' out fr'.
Proof.
  intros H. unfold process_steps in H.
  apply bind_inv in H as [(text & [? [? ?]] & Ht & H)|(e & Ht & ->)];
    apply on_world_inv in Ht as [-> Ht];
    cbn [traced extract_text_from_image] in Ht;
    apply noting_inv in Ht as [-> _].
  2:{ exists [CExtractText], []. split; [reflexivity|].
      split; [now apply quiet_one|]. left. intros []. }
  apply stage_outcome_extend with (p := [CExtractText]); [now apply quiet_one|].
  apply bind_inv in H as [(extracted & [? [? ?]] & Hf & H)|(e & Hf & ->)];
    apply on_world_inv in Hf as [-> Hf];
    cbn [traced extract_invoice_fields] in Hf;
    apply noting_inv in Hf as [-> _].
  2:{ exists [CExtractFields], []. rewrite app_nil_r. split; [reflexivity|].
      split; [now apply quiet_one|]. left. intros []. }
  apply stage_outcome_extend with (p := [CExtractFields]); [now apply quiet_one|].
  modify_step H. modify_step H.
  apply bind_inv in H as [(? & [? [? ?]] & Hg & H)|(? & Hg & _)];
    unfold get in Hg; simpl in Hg; simplify_eq.
  apply bind_inv in H as [(checked & [? [? ?]] & Hv & H)|(e & Hv & ->)];
    apply on_world_inv in Hv as [-> Hv];
    apply validate_trace in Hv as (sv & -> & Hqv).
  2:{ exists sv, []. rewrite app_nil_r. split; [reflexivity|].
      split; [exact Hqv|]. left. intros []. }
  apply stage_outcome_extend with (p := sv); [exact Hqv|].
  destruct checked as [valid validation_errors].
  modify_step H.
  destruct valid; cbn [negb] in H.
  - apply resolve_match_post_outcome in H; [exact H|reflexivity].
  - modify_step H. modify_step H.
    apply on_world_inv in H as [-> H].
    cbn [traced _send_to_review_queue] in H.
    apply noting_inv in H as [-> _].
    exists [CReviewQueue], []. rewrite app_nil_r. split; [reflexivity|].
    split; [now apply quiet_one|]. left. intros [].
Qed.

(** X21: in every run of [process_invoice_file], asking for approval and
    posting exclude each other.  If the approval notification was sent at
    any point of the run (after a purchase-order mismatch, after a three-way
    mismatch, or because the amount needs approval), then [fi_ap.create]
    was not called, the result holds no SAP document, and its status is
    [po_mismatch], [three_way_mismatch], [pending_approval] or [failed].
    In particular an invoice that needs approval is never posted by the
    run that asks for the approval, since [_request_approval] always
    answers [pending]. *)
Theorem approval_request_excludes_posting
        (file_path : string) (metadata : option Dict) (w : W)
        (r : Result) (w' : W) (tr : list Call) :
  process_invoice_file (traced env) rt file_path metadata (w, [])
    = (Ok r, (w', tr)) ->
  In CNotify tr ->
  ~ In CCreate tr /\
  sap_document r = None /\
  (status r = "po_mismatch" \/ status r = "three_way_mismatch" \/
   status r = "pending_approval" \/ status r = "failed").
Proof.
  unfold process_invoice_file. intros H Hnotify.
  destruct (try_except _ _ _) as [out [fr [w1 tr1]]] eqn:Hrun.
  injection H as <- <- <-.
  apply try_except_inv in Hrun as [(u & Hsteps & ->)|(e & [fr2 [w2 tr2]] & Hsteps & Hh)].
  - apply process_steps_outcome in Hsteps as (q & last & Htr & Hq & Hlast).
    cbn [app] in Htr. rewrite Htr in Hnotify |- *. clear Htr.
    destruct Hlast as [Hno|(-> & Hdoc & Hst)].
    + exfalso. apply in_app_or in Hnotify as [Hn|Hn]; [exact (proj1 Hq Hn)|exact (Hno Hn)].
    + split.
      * intros Hc. apply in_app_or in Hc as [Hc|[Hc|[]]];
          [exact (proj2 Hq Hc)|discriminate Hc].
      * split; [exact Hdoc|]. destruct u. specialize (Hst eq_refl). tauto.
  - apply process_steps_outcome in Hsteps as (q & last & Htr & Hq & Hlast).
    cbn [app] in Htr. subst tr2.
    modify_step Hh. unfold modify in Hh. simpl in Hh.
    injection Hh as _ <- _ <-.
    destruct Hlast as [Hno|(-> & Hdoc & _)].
    + exfalso. apply in_app_or in Hnotify as [Hn|Hn]; [exact (proj1 Hq Hn)|exact (Hno Hn)].
    + split.
      * intros Hc. apply in_app_or in Hc as [Hc|[Hc|[]]];
          [exact (proj2 Hq Hc)|discriminate Hc].
      * split; [exact Hdoc|]. simpl. auto.
Qed.

End InvoiceWorkflowTraceFacts.
(** ** Invoice workflow: validation and matching *)
Section InvoiceWorkflowCheckFacts.
Import BaseModule InvoiceWorkflow.
Context {W : Type} (env : Env W) (rt : Runtime).



(** X23: [_match_with_po] and [_three_way_match] never raise: whatever
    their collaborators do, they return a dictionary that has a boolean
    [is_match] and a text [reason], the two entries [process_invoice_file]
    subscripts. *)
Theorem match_reports_always_carry_verdict_and_reason
        (invoice_data po_match : Dict) (po_number : PyVal) (w : W) :
  (exists m w' b reason,
     _match_with_po env rt invoice_data po_number w = (Ok m, w') /\
     dict_item m "is_match" = Ok (PBool b) /\
     dict_item m "reason" = Ok (PStr reason)) /\
  (exists m w' b reason,
     _three_way_match env rt invoice_data po_match w = (Ok m, w') /\
     dict_item m "is_match" = Ok (PBool b) /\
     dict_item m "reason" = Ok (PStr reason)).
Proof.
  split.
  - unfold _match_with_po, try_except, bind, lift, ret.
    destruct (mm_po_read env po_number w) as [[po|e] w1];
      [|do 4 eexists; repeat split; reflexivity].
    destruct (po_total po) as [total|e];
      [|do 4 eexists; repeat split; reflexivity].
    destruct (py_float rt _) as [amount|e];
      [|do 4 eexists; repeat split; reflexivity].
    destruct (variance_percent total amount) as [v|e];
      do 4 eexists; repeat split; reflexivity.
  - unfold _three_way_match, try_except, bind, lift, ret.
    destruct (self_read_table env _ _ _ w) as [[docs|e] w1];
      [|do 4 eexists; repeat split; reflexivity].
    destruct docs as [|doc docs]; [do 4 eexists; repeat split; reflexivity|].
    destruct (fold_right _ _ _) as [numbers|e];
      do 4 eexists; repeat split; reflexivity.
Qed.

(** X24: for a purchase order whose items sum to zero (an order without
    items, for instance) [_match_with_po] divides by zero; the exception
    is caught, and the result is a mismatch whose reason starts with
    ["PO lookup failed: "], whatever the invoice amount is. *)
Theorem order_without_value_never_matches
        (invoice_data : Dict) (po_number : PyVal) (w : W)
        (po_data : Dict) (w1 : W) (total : Q) :
  mm_po_read env po_number w = (Ok po_data, w1) ->
  po_total po_data = Ok total ->
  (total == 0)%Q ->
  exists m,
    _match_with_po env rt invoice_data po_number w = (Ok m, w1) /\
    m !! "is_match" = Some (PBool false) /\
    exists e, m !! "reason" = Some (PStr ("PO lookup failed: " ++ exn_str e)).
Proof.
  intros Hread Htotal Hz.
  unfold _match_with_po, try_except, bind, lift, ret. rewrite Hread, Htotal.
  destruct (py_float rt _) as [amount|e].
  - unfold variance_percent. apply Qeq_bool_iff in Hz. rewrite Hz.
    eexists. split; [reflexivity|]. split; [reflexivity|].
    eexists. reflexivity.
  - eexists. split; [reflexivity|]. split; [reflexivity|].
    eexists. reflexivity.
Qed.

End InvoiceWorkflowCheckFacts.
(** ** Procure-to-pay: the summary and the status report *)
Section ProcureToPaySummaryFacts.
Import BaseModule ProcureToPay ProcureToPayStatus.
Context {W : Type} (env : Env W) (rt : Runtime).

Lemma classify_returns (req : ProcureToPayRequest) (w : W) :
  exists cls w', _classify_request env req w = (Ok cls, w').
Proof.
  unfold _classify_request, try_except, bind, lift, ret; simpl.
  destruct (classifier_predict env _ w) as [[p|e] w1]; simpl; [|eauto].
  destruct (dict_item p "process_type"); simpl; [|eauto].
  destruct (dict_item p "confidence") as [c|]; simpl; [|eauto].
  destruct (as_number c); simpl; [|eauto].
  destruct (dict_item p "recommended_action"); simpl; [|eauto].
  destruct (dict_item p "estimated_time"); simpl; eauto.
Qed.

Ltac step_document :=
  cbn [steps_completed s_documents summary with_summary set_status add_step
       set_document add_error set_classification set_self_status
       set_self_document app];
  first
    [ split; [ intros _; solve [simplify_map_eq; try (eexists; reflexivity)]
             | intros _; simpl; auto 10 ]
    | split; [ intros Hin; simpl in Hin; exfalso; intuition discriminate
             | intros [x Hx]; exfalso; simplify_map_eq ] ].

Ltac settle :=
  do 3 eexists; split; [reflexivity|];
  split; [repeat (constructor; [step_document|]); constructor|];
  split;
  [ cbn; unfold all_steps;
    try match goal with H : _should_auto_pay _ = _ |- _ => rewrite H end;
    first
      [ left; repeat split; reflexivity
      | right; left; repeat split; reflexivity
      | right; right; split; [reflexivity|]; split; [reflexivity|];
        split; [|eexists; reflexivity];
        try destruct (_should_auto_pay _); eexists; (split; [|reflexivity]); discriminate ]
  | cbn; split; [now rewrite ?lookup_insert_ne by discriminate|];
    split;
    [ intros k v Hk Hl;
      repeat (apply lookup_insert_Some in Hl as [[<- <-]|[? Hl]];
              [simplify_map_eq; reflexivity|]);
      simplify_map_eq
    | intros k Hk; rewrite ?lookup_insert_is_Some'; auto 10 ] ].

(** Every run of [execute] ends settled. *)
Lemma execute_settles (req : ProcureToPayRequest) (this : t) (w : W) :
  exists sm this' w',
    execute env rt req (this, w) = (Ok sm, (this', w')) /\
    settled req this sm this'.
Proof.
  destruct (classify_returns req w) as (cls & w0 & Hcls).
  unfold settled, execute, try_except, execute_steps.
  unfold bind at 1. unfold on_world at 1. cbn [fst snd]. rewrite Hcls.
  unfold bind at 1. unfold modify at 1. cbn [fst snd].
  unfold bind at 1. unfold _create_purchase_order at 1.
  unfold bind at 1. unfold on_world at 1. cbn [fst snd].
  destruct (mm_po_create env (po_data_of req) w0) as [[po|e] w1].
  2:{ settle. }
  unfold _post_goods_receipt, _post_invoice, _process_payment,
    bind, modify, on_world, lift, ret; cbn [fst snd].
  destruct (gr_items_of (materials req)) as [gr_items|e];
    cbn [fst snd]; [|settle].
  destruct (mm_po_create_goods_receipt env po gr_items w1) as [[md|e] w2];
    cbn [fst snd]; [|settle].
  destruct (_verify_invoice_with_ai env req po w2) as [[[|]|e] w3];
    cbn [fst snd negb]; [|settle|settle].
  destruct (fi_ap_create env _ w3) as [[inv|e] w4]; cbn [fst snd]; [|settle].
  destruct (_should_auto_pay req) eqn:Hpay; cbn [fst snd].
  - destruct (fi_ap_process_payment env _ _ _ w4) as [[pay|e] w5]; cbn [fst snd].
    + settle.
    + settle.
  - settle.
Qed.

(** X25: [execute] never raises, and its summary is consistent with what
    was done.  A step is listed in [steps_completed] exactly when the
    summary holds the step's document.  The status is [completed] (all
    steps taken, payment included exactly when [_should_auto_pay] holds,
    no error, workflow status [COMPLETED]), or [requires_review] (exactly
    purchase order and goods receipt done, the verification message as the
    only error, and the workflow object left in status [GOODS_RECEIVED]),
    or [failed] (a proper initial part of the steps done, the text of the
    exception as the only error, workflow status [FAILED]). *)
Theorem execute_summary_matches_the_steps_taken
        (req : ProcureToPayRequest) (this : t) (w : W) :
  exists sm this' w',
    execute env rt req (this, w) = (Ok sm, (this', w')) /\
    Forall (fun '(step, key) =>
              In step (steps_completed sm) <-> is_Some (s_documents sm !! key))
           step_documents /\
    ((s_status sm = "completed" /\ status this' = COMPLETED /\
      steps_completed sm = all_steps req /\ s_errors sm = []) \/
     (s_status sm = "requires_review" /\ status this' = GOODS_RECEIVED /\
      steps_completed sm = ["po_created"; "goods_received"] /\
      s_errors sm = ["Invoice verification failed - requires manual review"]) \/
     (s_status sm = "failed" /\ status this' = FAILED /\
      (exists rest, rest <> [] /\ (steps_completed sm ++ rest)%list = all_steps req) /\
      exists e, s_errors sm = [exn_str e])).
Proof.
  destruct (execute_settles req this w) as (sm & this' & w' & Hrun & H1 & H2 & _).
  now exists sm, this', w'.
Qed.

(** X26: what [get_workflow_status] reports after a run of [execute].
    Every document of the summary other than the payment document is in
    the reported documents; the payment document never is (the entry
    [payment_document] is as it was before the run); and no document of
    an earlier run is dropped, since [execute] does not reset
    [self.documents]. *)
Theorem status_report_never_shows_the_payment_document
        (req : ProcureToPayRequest) (this : t) (w : W) :
  exists sm this' w',
    execute env rt req (this, w) = (Ok sm, (this', w')) /\
    let report := get_workflow_status this' in
    r_documents report !! "payment_document" = documents this !! "payment_document" /\
    (forall k v, k <> "payment_document" -> s_documents sm !! k = Some v ->
                 r_documents report !! k = Some v) /\
    (forall k, is_Some (documents this !! k) -> is_Some (r_documents report !! k)).
Proof.
  destruct (execute_settles req this w) as (sm & this' & w' & Hrun & _ & _ & H).
  now exists sm, this', w'.
Qed.

End ProcureToPaySummaryFacts.
(** ** Procure-to-pay: invoice verification *)
Section InvoiceVerificationFacts.
Import BaseModule ProcureToPay.
Context {W : Type} (env : Env W) (rt : Runtime).



(** X28: a purchase order without value is not checked at all.  When
    the total of the order's items is zero or negative (an order without
    items, for instance), [_verify_invoice_with_ai] passes whatever the
    invoiced amount is, and the anomaly detector is not consulted: the
    only collaborator called is the purchase-order display. *)
Theorem order_without_value_passes_any_invoice
        (req : ProcureToPayRequest) (po_number : PyVal) (w : W)
        (po_data : Dict) (w1 : W) (expected : Q) :
  mm_po_read env po_number w = (Ok po_data, w1) ->
  InvoiceWorkflow.po_total po_data = Ok expected ->
  (expected <= 0)%Q ->
  _verify_invoice_with_ai (traced env) req po_number (w, [])
  = (Ok true, (w1, [PReadOrder])).
Proof.
  intros Hread Htotal Hle. apply Qle_bool_iff in Hle.
  unfold _verify_invoice_with_ai, bind, lift. cbn [traced mm_po_read].
  unfold noting. rewrite Hread, Htotal, Hle. reflexivity.
Qed.
End InvoiceVerificationFacts.

(** ** Concrete instances *)

Lemma call_bapi_checks_only_a_single_return_structure_witness :
  let result :=
    BaseModule.mkdict
      [("MATERIALDOCUMENT", PStr "");
       ("RETURN",
        PList [PDict (BaseModule.mkdict
                        [("TYPE", PStr "E");
                         ("MESSAGE", PStr "Plant 1000 is blocked")])])] in
  BaseModule.call_bapi PurchaseOrderGoods.erring_goods_connector
    AccountsPayable.sample_runtime "BAPI_GOODSMVT_CREATE" ∅ tt
  = (Ok result, tt) /\
  BaseModule.carries_error result = true.
Proof.
  split; [|vm_compute; reflexivity].
  apply (proj2 (call_bapi_checks_only_a_single_return_structure
                  PurchaseOrderGoods.erring_goods_connector
                  AccountsPayable.sample_runtime "BAPI_GOODSMVT_CREATE" ∅ tt))
    with (table := [PDict (BaseModule.mkdict
                             [("TYPE", PStr "E");
                              ("MESSAGE", PStr "Plant 1000 is blocked")])]);
    vm_compute; reflexivity.
Defined.

Lemma create_audits_exactly_its_successes_witness :
  AccountsPayable.transactions
    (fst (snd (AccountsPayable.create AccountsPayable.rejecting_connector
                 AccountsPayable.sample_runtime (fun _ => 0)
                 AccountsPayable.sample_invoice (AccountsPayable.init, tt))))
  = [].
Proof.
  pose proof (proj1 (create_audits_exactly_its_successes
                       AccountsPayable.rejecting_connector
                       AccountsPayable.sample_runtime (fun _ => 0))
                AccountsPayable.sample_invoice AccountsPayable.init tt) as H.
  destruct (AccountsPayable.create _ _ _ _ _) as [out [self' w']] eqn:E.
  specialize (H out self' w' eq_refl).
  assert (Hout : is_ok out = false).
  { change out with (fst (out, (self', w'))). rewrite <- E.
    vm_compute. reflexivity. }
  destruct out as [doc|e]; [discriminate Hout|exact H].
Defined.



Lemma reversal_reports_success_only_after_commit_witness :
  let run :=
    AccountsPayableDocuments.delete
      (BaseModule.logged AccountsPayableDocuments.table_answering_connector)
      AccountsPayable.sample_runtime (fun _ => 0) (fun _ => 2024)
      (PStr "5100000001") (AccountsPayable.init, (tt, [])) in
  fst run = Ok false /\ fst (snd run) = AccountsPayable.init.
Proof.
  intros run. split; [vm_compute; reflexivity|].
  apply (reversal_reports_success_only_after_commit
           AccountsPayableDocuments.table_answering_connector
           AccountsPayable.sample_runtime (fun _ => 0) (fun _ => 2024)
           (PStr "5100000001") AccountsPayable.init tt
           (fst run) (fst (snd run)) (fst (snd (snd run))) (snd (snd (snd run)))).
  vm_compute. reflexivity.
Defined.

Lemma goods_receipt_is_committed_despite_errors_in_return_table_witness :
  let result :=
    BaseModule.mkdict
      [("MATERIALDOCUMENT", PStr "");
       ("RETURN",
        PList [PDict (BaseModule.mkdict
                        [("TYPE", PStr "E");
                         ("MESSAGE", PStr "Plant 1000 is blocked")])])] in
  exists log',
    PurchaseOrderGoods.create_goods_receipt
      (BaseModule.logged PurchaseOrderGoods.erring_goods_connector)
      AccountsPayable.sample_runtime ((fun _ => 0) ∘ fst) (PStr "4500000001")
      [BaseModule.mkdict [("material", PStr "MAT001"); ("plant", PStr "1000");
                          ("quantity", PNum 100); ("po_item", PStr "00010")]]
      (tt, [])
    = (Ok (dict_get_or result "MATERIALDOCUMENT" (PStr "")), (tt, log')) /\
    map BaseModule.bapi log' = ["BAPI_GOODSMVT_CREATE"; "BAPI_TRANSACTION_COMMIT"].
Proof.
  apply (goods_receipt_is_committed_despite_errors_in_return_table
           PurchaseOrderGoods.erring_goods_connector
           AccountsPayable.sample_runtime (fun _ => 0) (PStr "4500000001")
           [BaseModule.mkdict [("material", PStr "MAT001");
                               ("plant", PStr "1000");
                               ("quantity", PNum 100);
                               ("po_item", PStr "00010")]] tt
           "%Y%m%d"
           [PDict (BaseModule.mkdict
                     [("MATERIAL", PStr "MAT001"); ("PLANT", PStr "1000");
                      ("STGE_LOC", PStr ""); ("MOVE_TYPE", PStr "101");
                      ("ENTRY_QNT", PNum 100);
                      ("PO_NUMBER", PStr "4500000001");
                      ("PO_ITEM", PStr "00010")])])
    with (table := [PDict (BaseModule.mkdict
                             [("TYPE", PStr "E");
                              ("MESSAGE", PStr "Plant 1000 is blocked")])])
         (w1 := tt) (c := ∅) (w2 := tt);
    vm_compute; reflexivity.
Defined.

Lemma prepared_receipt_items_have_every_key_witness :
  exists gm_items,
    PurchaseOrderGoods.gm_items_of (PStr "4500000001")
      [BaseModule.mkdict [("material", PStr "MAT001"); ("plant", PStr "1000");
                          ("quantity", PNum 100); ("po_item", PStr "00010")]]
    = Ok gm_items /\
    length gm_items
    = length (ProcureToPay.materials (ProcureToPay.request_for 6500)) /\
    Forall (fun gm => exists d, gm = PDict d /\
                                d !! "PO_NUMBER" = Some (PStr "4500000001") /\
                                d !! "MOVE_TYPE" = Some (PStr "101"))
           gm_items.
Proof.
  apply (prepared_receipt_items_have_every_key (PStr "4500000001")
           (ProcureToPay.materials (ProcureToPay.request_for 6500))).
  vm_compute. reflexivity.
Defined.

Lemma order_item_without_plant_fails_after_validation_witness :
  exists e,
    PurchaseOrder.create
      (BaseModule.logged PurchaseOrderGoods.erring_goods_connector)
      AccountsPayable.sample_runtime ((fun _ => 0) ∘ fst)
      PurchaseOrderGoods.order_without_plant (PurchaseOrder.init, (tt, []))
    = (Raise e, (PurchaseOrder.init, (tt, []))).
Proof.
  apply (order_item_without_plant_fails_after_validation
           PurchaseOrderGoods.erring_goods_connector
           AccountsPayable.sample_runtime (fun _ => 0)
           PurchaseOrderGoods.order_without_plant
           [PDict (BaseModule.mkdict [("material", PStr "MAT001");
                                      ("quantity", PNum 100);
                                      ("price", PNum (21 # 2))])]);
    [ vm_compute; reflexivity | vm_compute; reflexivity
    | eexists; split; [left; reflexivity|vm_compute; reflexivity] ].
Defined.

Lemma sold_to_party_is_read_back_padded_witness :
  let run :=
    SalesOrder.create
      (BaseModule.logged (SalesOrderDocuments.displaying_connector (PList [])))
      AccountsPayable.sample_runtime (fun _ => 0)
      SalesOrderDocuments.sample_order (SalesOrder.init, (tt, [])) in
  let ps := match snd (snd (snd run)) with
            | record :: _ => BaseModule.params record
            | [] => ∅
            end in
  exists c order,
    SalesOrderDocuments.sample_order !! "customer" = Some (PStr c) /\
    SalesOrderDocuments.read
      (SalesOrderDocuments.displaying_connector (dict_get ps "ORDER_PARTNERS"))
      AccountsPayable.sample_runtime (PStr "4711") tt = (Ok order, tt) /\
    order !! "customer" = Some (PStr (zfill 10 c)).
Proof.
  intros run ps.
  apply (sold_to_party_is_read_back_padded
           (SalesOrderDocuments.displaying_connector (PList []))
           AccountsPayable.sample_runtime (fun _ => 0)
           (SalesOrderDocuments.displaying_connector (dict_get ps "ORDER_PARTNERS"))
           SalesOrderDocuments.sample_order SalesOrder.init tt
           (fst run) (fst (snd run)) (fst (snd (snd run))) (snd (snd (snd run)))
           ps
           (match snd (snd (snd run)) with
            | record :: _ => BaseModule.reply record
            | [] => Ok ∅
            end)
           (PStr "4711") (BaseModule.mkdict [("DOC_TYPE", PStr "OR")]) (PList [])
           tt tt);
    [ vm_compute; reflexivity
    | left; vm_compute; reflexivity
    | vm_compute; reflexivity ].
Defined.

Lemma approval_request_excludes_posting_witness :
  let run :=
    InvoiceWorkflow.process_invoice_file
      (InvoiceWorkflow.traced
         (InvoiceWorkflow.sample_env (InvoiceWorkflow.invoice_of 1051) (Ok tt)))
      AccountsPayable.sample_runtime "invoice.pdf" None
      ((AccountsPayable.init, tt), []) in
  let r := match fst run with
           | Ok r => r
           | Raise _ => InvoiceWorkflow.initial_result "invoice.pdf"
           end in
  ~ In InvoiceWorkflow.CCreate (snd (snd run)) /\
  InvoiceWorkflow.sap_document r = None /\
  (InvoiceWorkflow.status r = "po_mismatch" \/
   InvoiceWorkflow.status r = "three_way_mismatch" \/
   InvoiceWorkflow.status r = "pending_approval" \/
   InvoiceWorkflow.status r = "failed").
Proof.
  intros run r.
  apply (approval_request_excludes_posting
           (InvoiceWorkflow.sample_env (InvoiceWorkflow.invoice_of 1051) (Ok tt))
           AccountsPayable.sample_runtime "invoice.pdf" None
           (AccountsPayable.init, tt) r (fst (snd run)) (snd (snd run)));
    [ vm_compute; reflexivity
    | vm_compute; repeat (first [left; reflexivity | right]) ].
Defined.


Lemma order_without_value_passes_any_invoice_witness :
  ProcureToPay._verify_invoice_with_ai
    (ProcureToPay.traced
       (ProcureToPayStatus.sample_env_with
          (fun _ => ret ProcureToPayStatus.order_without_items)
          (ProcureToPay.anomaly_detect ProcureToPay.sample_env)))
    (ProcureToPay.request_for 20000) (PStr "4500000001")
    ((AccountsPayable.init, tt), [])
  = (Ok true, ((AccountsPayable.init, tt), [ProcureToPay.PReadOrder])).
Proof.
  apply (order_without_value_passes_any_invoice
           (ProcureToPayStatus.sample_env_with
              (fun _ => ret ProcureToPayStatus.order_without_items)
              (ProcureToPay.anomaly_detect ProcureToPay.sample_env))
           (ProcureToPay.request_for 20000) (PStr "4500000001")
           (AccountsPayable.init, tt) ProcureToPayStatus.order_without_items
           (AccountsPayable.init, tt) 0%Q);
    [ reflexivity | vm_compute; reflexivity | apply Qle_refl ].
Defined.


Lemma order_without_value_never_matches_witness :
  exists m,
    InvoiceWorkflow._match_with_po InvoiceWorkflowTraces.empty_order_env
      AccountsPayable.sample_runtime (InvoiceWorkflow.invoice_of 1000)
      (PStr "4500000001") tt = (Ok m, tt) /\
    m !! "is_match" = Some (PBool false) /\
    exists e, m !! "reason" = Some (PStr ("PO lookup failed: " ++ exn_str e)).
Proof.
  apply (order_without_value_never_matches
           InvoiceWorkflowTraces.empty_order_env
           AccountsPayable.sample_runtime (InvoiceWorkflow.invoice_of 1000)
           (PStr "4500000001") tt
           (BaseModule.mkdict [("po_number", PStr "4500000001");
                               ("items", PList [])]) tt 0%Q);
    [ reflexivity | vm_compute; reflexivity | reflexivity ].
Defined.
